(** * Order lifecycle and subscription billing of the marketplace backend

    A shallow embedding of the request handlers in
    [app/api/v1/endpoints/orders.py], [subscriptions.py], [billing.py] and
    [usage_tracking.py], together with the model methods of
    [app/models/subscription.py] they call.

    Conventions of the embedding.
    - A handler is a function from the committed database state and its
      request parameters to the committed state after the request and the
      handler's outcome: the value it returns or the exception it raises.
      Changes made to ORM objects after the last [commit] of a request are
      dropped with the request's session and so never reach the result state.
    - Every [datetime.utcnow()] call of a handler is a separate parameter.
    - A row carries the columns of its model class that the handlers read
      and write; an optional column holds [None] until it is assigned.  The
      model classes are SQLModel table classes: the constructor drops the
      keyword arguments that name no field and checks nothing, the assignment
      of an attribute the class does not declare raises [ValueError], the
      read of one raises [AttributeError], and the insert of a row that has
      no value for a column that is NOT NULL without default raises
      [IntegrityError] when the session flushes.
    - [query(...).filter(...).first()] returns the first matching row in
      table order; tables queried this way are lists of rows.  Tables only
      reached through [session.get] are finite maps keyed by primary key. *)

From Stdlib Require Import ZArith Bool Lia.
From stdpp Require Import base option list gmap strings.

Open Scope Z_scope.

(** ** Outcomes *)

Inductive outcome (E A : Type) : Type :=
| Return (a : A)
| Raise (e : E).
Arguments Return {E A} a.
Arguments Raise {E A} e.

Definition returned {E A} (o : outcome E A) : bool :=
  match o with Return _ => true | Raise _ => false end.

(** ** Dates

    A naive [datetime] is the number of microseconds since
    0001-01-01T00:00:00; a [timedelta] is a number of microseconds. *)

Definition us_per_day : Z := 86400000000.

(** [timedelta(days=n)] for the literal day counts of the handlers. *)
Definition timedelta_days (n : Z) : Z := n * us_per_day.

(** [datetime.max] is 9999-12-31T23:59:59.999999, the last microsecond of
    proleptic day 3652059. *)
Definition datetime_max : Z := 3652059 * us_per_day - 1.

(** [dt + delta]: [None] stands for the [OverflowError] Python raises when
    the sum leaves the range of [datetime]. *)
Definition datetime_add (dt delta : Z) : option Z :=
  if bool_decide (0 <= dt + delta <= datetime_max) then Some (dt + delta) else None.

(** ** Python dictionaries written as literals *)

Fixpoint dict_get {K V} `{EqDecision K} (d : list (K * V)) (k : K) (default : V) : V :=
  match d with
  | [] => default
  | (k', v) :: d' => if decide (k = k') then v else dict_get d' k default
  end.

(** * Orders *)

Module Orders.

Module OrderStatus.
Inductive t :=
| DRAFT | PENDING | CONFIRMED | PROCESSING | SHIPPED
| OUT_FOR_DELIVERY | DELIVERED | CANCELLED | RETURNED | REFUNDED.
#[global] Instance eq_dec : EqDecision t.
Proof. solve_decision. Defined.
End OrderStatus.

Module PaymentStatus.
Inductive t := PENDING | PAID | FAILED | REFUNDED | PARTIAL.
#[global] Instance eq_dec : EqDecision t.
Proof. solve_decision. Defined.
End PaymentStatus.

(** The pieces of an f-string: literal text and formatted values. *)
Inductive piece :=
| Lit (s : string)
| FmtStatus (s : OrderStatus.t)
| FmtInt (n : Z)
| FmtStr (s : string).

(** The exceptions of the order handlers.  [ValueError] is what the model
    base class raises when an attribute is assigned that the class does not
    declare as a field; [IntegrityError] is what a flush raises when a row
    breaks a constraint of its table. *)
Inductive exn :=
| HTTPException (status_code : Z) (detail : list piece)
| IntegrityError
| ValueError (field : string).

Record User := { user_id : Z }.

Record Vendor := {
  vendor_id : Z;
  vendor_user_id : Z;
  business_name : string }.

Record Address := {
  address_id : Z;
  address_user_id : option Z }.

Record Product (number : Type) := {
  product_id : Z;
  product_vendor_id : Z;
  product_name : string;
  price : number }.
Arguments product_id {number} _.
Arguments product_vendor_id {number} _.
Arguments product_name {number} _.
Arguments price {number} _.

(** The fields of class [Order] that the handlers read, write or need for
    the insert.  The columns [order_number], [delivery_address_id],
    [subtotal] and [total_amount] are NOT NULL and have no default: on an
    object they hold [None] until a value is given.  The amounts with the
    column default 0.00 hold [None] while that default applies. *)
Record Order (number : Type) := {
  id : Z;
  order_number : option string;
  customer_id : Z;
  order_vendor_id : Z;
  status : OrderStatus.t;
  payment_status : PaymentStatus.t;
  delivery_address_id : option Z;
  billing_address_id : option Z;
  subtotal : option number;
  tax_amount : option number;
  discount_amount : option number;
  shipping_amount : option number;
  total_amount : option number;
  updated_at : option Z;
  cancelled_at : option Z;
  cancellation_reason : option string }.
Arguments id {number} _.
Arguments order_number {number} _.
Arguments customer_id {number} _.
Arguments order_vendor_id {number} _.
Arguments status {number} _.
Arguments payment_status {number} _.
Arguments delivery_address_id {number} _.
Arguments billing_address_id {number} _.
Arguments subtotal {number} _.
Arguments tax_amount {number} _.
Arguments discount_amount {number} _.
Arguments shipping_amount {number} _.
Arguments total_amount {number} _.
Arguments updated_at {number} _.
Arguments cancelled_at {number} _.
Arguments cancellation_reason {number} _.

(** The fields of class [OrderItem].  [total_price] and [product_name] are
    NOT NULL and have no default. *)
Record OrderItem (number : Type) := {
  item_order_id : Z;
  item_product_id : Z;
  quantity : Z;
  unit_price : number;
  total_price : option number;
  item_product_name : option string }.
Arguments item_order_id {number} _.
Arguments item_product_id {number} _.
Arguments quantity {number} _.
Arguments unit_price {number} _.
Arguments total_price {number} _.
Arguments item_product_name {number} _.

(** The committed database, as far as the order handlers reach it. *)
Record Session (number : Type) := {
  vendors : list Vendor;
  addresses : gmap Z Address;
  products : gmap Z (Product number);
  orders : gmap Z (Order number);
  order_items : list (OrderItem number) }.
Arguments vendors {number} _.
Arguments addresses {number} _.
Arguments products {number} _.
Arguments orders {number} _.
Arguments order_items {number} _.

(** The request body of [create_order], a dictionary: the [items] list, the
    keys the handler reads, and the keys of the columns of [Order] that the
    handler does not supply itself.  A key that the dictionary does not have
    is [None]. *)
Record ItemData := {
  item_data_product_id : Z;
  item_data_quantity : Z }.

Record OrderData (number : Type) := {
  data_items : list ItemData;
  data_vendor_id : option Z;
  data_billing_address_id : option Z;
  data_shipping_address_id : option Z;
  data_order_number : option string;
  data_delivery_address_id : option Z;
  data_subtotal : option number;
  data_tax_amount : option number;
  data_discount_amount : option number;
  data_shipping_amount : option number;
  data_total_amount : option number }.
Arguments data_items {number} _.
Arguments data_vendor_id {number} _.
Arguments data_billing_address_id {number} _.
Arguments data_shipping_address_id {number} _.
Arguments data_order_number {number} _.
Arguments data_delivery_address_id {number} _.
Arguments data_subtotal {number} _.
Arguments data_tax_amount {number} _.
Arguments data_discount_amount {number} _.
Arguments data_shipping_amount {number} _.
Arguments data_total_amount {number} _.

Definition has_value {A} (x : option A) : bool :=
  match x with Some _ => true | None => false end.

Section Handlers.
Context {number : Type}.

(** Assignments to declared fields. *)
Definition set_status (v : OrderStatus.t) (o : Order number) : Order number :=
  {| id := id o; order_number := order_number o; customer_id := customer_id o;
     order_vendor_id := order_vendor_id o; status := v;
     payment_status := payment_status o;
     delivery_address_id := delivery_address_id o;
     billing_address_id := billing_address_id o;
     subtotal := subtotal o; tax_amount := tax_amount o;
     discount_amount := discount_amount o; shipping_amount := shipping_amount o;
     total_amount := total_amount o; updated_at := updated_at o;
     cancelled_at := cancelled_at o; cancellation_reason := cancellation_reason o |}.

Definition set_updated_at (v : Z) (o : Order number) : Order number :=
  {| id := id o; order_number := order_number o; customer_id := customer_id o;
     order_vendor_id := order_vendor_id o; status := status o;
     payment_status := payment_status o;
     delivery_address_id := delivery_address_id o;
     billing_address_id := billing_address_id o;
     subtotal := subtotal o; tax_amount := tax_amount o;
     discount_amount := discount_amount o; shipping_amount := shipping_amount o;
     total_amount := total_amount o; updated_at := Some v;
     cancelled_at := cancelled_at o; cancellation_reason := cancellation_reason o |}.

Definition set_total_amount (v : number) (o : Order number) : Order number :=
  {| id := id o; order_number := order_number o; customer_id := customer_id o;
     order_vendor_id := order_vendor_id o; status := status o;
     payment_status := payment_status o;
     delivery_address_id := delivery_address_id o;
     billing_address_id := billing_address_id o;
     subtotal := subtotal o; tax_amount := tax_amount o;
     discount_amount := discount_amount o; shipping_amount := shipping_amount o;
     total_amount := Some v; updated_at := updated_at o;
     cancelled_at := cancelled_at o; cancellation_reason := cancellation_reason o |}.

Definition set_payment_status (v : PaymentStatus.t) (o : Order number) : Order number :=
  {| id := id o; order_number := order_number o; customer_id := customer_id o;
     order_vendor_id := order_vendor_id o; status := status o;
     payment_status := v;
     delivery_address_id := delivery_address_id o;
     billing_address_id := billing_address_id o;
     subtotal := subtotal o; tax_amount := tax_amount o;
     discount_amount := discount_amount o; shipping_amount := shipping_amount o;
     total_amount := total_amount o; updated_at := updated_at o;
     cancelled_at := cancelled_at o; cancellation_reason := cancellation_reason o |}.

(** The five amounts of an order. *)
Definition amounts (o : Order number) :=
  (subtotal o, tax_amount o, discount_amount o, shipping_amount o, total_amount o).

(** [session.add(order); session.commit()]: the row of primary key [key] is
    written. *)
Definition commit_order (key : Z) (o : Order number) (s : Session number)
  : Session number :=
  {| vendors := vendors s; addresses := addresses s; products := products s;
     orders := <[key := o]> (orders s); order_items := order_items s |}.

(** ** [update_order_status] *)

(** The dictionary literal of the handler. *)
Definition valid_transitions : list (OrderStatus.t * list OrderStatus.t) :=
  [ (OrderStatus.PENDING,    [OrderStatus.CONFIRMED; OrderStatus.CANCELLED]);
    (OrderStatus.CONFIRMED,  [OrderStatus.PROCESSING; OrderStatus.CANCELLED]);
    (OrderStatus.PROCESSING, [OrderStatus.SHIPPED; OrderStatus.CANCELLED]);
    (OrderStatus.SHIPPED,    [OrderStatus.DELIVERED; OrderStatus.RETURNED]);
    (OrderStatus.DELIVERED,  [OrderStatus.RETURNED]) ].

(** The timestamps for specific statuses.  The handler assigns
    [order.confirmed_at], [order.shipped_at] and [order.delivered_at]; class
    [Order] declares none of them (its dates are [shipped_date] and
    [delivered_date]), and each assignment raises.  [now] is the clock
    reading taken for the right-hand side. *)
Definition stamp_status (new_status : OrderStatus.t) (now : Z) (o : Order number)
  : outcome exn (Order number) :=
  if decide (new_status = OrderStatus.CONFIRMED) then Raise (ValueError "confirmed_at")
  else if decide (new_status = OrderStatus.SHIPPED) then Raise (ValueError "shipped_at")
  else if decide (new_status = OrderStatus.DELIVERED)
  then Raise (ValueError "delivered_at")
  else Return o.

(** [select(Vendor).where(Vendor.user_id == current_user.id,
    Vendor.id == order.vendor_id)).first()] *)
Definition vendor_of_order (session : Session number) (current_user : User)
    (order : Order number) : option Vendor :=
  List.find (fun v : Vendor =>
               bool_decide (vendor_user_id v = user_id current_user)
               && bool_decide (vendor_id v = order_vendor_id order))
            (vendors session).

Definition update_order_status (order_id : Z) (new_status : OrderStatus.t)
    (session : Session number) (current_user : User) (now_updated now_stamp : Z)
  : Session number * outcome exn (Order number) :=
  match orders session !! order_id with
  | None => (session, Raise (HTTPException 404 [Lit "Order not found"]))
  | Some order =>
    match vendor_of_order session current_user order with
    | None =>
      (session, Raise (HTTPException 403 [Lit "Only the vendor can update order status"]))
    | Some vendor =>
      if negb (bool_decide
                 (new_status ∈ dict_get valid_transitions (status order) []))
      then (session,
            Raise (HTTPException 400
                     [Lit "Cannot transition from "; FmtStatus (status order);
                      Lit " to "; FmtStatus new_status]))
      else
        let order := set_status new_status order in
        let order := set_updated_at now_updated order in
        match stamp_status new_status now_stamp order with
        | Raise e => (session, Raise e)
        | Return order => (commit_order order_id order session, Return order)
        end
    end
  end.

(** The table of the specification, section 4.1, written after its words. *)
Definition spec_allowed (current requested : OrderStatus.t) : bool :=
  match current, requested with
  | OrderStatus.PENDING, OrderStatus.CONFIRMED
  | OrderStatus.PENDING, OrderStatus.CANCELLED
  | OrderStatus.CONFIRMED, OrderStatus.PROCESSING
  | OrderStatus.CONFIRMED, OrderStatus.CANCELLED
  | OrderStatus.PROCESSING, OrderStatus.SHIPPED
  | OrderStatus.PROCESSING, OrderStatus.CANCELLED
  | OrderStatus.SHIPPED, OrderStatus.DELIVERED
  | OrderStatus.SHIPPED, OrderStatus.RETURNED
  | OrderStatus.DELIVERED, OrderStatus.RETURNED => true
  | _, _ => false
  end.

(** The statuses for which the handler assigns a timestamp. *)
Definition stamped : list OrderStatus.t :=
  [OrderStatus.CONFIRMED; OrderStatus.SHIPPED; OrderStatus.DELIVERED].

(** ** [update_payment_status] *)

(** [select(Vendor).where(Vendor.user_id == current_user.id)).first()] *)
Definition vendor_of_user (session : Session number) (current_user : User)
  : option Vendor :=
  List.find (fun v : Vendor => bool_decide (vendor_user_id v = user_id current_user))
            (vendors session).

(** [order.customer_id != current_user.id and
     (not vendor or order.vendor_id != vendor.id)] *)
Definition no_access (order : Order number) (current_user : User)
    (vendor : option Vendor) : bool :=
  bool_decide (customer_id order <> user_id current_user)
  && match vendor with
     | None => true
     | Some v => bool_decide (order_vendor_id order <> vendor_id v)
     end.

(** Truth value of an optional string: [None] and the empty string are false. *)
Definition truthy_str (s : option string) : bool :=
  match s with
  | Some s => negb (bool_decide (s = EmptyString))
  | None => false
  end.

(** [if transaction_id: order.payment_transaction_id = transaction_id]: class
    [Order] has no such field (its column is [payment_reference]), and the
    assignment raises. *)
Definition update_payment_status (order_id : Z) (new_status : PaymentStatus.t)
    (transaction_id : option string)
    (session : Session number) (current_user : User)
  : Session number * outcome exn (Order number) :=
  match orders session !! order_id with
  | None => (session, Raise (HTTPException 404 [Lit "Order not found"]))
  | Some order =>
    if no_access order current_user (vendor_of_user session current_user)
    then (session, Raise (HTTPException 403 [Lit "No access to this order"]))
    else
      let order := set_payment_status new_status order in
      if truthy_str transaction_id
      then (session, Raise (ValueError "payment_transaction_id"))
      else (commit_order order_id order session, Return order)
  end.

(** ** [cancel_order]

    [if reason: order.notes = ...]: class [Order] has no field [notes] (its
    fields are [order_notes] and [internal_notes]), and the assignment
    raises.  The handler assigns neither [cancelled_at] nor
    [cancellation_reason]. *)

Definition cancel_order (order_id : Z) (reason : option string)
    (session : Session number) (current_user : User) (now : Z)
  : Session number * outcome exn (Order number) :=
  match orders session !! order_id with
  | None => (session, Raise (HTTPException 404 [Lit "Order not found"]))
  | Some order =>
    if no_access order current_user (vendor_of_user session current_user)
    then (session, Raise (HTTPException 403 [Lit "No permission to cancel this order"]))
    else if bool_decide (status order ∈ [OrderStatus.DELIVERED; OrderStatus.CANCELLED;
                                         OrderStatus.RETURNED])
    then (session,
          Raise (HTTPException 400
                   [Lit "Cannot cancel order with status "; FmtStatus (status order)]))
    else
      let order := set_status OrderStatus.CANCELLED order in
      let order := set_updated_at now order in
      if truthy_str reason
      then (session, Raise (ValueError "notes"))
      else (commit_order order_id order session, Return order)
  end.

(** ** [create_order]

    The arithmetic of the handler is kept abstract: [number] is the type of
    Python numbers ([int], [Decimal], [float]) and the four operations are the
    ones the handler applies.  Nothing is assumed about them, so what is
    proved holds for binary floating point as it does for exact arithmetic. *)

Section CreateOrder.
Variable num_of_int : Z -> number.               (* an [int] literal *)
Variable to_float : number -> number.            (* [float(x)] *)
Variable num_add : number -> number -> number.   (* [x + y] *)
Variable num_mul_int : number -> Z -> number.    (* [x * n], [n] an [int] *)

(** [session.get(Vendor, key)] *)
Definition get_vendor (session : Session number) (key : option Z) : option Vendor :=
  match key with
  | None => None
  | Some k => List.find (fun v : Vendor => bool_decide (vendor_id v = k)) (vendors session)
  end.

(** [order_data.get(key)] is true when the key is present and not zero. *)
Definition truthy_id (key : option Z) : bool :=
  match key with
  | Some k => negb (bool_decide (k = 0))
  | None => false
  end.

(** [not address or address.user_id != current_user.id] *)
Definition invalid_address (session : Session number) (current_user : User)
    (key : option Z) : bool :=
  match addresses session !! default 0 key with
  | None => true
  | Some a => bool_decide (address_user_id a <> Some (user_id current_user))
  end.

(** The [Order] built from the keys of [order_data], the caller as customer,
    and the statuses PENDING.  The key [shipping_address_id] is no field of
    [Order] and the constructor drops it.  The handler builds the order
    after it has found the vendor, so the request has a [vendor_id].
    [new_id] is the primary key drawn for the row and [now] the clock reading
    of the timestamp defaults. *)
Definition new_order (data : OrderData number) (current_user : User)
    (new_id now : Z) : Order number :=
  {| id := new_id; order_number := data_order_number data;
     customer_id := user_id current_user;
     order_vendor_id := default 0 (data_vendor_id data);
     status := OrderStatus.PENDING; payment_status := PaymentStatus.PENDING;
     delivery_address_id := data_delivery_address_id data;
     billing_address_id := data_billing_address_id data;
     subtotal := data_subtotal data; tax_amount := data_tax_amount data;
     discount_amount := data_discount_amount data;
     shipping_amount := data_shipping_amount data;
     total_amount := data_total_amount data; updated_at := Some now;
     cancelled_at := None; cancellation_reason := None |}.

(** The insert of an order: the columns without default hold a value, the
    primary key is new and so is the order number, which is unique. *)
Definition order_insertable (session : Session number) (o : Order number) : bool :=
  has_value (order_number o) && has_value (delivery_address_id o)
  && has_value (subtotal o) && has_value (total_amount o)
  && bool_decide (orders session !! id o = None)
  && bool_decide (map_Forall (fun _ o' => order_number o' ≠ order_number o)
                    (orders session)).

(** The [OrderItem] of the loop.  The constructor is given [order_id],
    [product_id], [quantity], [unit_price] and three keywords that are no
    fields of [OrderItem] (the product snapshot, the customizations and the
    special instructions), which it drops; [total_price] and [product_name]
    are not given. *)
Definition new_order_item (order_id : Z) (product : Product number)
    (item_data : ItemData) : OrderItem number :=
  {| item_order_id := order_id; item_product_id := product_id product;
     quantity := item_data_quantity item_data; unit_price := price product;
     total_price := None; item_product_name := None |}.

(** The insert of an item row: the columns without default hold a value. *)
Definition item_insertable (item : OrderItem number) : bool :=
  has_value (total_price item) && has_value (item_product_name item).

(** The loop over [items_data]: the running [total_amount], the keys of the
    products the session has loaded, and the items added to the session and
    not yet flushed.  [session.get(Product, key)] returns a loaded product
    without a query; otherwise it queries, and the query first flushes the
    items that were added, which raises when one of them cannot be
    inserted. *)
Fixpoint add_order_items (session : Session number) (vendor : Vendor) (order_id : Z)
    (items_data : list ItemData) (total_amount : number) (loaded : list Z)
    (added : list (OrderItem number))
  : outcome exn (number * list (OrderItem number)) :=
  match items_data with
  | [] => Return (total_amount, added)
  | item_data :: rest =>
    if negb (bool_decide (item_data_product_id item_data ∈ loaded))
       && negb (forallb item_insertable added)
    then Raise IntegrityError
    else
      match products session !! item_data_product_id item_data with
      | None =>
        Raise (HTTPException 400
                 [Lit "Product "; FmtInt (item_data_product_id item_data);
                  Lit " not found"])
      | Some product =>
        if bool_decide (product_vendor_id product <> vendor_id vendor)
        then Raise (HTTPException 400
                      [Lit "Product "; FmtStr (product_name product);
                       Lit " does not belong to vendor ";
                       FmtStr (business_name vendor)])
        else
          add_order_items session vendor order_id rest
            (num_add total_amount
               (num_mul_int (to_float (price product)) (item_data_quantity item_data)))
            (item_data_product_id item_data :: loaded)
            (added ++ [new_order_item order_id product item_data])
      end
  end.

Definition commit_items (added : list (OrderItem number)) (s : Session number)
  : Session number :=
  {| vendors := vendors s; addresses := addresses s; products := products s;
     orders := orders s; order_items := order_items s ++ added |}.

(** The handler commits twice: the order before the loop, and the items
    with the order's new total after it.  What the first commit has written
    stays when the loop or the second commit raises. *)
Definition create_order (order_data : OrderData number) (session : Session number)
    (current_user : User) (new_id now : Z)
  : Session number * outcome exn (Order number) :=
  match data_items order_data with
  | [] =>
    (session, Raise (HTTPException 400 [Lit "Order must contain at least one item"]))
  | _ :: _ =>
    match get_vendor session (data_vendor_id order_data) with
    | None => (session, Raise (HTTPException 404 [Lit "Vendor not found"]))
    | Some vendor =>
      if truthy_id (data_billing_address_id order_data)
         && invalid_address session current_user (data_billing_address_id order_data)
      then (session, Raise (HTTPException 400 [Lit "Invalid billing address"]))
      else if truthy_id (data_shipping_address_id order_data)
              && invalid_address session current_user
                   (data_shipping_address_id order_data)
      then (session, Raise (HTTPException 400 [Lit "Invalid shipping address"]))
      else
        let order := new_order order_data current_user new_id now in
        if negb (order_insertable session order)
        then (session, Raise IntegrityError)
        else
          let session := commit_order new_id order session in
          match add_order_items session vendor new_id (data_items order_data)
                  (num_of_int 0) [] [] with
          | Raise e => (session, Raise e)
          | Return (total_amount, added) =>
            if forallb item_insertable added
            then
              let order := set_total_amount total_amount order in
              (commit_items added (commit_order new_id order session), Return order)
            else (session, Raise IntegrityError)
          end
    end
  end.

(** The line total of an item: [float(product.price) * quantity]. *)
Definition line_total (session : Session number) (item_data : ItemData) : option number :=
  p ← products session !! item_data_product_id item_data;
  Some (num_mul_int (to_float (price p)) (item_data_quantity item_data)).

(** The sum of the line totals of a request, added from left to right to the
    integer 0; an item whose product does not exist contributes nothing. *)
Definition sum_line_totals (session : Session number) (items_data : list ItemData)
  : number :=
  foldl (fun acc item_data =>
           match line_total session item_data with
           | Some x => num_add acc x
           | None => acc
           end)
        (num_of_int 0) items_data.

End CreateOrder.

End Handlers.

(** Amounts counted in hundredths (paise): an instance of the arithmetic in
    which every operation is exact.  On the amounts of the scenarios below
    (whole rupees far below 2^53) binary floating point is exact as well. *)
Definition create_order_exact :=
  @create_order Z (fun n => n * 100) (fun x => x) Z.add Z.mul.

(** [total_amount == subtotal + tax - discount + shipping], an amount that was
    not supplied counting as the column default 0.00; false when the order has
    no subtotal or no total. *)
Definition totals_invariant (o : Order Z) : Prop :=
  match total_amount o, subtotal o with
  | Some total, Some sub =>
    total = sub + default 0 (tax_amount o) - default 0 (discount_amount o)
            + default 0 (shipping_amount o)
  | _, _ => False
  end.

(** ** [get_order] and [get_order_items] *)

Section Reads.
Context {number : Type}.

Definition get_order (order_id : Z) (session : Session number) (current_user : User)
  : outcome exn (Order number) :=
  match orders session !! order_id with
  | None => Raise (HTTPException 404 [Lit "Order not found"])
  | Some order =>
    if no_access order current_user (vendor_of_user session current_user)
    then Raise (HTTPException 403 [Lit "No access to this order"])
    else Return order
  end.

Definition get_order_items (order_id : Z) (session : Session number)
    (current_user : User) : outcome exn (list (OrderItem number)) :=
  match orders session !! order_id with
  | None => Raise (HTTPException 404 [Lit "Order not found"])
  | Some order =>
    if no_access order current_user (vendor_of_user session current_user)
    then Raise (HTTPException 403 [Lit "No access to this order"])
    else Return (filter (fun item => item_order_id item = order_id)
                        (order_items session))
  end.

(** An item of a request that the loop of [create_order] lets through when
    it looks its product up: the product exists and belongs to the vendor. *)
Definition item_accepted (session : Session number) (vendor : Vendor)
    (item_data : ItemData) : bool :=
  match products session !! item_data_product_id item_data with
  | Some product => bool_decide (product_vendor_id product = vendor_id vendor)
  | None => false
  end.

(** The checks of [create_order] before the order is built. *)
Definition request_checked (session : Session number) (current_user : User)
    (order_data : OrderData number) : bool :=
  negb (bool_decide (data_items order_data = []))
  && has_value (get_vendor session (data_vendor_id order_data))
  && negb (truthy_id (data_billing_address_id order_data)
           && invalid_address session current_user
                (data_billing_address_id order_data))
  && negb (truthy_id (data_shipping_address_id order_data)
           && invalid_address session current_user
                (data_shipping_address_id order_data)).

(** What no handler changes on an order: its key, customer, vendor and
    amounts. *)
Definition same_order (order order' : Order number) : Prop :=
  id order' = id order ∧ customer_id order' = customer_id order
  ∧ order_vendor_id order' = order_vendor_id order
  ∧ amounts order' = amounts order.

(** How far a status is along the life of an order. *)
Definition status_rank (s : OrderStatus.t) : nat :=
  match s with
  | OrderStatus.DRAFT | OrderStatus.OUT_FOR_DELIVERY | OrderStatus.REFUNDED => 0
  | OrderStatus.PENDING => 1
  | OrderStatus.CONFIRMED => 2
  | OrderStatus.PROCESSING => 3
  | OrderStatus.SHIPPED => 4
  | OrderStatus.DELIVERED => 5
  | OrderStatus.CANCELLED | OrderStatus.RETURNED => 6
  end%nat.

(** What a request keeps of an order that is in the table. *)
Definition kept (session' : Session number) (order_id : Z) (order : Order number)
  : Prop :=
  ∃ order', orders session' !! order_id = Some order'
            ∧ same_order order order'
            ∧ (status_rank (status order) <= status_rank (status order'))%nat.

(** One request to a handler of [orders.py] that writes. *)
Inductive order_step (num_of_int : Z -> number) (to_float : number -> number)
    (num_add : number -> number -> number) (num_mul_int : number -> Z -> number)
  : Session number -> Session number -> Prop :=
| step_create_order order_data session current_user new_id now :
    order_step num_of_int to_float num_add num_mul_int session
      (create_order num_of_int to_float num_add num_mul_int order_data session
         current_user new_id now).1
| step_update_order_status order_id new_status session current_user now_updated
    now_stamp :
    order_step num_of_int to_float num_add num_mul_int session
      (update_order_status order_id new_status session current_user now_updated
         now_stamp).1
| step_update_payment_status order_id new_status transaction_id session current_user :
    order_step num_of_int to_float num_add num_mul_int session
      (update_payment_status order_id new_status transaction_id session
         current_user).1
| step_cancel_order order_id reason session current_user now :
    order_step num_of_int to_float num_add num_mul_int session
      (cancel_order order_id reason session current_user now).1.

End Reads.

End Orders.

(** * Subscriptions, billing and usage tracking *)

Module Billing.

Module SubscriptionStatus.
Inductive t := ACTIVE | INACTIVE | SUSPENDED | CANCELLED | EXPIRED | TRIAL.
#[global] Instance eq_dec : EqDecision t.
Proof. solve_decision. Defined.
End SubscriptionStatus.

Module BillingCycle.
Inductive t := MONTHLY | QUARTERLY | ANNUALLY | LIFETIME.
#[global] Instance eq_dec : EqDecision t.
Proof. solve_decision. Defined.
End BillingCycle.

Module PaymentStatus.
Inductive t := PENDING | COMPLETED | FAILED | REFUNDED | CANCELLED.
#[global] Instance eq_dec : EqDecision t.
Proof. solve_decision. Defined.
End PaymentStatus.

Module PaymentMethod.
Inductive t := CREDIT_CARD | DEBIT_CARD | NET_BANKING | UPI | WALLET | BANK_TRANSFER.
#[global] Instance eq_dec : EqDecision t.
Proof. solve_decision. Defined.
End PaymentMethod.

(** The exceptions of the handlers.  [UnboundLocalError] is raised by the
    read of a local name that has no value yet, [AttributeError] by the read
    of an attribute an object does not have, [ProgrammingError] and
    [OverflowError] by the database for a value that cannot be bound as the
    parameter of a statement. *)
Inductive exn :=
| HTTPException (status_code : Z) (detail : string)
| OverflowError
| ZeroDivisionError
| AttributeError
| UnboundLocalError
| ProgrammingError.

(** The primary key of a vendor profile.  Class [Vendor] declares its [id] a
    UUID, while the [vendor_id] columns of the subscription, payment, usage
    and billing address tables are integers.  A comparison of such a column
    with a UUID holds of no row, and a UUID cannot be bound as the value of
    such a column: the insert raises [ProgrammingError]. *)
Inductive vendor_key :=
| Int_key (n : Z)
| Uuid_key (u : N).
#[global] Instance vendor_key_eq_dec : EqDecision vendor_key.
Proof. solve_decision. Defined.

(** The vendor profile of the caller, as [require_vendor] supplies it. *)
Record Vendor := { vendor_id : vendor_key }.

(** The value a key gives to an integer column. *)
Definition column_value (key : vendor_key) : option Z :=
  match key with
  | Int_key n => Some n
  | Uuid_key _ => None
  end.

(** The range of an INTEGER column: a Python integer outside it cannot be
    bound, and the statement raises [OverflowError]. *)
Definition sqlite_integer (n : Z) : bool := bool_decide (- 2 ^ 63 <= n < 2 ^ 63).

(** [timedelta(days=n)]: [None] stands for the [OverflowError] raised for more
    than 999999999 days. *)
Definition timedelta (days : Z) : option Z :=
  if bool_decide (-999999999 <= days <= 999999999) then Some (days * us_per_day)
  else None.

(** [dt + timedelta(days=n)] *)
Definition add_days (dt days : Z) : option Z :=
  delta ← timedelta days; datetime_add dt delta.

(** An entry of [plan.features]: a dictionary that may hold a [limit]. *)
Record FeatureConfig := { limit : option Z }.

Module SubscriptionPlan.
Record t := {
  id : Z;
  name : string;
  base_price : Z;
  billing_cycle : BillingCycle.t;
  features : gmap string FeatureConfig;
  is_active : bool;
  trial_days : option Z }.
End SubscriptionPlan.

(** The fields of class [Subscription] that the handlers read and write.  The
    class has no billing cycle: that is a column of the plan. *)
Module Subscription.
Record t := {
  id : Z;
  vendor_id : Z;
  plan_id : Z;
  status : SubscriptionStatus.t;
  start_date : Z;
  end_date : option Z;
  trial_end_date : option Z;
  current_period_start : Z;
  current_period_end : Z;
  next_billing_date : option Z;
  amount : Z;
  currency : string;
  cancelled_at : option Z;
  cancellation_reason : option string;
  auto_renew : bool }.
Definition set_status (v : SubscriptionStatus.t) (r : t) : t :=
  {| id := id r; vendor_id := vendor_id r; plan_id := plan_id r; status := v;
     start_date := start_date r; end_date := end_date r;
     trial_end_date := trial_end_date r;
     current_period_start := current_period_start r;
     current_period_end := current_period_end r;
     next_billing_date := next_billing_date r; amount := amount r;
     currency := currency r; cancelled_at := cancelled_at r;
     cancellation_reason := cancellation_reason r;
     auto_renew := auto_renew r |}.
Definition set_end_date (v : option Z) (r : t) : t :=
  {| id := id r; vendor_id := vendor_id r; plan_id := plan_id r;
     status := status r; start_date := start_date r; end_date := v;
     trial_end_date := trial_end_date r;
     current_period_start := current_period_start r;
     current_period_end := current_period_end r;
     next_billing_date := next_billing_date r; amount := amount r;
     currency := currency r; cancelled_at := cancelled_at r;
     cancellation_reason := cancellation_reason r;
     auto_renew := auto_renew r |}.
Definition set_current_period_start (v : Z) (r : t) : t :=
  {| id := id r; vendor_id := vendor_id r; plan_id := plan_id r;
     status := status r; start_date := start_date r; end_date := end_date r;
     trial_end_date := trial_end_date r; current_period_start := v;
     current_period_end := current_period_end r;
     next_billing_date := next_billing_date r; amount := amount r;
     currency := currency r; cancelled_at := cancelled_at r;
     cancellation_reason := cancellation_reason r;
     auto_renew := auto_renew r |}.
Definition set_current_period_end (v : Z) (r : t) : t :=
  {| id := id r; vendor_id := vendor_id r; plan_id := plan_id r;
     status := status r; start_date := start_date r; end_date := end_date r;
     trial_end_date := trial_end_date r;
     current_period_start := current_period_start r; current_period_end := v;
     next_billing_date := next_billing_date r; amount := amount r;
     currency := currency r; cancelled_at := cancelled_at r;
     cancellation_reason := cancellation_reason r;
     auto_renew := auto_renew r |}.
Definition set_next_billing_date (v : option Z) (r : t) : t :=
  {| id := id r; vendor_id := vendor_id r; plan_id := plan_id r;
     status := status r; start_date := start_date r; end_date := end_date r;
     trial_end_date := trial_end_date r;
     current_period_start := current_period_start r;
     current_period_end := current_period_end r; next_billing_date := v;
     amount := amount r; currency := currency r;
     cancelled_at := cancelled_at r;
     cancellation_reason := cancellation_reason r;
     auto_renew := auto_renew r |}.
Definition set_cancelled_at (v : option Z) (r : t) : t :=
  {| id := id r; vendor_id := vendor_id r; plan_id := plan_id r;
     status := status r; start_date := start_date r; end_date := end_date r;
     trial_end_date := trial_end_date r;
     current_period_start := current_period_start r;
     current_period_end := current_period_end r;
     next_billing_date := next_billing_date r; amount := amount r;
     currency := currency r; cancelled_at := v;
     cancellation_reason := cancellation_reason r;
     auto_renew := auto_renew r |}.
Definition set_cancellation_reason (v : option string) (r : t) : t :=
  {| id := id r; vendor_id := vendor_id r; plan_id := plan_id r;
     status := status r; start_date := start_date r; end_date := end_date r;
     trial_end_date := trial_end_date r;
     current_period_start := current_period_start r;
     current_period_end := current_period_end r;
     next_billing_date := next_billing_date r; amount := amount r;
     currency := currency r; cancelled_at := cancelled_at r;
     cancellation_reason := v; auto_renew := auto_renew r |}.
Definition set_auto_renew (v : bool) (r : t) : t :=
  {| id := id r; vendor_id := vendor_id r; plan_id := plan_id r;
     status := status r; start_date := start_date r; end_date := end_date r;
     trial_end_date := trial_end_date r;
     current_period_start := current_period_start r;
     current_period_end := current_period_end r;
     next_billing_date := next_billing_date r; amount := amount r;
     currency := currency r; cancelled_at := cancelled_at r;
     cancellation_reason := cancellation_reason r; auto_renew := v |}.
(** [Subscription.is_active], at clock reading [now]. *)
Definition is_active (self : t) (now : Z) : bool :=
  if negb (bool_decide (status self ∈ [SubscriptionStatus.ACTIVE;
                                        SubscriptionStatus.TRIAL]))
  then false
  else match end_date self with
       | Some e => if bool_decide (e < now) then false else true
       | None => true
       end.

(** [Subscription.is_trial], at clock reading [now]. *)
Definition is_trial (self : t) (now : Z) : bool :=
  if negb (bool_decide (status self = SubscriptionStatus.TRIAL)) then false
  else match trial_end_date self with
       | Some e => if bool_decide (e > now) then true else false
       | None => false
       end.

(** [Subscription.days_remaining], at clock reading [now]: the [days] of a
    [timedelta] are its whole days, rounded down. *)
Definition days_remaining (self : t) (now : Z) : option Z :=
  match end_date self with
  | None => None
  | Some e => Some (Z.max 0 ((e - now) `div` us_per_day))
  end.
End Subscription.

(** A transaction id: [TXN] stands for the f-string
    [TXN{payment.id}_{int(now.timestamp())}] and [TXN_RETRY] for
    [TXN{payment.id}_RETRY_{int(now.timestamp())}], [now] a clock reading. *)
Inductive txn :=
| TXN (payment_id now : Z)
| TXN_RETRY (payment_id now : Z).

Module Payment.
Record t := {
  id : Z;
  subscription_id : Z;
  vendor_id : Z;
  amount : Z;
  currency : string;
  status : PaymentStatus.t;
  payment_method : PaymentMethod.t;
  transaction_id : option txn;
  payment_date : option Z;
  due_date : option Z;
  billing_period_start : Z;
  billing_period_end : Z;
  failure_reason : option string;
  retry_count : Z }.
Definition set_status (v : PaymentStatus.t) (r : t) : t :=
  {| id := id r; subscription_id := subscription_id r;
     vendor_id := vendor_id r; amount := amount r; currency := currency r;
     status := v; payment_method := payment_method r;
     transaction_id := transaction_id r; payment_date := payment_date r;
     due_date := due_date r; billing_period_start := billing_period_start r;
     billing_period_end := billing_period_end r;
     failure_reason := failure_reason r; retry_count := retry_count r |}.
Definition set_transaction_id (v : option txn) (r : t) : t :=
  {| id := id r; subscription_id := subscription_id r;
     vendor_id := vendor_id r; amount := amount r; currency := currency r;
     status := status r; payment_method := payment_method r;
     transaction_id := v; payment_date := payment_date r;
     due_date := due_date r; billing_period_start := billing_period_start r;
     billing_period_end := billing_period_end r;
     failure_reason := failure_reason r; retry_count := retry_count r |}.
Definition set_payment_date (v : option Z) (r : t) : t :=
  {| id := id r; subscription_id := subscription_id r;
     vendor_id := vendor_id r; amount := amount r; currency := currency r;
     status := status r; payment_method := payment_method r;
     transaction_id := transaction_id r; payment_date := v;
     due_date := due_date r; billing_period_start := billing_period_start r;
     billing_period_end := billing_period_end r;
     failure_reason := failure_reason r; retry_count := retry_count r |}.
Definition set_failure_reason (v : option string) (r : t) : t :=
  {| id := id r; subscription_id := subscription_id r;
     vendor_id := vendor_id r; amount := amount r; currency := currency r;
     status := status r; payment_method := payment_method r;
     transaction_id := transaction_id r; payment_date := payment_date r;
     due_date := due_date r; billing_period_start := billing_period_start r;
     billing_period_end := billing_period_end r; failure_reason := v;
     retry_count := retry_count r |}.
Definition set_retry_count (v : Z) (r : t) : t :=
  {| id := id r; subscription_id := subscription_id r;
     vendor_id := vendor_id r; amount := amount r; currency := currency r;
     status := status r; payment_method := payment_method r;
     transaction_id := transaction_id r; payment_date := payment_date r;
     due_date := due_date r; billing_period_start := billing_period_start r;
     billing_period_end := billing_period_end r;
     failure_reason := failure_reason r; retry_count := v |}.
End Payment.

(** The float [(count / limit) * 100], kept as its two integer operands. *)
Inductive percentage := Percent (count limit : Z).

Module UsageRecord.
Record t := {
  id : Z;
  updated_at : Z;
  subscription_id : Z;
  vendor_id : Z;
  feature_name : string;
  usage_count : Z;
  usage_limit : option Z;
  period_start : Z;
  period_end : Z;
  usage_metadata : gmap string string }.
Definition set_updated_at (v : Z) (r : t) : t :=
  {| id := id r; updated_at := v; subscription_id := subscription_id r;
     vendor_id := vendor_id r; feature_name := feature_name r;
     usage_count := usage_count r; usage_limit := usage_limit r;
     period_start := period_start r; period_end := period_end r;
     usage_metadata := usage_metadata r |}.
Definition set_usage_count (v : Z) (r : t) : t :=
  {| id := id r; updated_at := updated_at r;
     subscription_id := subscription_id r; vendor_id := vendor_id r;
     feature_name := feature_name r; usage_count := v;
     usage_limit := usage_limit r; period_start := period_start r;
     period_end := period_end r; usage_metadata := usage_metadata r |}.
Definition set_usage_metadata (v : gmap string string) (r : t) : t :=
  {| id := id r; updated_at := updated_at r;
     subscription_id := subscription_id r; vendor_id := vendor_id r;
     feature_name := feature_name r; usage_count := usage_count r;
     usage_limit := usage_limit r; period_start := period_start r;
     period_end := period_end r; usage_metadata := v |}.
(** [UsageRecord.is_limit_exceeded] *)
Definition is_limit_exceeded (self : t) : bool :=
  match usage_limit self with
  | None => false
  | Some l => bool_decide (usage_count self >= l)
  end.

(** [UsageRecord.usage_percentage]: the division raises for a zero limit. *)
Definition usage_percentage (self : t) : outcome exn (option percentage) :=
  match usage_limit self with
  | None => Return None
  | Some l =>
    if bool_decide (l = 0) then Raise ZeroDivisionError
    else Return (Some (Percent (usage_count self) l))
  end.
End UsageRecord.

(** The committed tables. *)
Record DB := {
  plans : list SubscriptionPlan.t;
  subscriptions : list Subscription.t;
  payments : list Payment.t;
  usage_records : list UsageRecord.t }.

Definition with_subscriptions (v : list Subscription.t) (db : DB) : DB :=
  {| plans := plans db; subscriptions := v; payments := payments db;
     usage_records := usage_records db |}.

Definition with_payments (v : list Payment.t) (db : DB) : DB :=
  {| plans := plans db; subscriptions := subscriptions db; payments := v;
     usage_records := usage_records db |}.

Definition with_usage_records (v : list UsageRecord.t) (db : DB) : DB :=
  {| plans := plans db; subscriptions := subscriptions db; payments := payments db;
     usage_records := v |}.

(** The primary key an integer column assigns to a new row: one more than the
    largest key in the table. *)
Definition next_id (ids : list Z) : Z := 1 + foldr Z.max 0 ids.

(** The vendor's first subscription in status ACTIVE or TRIAL, with its
    position in the table. *)
Definition active_subscription (db : DB) (vendor : Vendor)
  : option (nat * Subscription.t) :=
  list_find (fun s => Int_key (Subscription.vendor_id s) = vendor_id vendor
                      ∧ Subscription.status s ∈ [SubscriptionStatus.ACTIVE;
                                                  SubscriptionStatus.TRIAL])
            (subscriptions db).

(** ** [create_subscription]

    The handler assigns the local name [status] further down, which makes
    [status] a local name in all of its body: the two [raise] statements,
    which read [status.HTTP_404_NOT_FOUND] and [status.HTTP_400_BAD_REQUEST]
    before that assignment, raise [UnboundLocalError] and no
    [HTTPException]. *)

(** Truth value of an optional integer: [None] and 0 are false. *)
Definition truthy_int (n : option Z) : bool :=
  match n with
  | Some n => negb (bool_decide (n = 0))
  | None => false
  end.

Definition cycle_days (billing_cycle : BillingCycle.t) : Z :=
  match billing_cycle with
  | BillingCycle.MONTHLY => 30
  | BillingCycle.QUARTERLY => 90
  | BillingCycle.ANNUALLY => 365
  | BillingCycle.LIFETIME => 365 * 100
  end.

Definition create_subscription (plan_id : Z) (billing_cycle : option BillingCycle.t)
    (start_trial : bool) (vendor : Vendor) (db : DB) (now : Z)
  : DB * outcome exn Subscription.t :=
  match List.find (fun p => bool_decide (SubscriptionPlan.id p = plan_id)
                            && SubscriptionPlan.is_active p) (plans db) with
  | None => (db, Raise UnboundLocalError)
  | Some plan =>
    match active_subscription db vendor with
    | Some _ => (db, Raise UnboundLocalError)
    | None =>
      let billing_cycle := default (SubscriptionPlan.billing_cycle plan) billing_cycle in
      let start_date := now in
      let period :=
        if start_trial && truthy_int (SubscriptionPlan.trial_days plan)
        then
          trial_end_date ← add_days start_date (default 0 (SubscriptionPlan.trial_days plan));
          Some (SubscriptionStatus.TRIAL, Some trial_end_date, trial_end_date)
        else
          current_period_end ← add_days start_date (cycle_days billing_cycle);
          Some (SubscriptionStatus.ACTIVE, None, current_period_end) in
      match period with
      | None => (db, Raise OverflowError)
      | Some (status, trial_end_date, current_period_end) =>
        match column_value (vendor_id vendor) with
        | None => (db, Raise ProgrammingError)
        | Some vendor_column =>
        let subscription :=
          {| Subscription.id := next_id (Subscription.id <$> subscriptions db);
             Subscription.vendor_id := vendor_column;
             Subscription.plan_id := SubscriptionPlan.id plan;
             Subscription.status := status;
             Subscription.start_date := start_date;
             Subscription.end_date := None;
             Subscription.trial_end_date := trial_end_date;
             Subscription.current_period_start := start_date;
             Subscription.current_period_end := current_period_end;
             Subscription.next_billing_date :=
               if bool_decide (status = SubscriptionStatus.ACTIVE)
               then Some current_period_end else trial_end_date;
             Subscription.amount := SubscriptionPlan.base_price plan;
             Subscription.currency := "INR";
             Subscription.cancelled_at := None;
             Subscription.cancellation_reason := None;
             Subscription.auto_renew := true |} in
        (with_subscriptions (subscriptions db ++ [subscription]) db, Return subscription)
        end
      end
    end
  end.

(** ** [cancel_subscription] *)

Definition cancel_subscription (reason : option string) (immediate : bool)
    (vendor : Vendor) (db : DB) (now_cancelled now_end : Z)
  : DB * outcome exn Subscription.t :=
  match active_subscription db vendor with
  | None => (db, Raise (HTTPException 404 "No active subscription found"))
  | Some (i, subscription) =>
    let subscription := Subscription.set_cancelled_at (Some now_cancelled) subscription in
    let subscription := Subscription.set_cancellation_reason reason subscription in
    let subscription := Subscription.set_auto_renew false subscription in
    let subscription :=
      if immediate
      then Subscription.set_end_date (Some now_end)
             (Subscription.set_status SubscriptionStatus.CANCELLED subscription)
      else Subscription.set_end_date (Some (Subscription.current_period_end subscription))
             (Subscription.set_status SubscriptionStatus.CANCELLED subscription) in
    (with_subscriptions (<[i := subscription]> (subscriptions db)) db,
     Return subscription)
  end.

(** ** [reactivate_subscription] *)

(** The vendor's first subscription in status CANCELLED. *)
Definition cancelled_subscription (db : DB) (vendor : Vendor)
  : option (nat * Subscription.t) :=
  list_find (fun s => Int_key (Subscription.vendor_id s) = vendor_id vendor
                      ∧ Subscription.status s = SubscriptionStatus.CANCELLED)
            (subscriptions db).

(** [subscription.end_date and subscription.end_date < datetime.utcnow()]; a
    [datetime] is always true. *)
Definition expired (subscription : Subscription.t) (now : Z) : bool :=
  match Subscription.end_date subscription with
  | Some e => bool_decide (e < now)
  | None => false
  end.

Definition reactivate_subscription (vendor : Vendor) (db : DB) (now : Z)
  : DB * outcome exn Subscription.t :=
  match cancelled_subscription db vendor with
  | None => (db, Raise (HTTPException 404 "No cancelled subscription found"))
  | Some (i, subscription) =>
    if expired subscription now
    then (db, Raise (HTTPException 400
                       "Subscription has expired and cannot be reactivated"))
    else
      let subscription := Subscription.set_status SubscriptionStatus.ACTIVE subscription in
      let subscription := Subscription.set_cancelled_at None subscription in
      let subscription := Subscription.set_cancellation_reason None subscription in
      let subscription := Subscription.set_auto_renew true subscription in
      let subscription := Subscription.set_end_date None subscription in
      (with_subscriptions (<[i := subscription]> (subscriptions db)) db,
       Return subscription)
  end.

(** ** [create_payment]

    The handler commits the payment as PENDING, then completes it in memory
    and updates the billing cycle, and commits again.  What it changes after
    the first commit is lost when it raises before the second. *)

(** [subscription.billing_cycle]: class [Subscription] declares no such
    attribute, and the read raises. *)
Definition billing_cycle_of (subscription : Subscription.t)
  : outcome exn BillingCycle.t :=
  Raise AttributeError.

(** The update of the billing cycle after a payment.  The comparisons with
    the strings "monthly", "quarterly" and "annually" are comparisons with
    the members of [BillingCycle], a string enumeration. *)
Definition roll_period (subscription : Subscription.t) : outcome exn Subscription.t :=
  match billing_cycle_of subscription with
  | Raise e => Raise e
  | Return billing_cycle =>
    let roll days :=
      let old_end := Subscription.current_period_end subscription in
      let subscription := Subscription.set_current_period_start old_end subscription in
      match add_days old_end days with
      | None => Raise OverflowError
      | Some current_period_end =>
        let subscription := Subscription.set_current_period_end current_period_end
                              subscription in
        Return (Subscription.set_next_billing_date
                  (Some (Subscription.current_period_end subscription)) subscription)
      end in
    if bool_decide (billing_cycle = BillingCycle.MONTHLY) then roll 30
    else if bool_decide (billing_cycle = BillingCycle.QUARTERLY) then roll 90
    else if bool_decide (billing_cycle = BillingCycle.ANNUALLY) then roll 365
    else Return subscription
  end.

(** The vendor's subscription of the given id, with its position. *)
Definition find_subscription (db : DB) (subscription_id : Z) (vendor : Vendor)
  : option (nat * Subscription.t) :=
  list_find (fun s => Subscription.id s = subscription_id
                      ∧ Int_key (Subscription.vendor_id s) = vendor_id vendor)
            (subscriptions db).

Definition create_payment (subscription_id : Z) (payment_method : PaymentMethod.t)
    (vendor : Vendor) (db : DB) (now_paid now_txn : Z)
  : DB * outcome exn Payment.t :=
  match find_subscription db subscription_id vendor with
  | None => (db, Raise (HTTPException 404 "Subscription not found"))
  | Some (i, subscription) =>
    match column_value (vendor_id vendor) with
    | None => (db, Raise ProgrammingError)
    | Some vendor_column =>
    let payment :=
      {| Payment.id := next_id (Payment.id <$> payments db);
         Payment.subscription_id := Subscription.id subscription;
         Payment.vendor_id := vendor_column;
         Payment.amount := Subscription.amount subscription;
         Payment.currency := Subscription.currency subscription;
         Payment.status := PaymentStatus.PENDING;
         Payment.payment_method := payment_method;
         Payment.transaction_id := None;
         Payment.payment_date := None;
         Payment.due_date := Subscription.next_billing_date subscription;
         Payment.billing_period_start := Subscription.current_period_start subscription;
         Payment.billing_period_end := Subscription.current_period_end subscription;
         Payment.failure_reason := None;
         Payment.retry_count := 0 |} in
    let j := length (payments db) in
    let db := with_payments (payments db ++ [payment]) db in
    let payment := Payment.set_status PaymentStatus.COMPLETED payment in
    let payment := Payment.set_payment_date (Some now_paid) payment in
    let payment := Payment.set_transaction_id (Some (TXN (Payment.id payment) now_txn))
                     payment in
    match roll_period subscription with
    | Raise e => (db, Raise e)
    | Return subscription =>
      (with_subscriptions (<[i := subscription]> (subscriptions db))
         (with_payments (<[j := payment]> (payments db)) db),
       Return payment)
    end
    end
  end.

(** ** [retry_failed_payment] *)

(** The vendor's payment of the given id if its status is FAILED, with its
    position. *)
Definition find_failed_payment (db : DB) (payment_id : Z) (vendor : Vendor)
  : option (nat * Payment.t) :=
  list_find (fun p => Payment.id p = payment_id
                      ∧ Int_key (Payment.vendor_id p) = vendor_id vendor
                      ∧ Payment.status p = PaymentStatus.FAILED)
            (payments db).

Definition retry_failed_payment (payment_id : Z) (vendor : Vendor) (db : DB)
    (now_paid now_txn : Z)
  : DB * outcome exn Payment.t :=
  match find_failed_payment db payment_id vendor with
  | None => (db, Raise (HTTPException 404 "Failed payment not found"))
  | Some (j, payment) =>
    if bool_decide (Payment.retry_count payment >= 3)
    then (db, Raise (HTTPException 400 "Maximum retry attempts exceeded"))
    else
      let payment := Payment.set_status PaymentStatus.PENDING payment in
      let payment := Payment.set_retry_count (Payment.retry_count payment + 1) payment in
      let payment := Payment.set_failure_reason None payment in
      let payment :=
        if bool_decide (Payment.retry_count payment >= 2)
        then
          Payment.set_transaction_id (Some (TXN_RETRY (Payment.id payment) now_txn))
            (Payment.set_payment_date (Some now_paid)
               (Payment.set_status PaymentStatus.COMPLETED payment))
        else payment in
      (with_payments (<[j := payment]> (payments db)) db, Return payment)
  end.

(** ** [track_feature_usage] *)

(** The dictionary the handler returns: the rejection, whose [success] is
    false, or the confirmation, whose [success] is true. *)
Inductive usage_response :=
| Usage_limit_exceeded (current_usage usage_limit attempted_increment would_result_in : Z)
| Usage_tracked (feature_name : string) (current_usage : Z) (usage_limit : option Z)
    (usage_percentage : option percentage) (increment_applied : Z).

Definition success (r : usage_response) : bool :=
  match r with
  | Usage_limit_exceeded _ _ _ _ => false
  | Usage_tracked _ _ _ _ _ => true
  end.

(** The usage record of the current period, with its position in the table. *)
Definition current_usage_record (db : DB) (vendor : Vendor)
    (subscription : Subscription.t) (feature_name : string)
  : option (nat * UsageRecord.t) :=
  list_find (fun u => UsageRecord.subscription_id u = Subscription.id subscription
                      ∧ Int_key (UsageRecord.vendor_id u) = vendor_id vendor
                      ∧ UsageRecord.feature_name u = feature_name
                      ∧ UsageRecord.period_start u
                        >= Subscription.current_period_start subscription
                      ∧ UsageRecord.period_end u
                        <= Subscription.current_period_end subscription)
            (usage_records db).

(** The limit a new record takes from the plan:
    [plan.features[feature_name].get('limit')] when the feature is listed. *)
Definition plan_limit (plan : SubscriptionPlan.t) (feature_name : string) : option Z :=
  match SubscriptionPlan.features plan !! feature_name with
  | Some config => limit config
  | None => None
  end.

Definition new_usage_record (db : DB) (vendor_column : Z)
    (subscription : Subscription.t)
    (plan : SubscriptionPlan.t) (feature_name : string)
    (usage_metadata : option (gmap string string)) (now_created : Z) : UsageRecord.t :=
  {| UsageRecord.id := next_id (UsageRecord.id <$> usage_records db);
     UsageRecord.updated_at := now_created;
     UsageRecord.subscription_id := Subscription.id subscription;
     UsageRecord.vendor_id := vendor_column;
     UsageRecord.feature_name := feature_name;
     UsageRecord.usage_count := 0;
     UsageRecord.usage_limit := plan_limit plan feature_name;
     UsageRecord.period_start := Subscription.current_period_start subscription;
     UsageRecord.period_end := Subscription.current_period_end subscription;
     UsageRecord.usage_metadata := default ∅ usage_metadata |}.

(** [if usage_metadata: ...].  A record whose metadata is empty is given a
    new dictionary, which takes the keys of the request and is written with
    the row.  On a record that has metadata the keys of the request are
    merged into the dictionary in place, which the session does not take
    for a change of the row: a row of the table keeps the metadata it has
    there, and the row made by this request was made with the dictionary of
    the request itself.  Nothing happens for [None] and for the empty
    dictionary. *)
Definition update_metadata (usage_metadata : option (gmap string string))
    (usage_record : UsageRecord.t) : UsageRecord.t :=
  match usage_metadata with
  | Some m =>
    if bool_decide (m = ∅) then usage_record
    else if bool_decide (UsageRecord.usage_metadata usage_record = ∅)
    then UsageRecord.set_usage_metadata
           (m ∪ UsageRecord.usage_metadata usage_record) usage_record
    else usage_record
  | None => usage_record
  end.

(** The commit binds the new count of a row that is updated, and the count
    and the limit of a row that is inserted. *)
Definition usage_bindable (slot : option nat) (usage_record : UsageRecord.t) : bool :=
  sqlite_integer (UsageRecord.usage_count usage_record)
  && match slot, UsageRecord.usage_limit usage_record with
     | None, Some l => sqlite_integer l
     | _, _ => true
     end.

(** The part of the handler after the record has been found or made.  [slot]
    is the position of a record that was found; a record made by this request
    is appended when the request commits. *)
Definition track_on_record (db : DB) (slot : option nat) (usage_record : UsageRecord.t)
    (usage_increment : Z) (usage_metadata : option (gmap string string)) (now : Z)
  : DB * outcome exn usage_response :=
  let new_usage_count := UsageRecord.usage_count usage_record + usage_increment in
  if truthy_int (UsageRecord.usage_limit usage_record)
     && bool_decide (new_usage_count > default 0 (UsageRecord.usage_limit usage_record))
  then (db, Return (Usage_limit_exceeded
                      (UsageRecord.usage_count usage_record)
                      (default 0 (UsageRecord.usage_limit usage_record))
                      usage_increment new_usage_count))
  else
    let usage_record := UsageRecord.set_usage_count new_usage_count usage_record in
    let usage_record := UsageRecord.set_updated_at now usage_record in
    let usage_record := update_metadata usage_metadata usage_record in
    if negb (usage_bindable slot usage_record) then (db, Raise OverflowError)
    else
    let db :=
      match slot with
      | Some k => with_usage_records (<[k := usage_record]> (usage_records db)) db
      | None => with_usage_records (usage_records db ++ [usage_record]) db
      end in
    match UsageRecord.usage_percentage usage_record with
    | Raise e => (db, Raise e)
    | Return percentage =>
      (db, Return (Usage_tracked (UsageRecord.feature_name usage_record)
                     (UsageRecord.usage_count usage_record)
                     (UsageRecord.usage_limit usage_record)
                     percentage usage_increment))
    end.

Definition track_feature_usage (feature_name : string) (usage_increment : Z)
    (usage_metadata : option (gmap string string)) (vendor : Vendor) (db : DB)
    (now_created now : Z)
  : DB * outcome exn usage_response :=
  match active_subscription db vendor with
  | None => (db, Raise (HTTPException 404 "No active subscription found"))
  | Some (_, subscription) =>
    let plan := List.find (fun p => bool_decide (SubscriptionPlan.id p
                                                  = Subscription.plan_id subscription))
                          (plans db) in
    match current_usage_record db vendor subscription feature_name with
    | Some (k, usage_record) =>
      track_on_record db (Some k) usage_record usage_increment usage_metadata now
    | None =>
      match plan with
      | None => (db, Raise AttributeError)
      | Some plan =>
        match column_value (vendor_id vendor) with
        | None => (db, Raise ProgrammingError)
        | Some vendor_column =>
          track_on_record db None
            (new_usage_record db vendor_column subscription plan feature_name
               usage_metadata now_created)
            usage_increment usage_metadata now
        end
      end
    end
  end.

(** ** Runs and invariants *)

(** The number of the vendor's subscriptions in status ACTIVE or TRIAL. *)
Definition active_count (db : DB) (vendor : Vendor) : nat :=
  length (filter (fun s => Int_key (Subscription.vendor_id s) = vendor_id vendor
                           ∧ Subscription.status s ∈ [SubscriptionStatus.ACTIVE;
                                                       SubscriptionStatus.TRIAL])
                 (subscriptions db)).

(** Every payment has been retried at most three times. *)
Definition retry_bound (db : DB) : Prop :=
  Forall (fun p => Payment.retry_count p <= 3) (payments db).

(** What can happen to the payments table: the two handlers of [billing.py]
    that write it, and the payment gateway, which is outside the repository
    and reports a status and a failure reason for a payment. *)
Inductive payment_step : DB -> DB -> Prop :=
| step_create_payment subscription_id payment_method vendor db now_paid now_txn :
    payment_step db
      (create_payment subscription_id payment_method vendor db now_paid now_txn).1
| step_retry_failed_payment payment_id vendor db now_paid now_txn :
    payment_step db (retry_failed_payment payment_id vendor db now_paid now_txn).1
| step_gateway db j payment status failure_reason :
    payments db !! j = Some payment ->
    payment_step db
      (with_payments
         (<[j := Payment.set_failure_reason failure_reason
                   (Payment.set_status status payment)]> (payments db)) db).

(** ** [get_payment_details] *)

Definition get_payment_details (payment_id : Z) (vendor : Vendor) (db : DB)
  : outcome exn Payment.t :=
  match List.find (fun p => bool_decide (Payment.id p = payment_id)
                            && bool_decide (Int_key (Payment.vendor_id p) = vendor_id vendor))
                  (payments db) with
  | None => Raise (HTTPException 404 "Payment not found")
  | Some payment => Return payment
  end.

(** No usage record with a limit other than zero is above its limit. *)
Definition quota_respected (db : DB) : Prop :=
  Forall (fun u => ∀ l, UsageRecord.usage_limit u = Some l -> l ≠ 0 ->
                        UsageRecord.usage_count u <= l)
         (usage_records db).

(** ** [get_usage_summary] *)

(** The [usage_percentage] of an entry of the summary: what
    [UsageRecord.usage_percentage] returned, or the literal 0.0 of a feature
    that has no record. *)
Inductive summary_percentage :=
| Of_record (p : option percentage)
| Zero_percent.

Module FeatureUsage.
Record t := {
  current_usage : Z;
  usage_limit : option Z;
  usage_percentage : summary_percentage;
  is_limit_exceeded : bool }.
End FeatureUsage.

Record UsageSummary := {
  summary_subscription_id : Z;
  summary_plan_name : string;
  summary_status : SubscriptionStatus.t;
  summary_period_start : Z;
  summary_period_end : Z;
  usage_by_feature : gmap string FeatureUsage.t;
  summary_days_remaining : Z }.

(** The records of the subscription's current period, in table order. *)
Definition current_usage (db : DB) (subscription : Subscription.t)
  : list UsageRecord.t :=
  filter (fun u => UsageRecord.subscription_id u = Subscription.id subscription
                   ∧ UsageRecord.period_start u
                     >= Subscription.current_period_start subscription
                   ∧ UsageRecord.period_end u
                     <= Subscription.current_period_end subscription)
         (usage_records db).

(** The loop over the records: each one writes the entry of its feature, a
    later record over an earlier one; the loop ends at the first record whose
    [usage_percentage] raises. *)
Fixpoint usage_of_records (records : list UsageRecord.t)
    (usage_by_feature : gmap string FeatureUsage.t)
  : outcome exn (gmap string FeatureUsage.t) :=
  match records with
  | [] => Return usage_by_feature
  | usage :: later =>
    match UsageRecord.usage_percentage usage with
    | Raise e => Raise e
    | Return p =>
      usage_of_records later
        (<[UsageRecord.feature_name usage :=
             {| FeatureUsage.current_usage := UsageRecord.usage_count usage;
                FeatureUsage.usage_limit := UsageRecord.usage_limit usage;
                FeatureUsage.usage_percentage := Of_record p;
                FeatureUsage.is_limit_exceeded :=
                  UsageRecord.is_limit_exceeded usage |}]> usage_by_feature)
    end
  end.

(** The second loop: the features of the plan that have no entry yet. *)
Definition add_plan_limits (plan : SubscriptionPlan.t)
    (usage_by_feature : gmap string FeatureUsage.t) : gmap string FeatureUsage.t :=
  if bool_decide (SubscriptionPlan.features plan = ∅) then usage_by_feature
  else usage_by_feature
       ∪ ((fun feature_config =>
             {| FeatureUsage.current_usage := 0;
                FeatureUsage.usage_limit := limit feature_config;
                FeatureUsage.usage_percentage := Zero_percent;
                FeatureUsage.is_limit_exceeded := false |})
          <$> SubscriptionPlan.features plan).

Definition get_usage_summary (vendor : Vendor) (db : DB) (now : Z)
  : outcome exn UsageSummary :=
  match active_subscription db vendor with
  | None => Raise (HTTPException 404 "No active subscription found")
  | Some (_, subscription) =>
    let plan := List.find (fun p => bool_decide (SubscriptionPlan.id p
                                                  = Subscription.plan_id subscription))
                          (plans db) in
    match usage_of_records (current_usage db subscription) ∅ with
    | Raise e => Raise e
    | Return usage_by_feature =>
      match plan with
      | None => Raise AttributeError
      | Some plan =>
        Return
          {| summary_subscription_id := Subscription.id subscription;
             summary_plan_name := SubscriptionPlan.name plan;
             summary_status := Subscription.status subscription;
             summary_period_start := Subscription.current_period_start subscription;
             summary_period_end := Subscription.current_period_end subscription;
             usage_by_feature := add_plan_limits plan usage_by_feature;
             summary_days_remaining :=
               (Subscription.current_period_end subscription - now) `div` us_per_day |}
      end
    end
  end.

(** ** Billing addresses *)

(** The twelve text attributes of a billing address. *)
Record AddressData := {
  company_name : string;
  contact_person : string;
  email : string;
  phone : string;
  address_line_1 : string;
  address_line_2 : option string;
  city : string;
  state : string;
  postal_code : string;
  country : string;
  gstin : option string;
  pan : option string }.

(** The optional parameters of [update_billing_address], [None] for the ones
    that are not given. *)
Record AddressPatch := {
  new_company_name : option string;
  new_contact_person : option string;
  new_email : option string;
  new_phone : option string;
  new_address_line_1 : option string;
  new_address_line_2 : option string;
  new_city : option string;
  new_state : option string;
  new_postal_code : option string;
  new_country : option string;
  new_gstin : option string;
  new_pan : option string }.

(** [if x is not None: address.x = x], for each attribute. *)
Definition apply_patch (patch : AddressPatch) (d : AddressData) : AddressData :=
  {| company_name := default (company_name d) (new_company_name patch);
     contact_person := default (contact_person d) (new_contact_person patch);
     email := default (email d) (new_email patch);
     phone := default (phone d) (new_phone patch);
     address_line_1 := default (address_line_1 d) (new_address_line_1 patch);
     address_line_2 :=
       match new_address_line_2 patch with
       | Some v => Some v
       | None => address_line_2 d
       end;
     city := default (city d) (new_city patch);
     state := default (state d) (new_state patch);
     postal_code := default (postal_code d) (new_postal_code patch);
     country := default (country d) (new_country patch);
     gstin := match new_gstin patch with Some v => Some v | None => gstin d end;
     pan := match new_pan patch with Some v => Some v | None => pan d end |}.

Module BillingAddress.
Record t := {
  id : Z;
  vendor_id : Z;
  data : AddressData;
  is_default : bool;
  updated_at : Z }.
Definition set_data (v : AddressData) (r : t) : t :=
  {| id := id r; vendor_id := vendor_id r; data := v; is_default := is_default r;
     updated_at := updated_at r |}.
Definition set_is_default (v : bool) (r : t) : t :=
  {| id := id r; vendor_id := vendor_id r; data := data r; is_default := v;
     updated_at := updated_at r |}.
Definition set_updated_at (v : Z) (r : t) : t :=
  {| id := id r; vendor_id := vendor_id r; data := data r;
     is_default := is_default r; updated_at := v |}.
End BillingAddress.

(** The bulk update [query.filter(vendor_id == vendor.id, is_default == True,
    ...).update({"is_default": False})]; [except] is the key that the filter
    of [update_billing_address] leaves out. *)
Definition unset_defaults (vendor : Vendor) (except : option Z)
    (table : list BillingAddress.t) : list BillingAddress.t :=
  (fun a =>
     if bool_decide (Int_key (BillingAddress.vendor_id a) = vendor_id vendor)
        && BillingAddress.is_default a
        && negb (bool_decide (Some (BillingAddress.id a) = except))
     then BillingAddress.set_is_default false a
     else a) <$> table.

Definition create_billing_address (data : AddressData) (set_as_default : bool)
    (vendor : Vendor) (table : list BillingAddress.t) (now : Z)
  : list BillingAddress.t * outcome exn BillingAddress.t :=
  match column_value (vendor_id vendor) with
  | None => (table, Raise ProgrammingError)
  | Some vendor_column =>
    let table := if set_as_default then unset_defaults vendor None table else table in
    let billing_address :=
      {| BillingAddress.id := next_id (BillingAddress.id <$> table);
         BillingAddress.vendor_id := vendor_column;
         BillingAddress.data := data;
         BillingAddress.is_default := set_as_default;
         BillingAddress.updated_at := now |} in
    (table ++ [billing_address], Return billing_address)
  end.

(** The vendor's billing address of the given key, with its position. *)
Definition find_billing_address (table : list BillingAddress.t) (address_id : Z)
    (vendor : Vendor) : option (nat * BillingAddress.t) :=
  list_find (fun a => BillingAddress.id a = address_id
                      ∧ Int_key (BillingAddress.vendor_id a) = vendor_id vendor) table.

Definition update_billing_address (address_id : Z) (patch : AddressPatch)
    (set_as_default : option bool) (vendor : Vendor)
    (table : list BillingAddress.t) (now : Z)
  : list BillingAddress.t * outcome exn BillingAddress.t :=
  match find_billing_address table address_id vendor with
  | None => (table, Raise (HTTPException 404 "Billing address not found"))
  | Some (i, billing_address) =>
    let billing_address :=
      BillingAddress.set_data (apply_patch patch (BillingAddress.data billing_address))
        billing_address in
    let '(table, billing_address) :=
      match set_as_default with
      | Some true =>
        (unset_defaults vendor (Some address_id) table,
         BillingAddress.set_is_default true billing_address)
      | Some false => (table, BillingAddress.set_is_default false billing_address)
      | None => (table, billing_address)
      end in
    let billing_address := BillingAddress.set_updated_at now billing_address in
    (<[i := billing_address]> table, Return billing_address)
  end.

Definition delete_billing_address (address_id : Z) (vendor : Vendor)
    (table : list BillingAddress.t)
  : list BillingAddress.t * outcome exn unit :=
  match find_billing_address table address_id vendor with
  | None => (table, Raise (HTTPException 404 "Billing address not found"))
  | Some (i, billing_address) =>
    let address_count :=
      length (filter (fun a => Int_key (BillingAddress.vendor_id a) = vendor_id vendor) table) in
    if bool_decide (address_count = 1%nat)
    then (table, Raise (HTTPException 400 "Cannot delete the only billing address"))
    else (delete i table, Return tt)
  end.

(** [get_billing_addresses]: the vendor's addresses, in table order. *)
Definition get_billing_addresses (vendor : Vendor) (table : list BillingAddress.t)
  : list BillingAddress.t :=
  filter (fun a => Int_key (BillingAddress.vendor_id a) = vendor_id vendor) table.

(** The default addresses of the vendor of the given key. *)
Definition default_addresses (v : vendor_key) (table : list BillingAddress.t)
  : list BillingAddress.t :=
  filter (fun a => Int_key (BillingAddress.vendor_id a) = v
                   ∧ BillingAddress.is_default a = true) table.

(** The keys of the table are distinct and no vendor has two default
    addresses. *)
Definition addresses_sound (table : list BillingAddress.t) : Prop :=
  NoDup (BillingAddress.id <$> table)
  ∧ ∀ v, (length (default_addresses v table) <= 1)%nat.

(** One request to a handler of billing addresses that writes. *)
Inductive address_step : list BillingAddress.t -> list BillingAddress.t -> Prop :=
| step_create_billing_address data set_as_default vendor table now :
    address_step table (create_billing_address data set_as_default vendor table now).1
| step_update_billing_address address_id patch set_as_default vendor table now :
    address_step table
      (update_billing_address address_id patch set_as_default vendor table now).1
| step_delete_billing_address address_id vendor table :
    address_step table (delete_billing_address address_id vendor table).1.

End Billing.

(** * Scenarios

    Concrete database states and requests, used to run the handlers. *)

Module Scenarios.

Definition shop : Orders.Vendor :=
  {| Orders.vendor_id := 7; Orders.vendor_user_id := 70;
     Orders.business_name := "Shop" |}.

Definition shop_owner : Orders.User := {| Orders.user_id := 70 |}.
Definition customer : Orders.User := {| Orders.user_id := 1 |}.

(** Two products of the shop, at 50.00 and 30.00. *)
Definition chair : Orders.Product Z :=
  {| Orders.product_id := 11; Orders.product_vendor_id := 7;
     Orders.product_name := "Chair"; Orders.price := 5000 |}.

Definition lamp : Orders.Product Z :=
  {| Orders.product_id := 12; Orders.product_vendor_id := 7;
     Orders.product_name := "Lamp"; Orders.price := 3000 |}.

Definition shop_session : Orders.Session Z :=
  {| Orders.vendors := [shop]; Orders.addresses := ∅;
     Orders.products := <[11 := chair]> (<[12 := lamp]> ∅);
     Orders.orders := ∅; Orders.order_items := [] |}.

(** Scenario 1 of the specification: quantity 2 at 50.00 and quantity 1 at
    30.00, subtotal 130.00, tax 10.00, shipping 5.00, no discount; the request
    states the total 145.00.  It names the vendor and the items and has
    neither an order number nor a delivery address. *)
Definition two_item_request : Orders.OrderData Z :=
  {| Orders.data_items :=
       [ {| Orders.item_data_product_id := 11; Orders.item_data_quantity := 2 |};
         {| Orders.item_data_product_id := 12; Orders.item_data_quantity := 1 |} ];
     Orders.data_vendor_id := Some 7;
     Orders.data_billing_address_id := None;
     Orders.data_shipping_address_id := None;
     Orders.data_order_number := None;
     Orders.data_delivery_address_id := None;
     Orders.data_subtotal := Some 13000;
     Orders.data_tax_amount := Some 1000;
     Orders.data_discount_amount := Some 0;
     Orders.data_shipping_amount := Some 500;
     Orders.data_total_amount := Some 14500 |}.

(** A request with the given items that also has an order number and a
    delivery address, and states the total 1.00. *)
Definition numbered_request (items : list Orders.ItemData) : Orders.OrderData Z :=
  {| Orders.data_items := items;
     Orders.data_vendor_id := Some 7;
     Orders.data_billing_address_id := None;
     Orders.data_shipping_address_id := None;
     Orders.data_order_number := Some "ORD-0002";
     Orders.data_delivery_address_id := Some 5;
     Orders.data_subtotal := Some 13000;
     Orders.data_tax_amount := Some 1000;
     Orders.data_discount_amount := Some 0;
     Orders.data_shipping_amount := Some 500;
     Orders.data_total_amount := Some 100 |}.

Definition two_items : list Orders.ItemData :=
  [ {| Orders.item_data_product_id := 11; Orders.item_data_quantity := 2 |};
    {| Orders.item_data_product_id := 12; Orders.item_data_quantity := 1 |} ].

(** Items whose first product does not exist. *)
Definition unknown_first : list Orders.ItemData :=
  [ {| Orders.item_data_product_id := 99; Orders.item_data_quantity := 1 |};
    {| Orders.item_data_product_id := 11; Orders.item_data_quantity := 2 |} ].

(** Items whose second product does not exist. *)
Definition unknown_second : list Orders.ItemData :=
  [ {| Orders.item_data_product_id := 11; Orders.item_data_quantity := 2 |};
    {| Orders.item_data_product_id := 99; Orders.item_data_quantity := 1 |} ].

(** The customer sends the request with an order number and a delivery
    address: [create_order] raises, and leaves the order in the table, in
    status PENDING and without item rows. *)
Definition placed_order : Orders.Order Z :=
  Orders.new_order (numbered_request two_items) customer 1 1000.

Definition session_with_order : Orders.Session Z :=
  (Orders.create_order_exact (numbered_request two_items) shop_session customer
     1 1000).1.

(** The same table with the order in status SHIPPED, a status no handler
    gives an order. *)
Definition session_shipped : Orders.Session Z :=
  Orders.commit_order 1
    (Orders.set_status Orders.OrderStatus.SHIPPED placed_order) session_with_order.

(** The subscription side: one vendor and one monthly plan with a trial, a
    metered feature limited to 100 and another limited to 0. *)
Definition vendor7 : Billing.Vendor := {| Billing.vendor_id := Billing.Int_key 7 |}.

Definition basic_plan : Billing.SubscriptionPlan.t :=
  {| Billing.SubscriptionPlan.id := 1;
     Billing.SubscriptionPlan.name := "Basic";
     Billing.SubscriptionPlan.base_price := 49900;
     Billing.SubscriptionPlan.billing_cycle := Billing.BillingCycle.MONTHLY;
     Billing.SubscriptionPlan.features :=
       <["api_calls" := {| Billing.limit := Some 100 |}]>
         (<["exports" := {| Billing.limit := Some 0 |}]> ∅);
     Billing.SubscriptionPlan.is_active := true;
     Billing.SubscriptionPlan.trial_days := Some 14 |}.

Definition empty_db : Billing.DB :=
  {| Billing.plans := [basic_plan]; Billing.subscriptions := [];
     Billing.payments := []; Billing.usage_records := [] |}.

(** Clock readings: midnight of the n-th day after 2024-01-01, which is
    proleptic day 738886. *)
Definition day (n : Z) : Z := (738885 + n) * us_per_day.

(** The vendor subscribes without a trial on day 0, ... *)
Definition db_subscribed : Billing.DB :=
  (Billing.create_subscription 1 None false vendor7 empty_db (day 0)).1.

(** ... cancels at period end on day 10, ... *)
Definition db_cancelled : Billing.DB :=
  (Billing.cancel_subscription (Some "too expensive") false vendor7 db_subscribed
     (day 10) (day 10)).1.

(** ... subscribes again on day 11, ... *)
Definition db_resubscribed : Billing.DB :=
  (Billing.create_subscription 1 None false vendor7 db_cancelled (day 11)).1.

(** ... and reactivates the cancelled subscription on day 12. *)
Definition db_reactivated : Billing.DB :=
  (Billing.reactivate_subscription vendor7 db_resubscribed (day 12)).1.


(** The subscription row of [db_subscribed]: its period ends on day 30. *)
Definition subscription_row : Billing.Subscription.t :=
  {| Billing.Subscription.id := 1; Billing.Subscription.vendor_id := 7;
     Billing.Subscription.plan_id := 1;
     Billing.Subscription.status := Billing.SubscriptionStatus.ACTIVE;
     Billing.Subscription.start_date := day 0;
     Billing.Subscription.end_date := None;
     Billing.Subscription.trial_end_date := None;
     Billing.Subscription.current_period_start := day 0;
     Billing.Subscription.current_period_end := day 30;
     Billing.Subscription.next_billing_date := Some (day 30);
     Billing.Subscription.amount := 49900;
     Billing.Subscription.currency := "INR";
     Billing.Subscription.cancelled_at := None;
     Billing.Subscription.cancellation_reason := None;
     Billing.Subscription.auto_renew := true |}.

(** A usage record of the subscription's current period. *)
Definition usage_row (count : Z) (limit : option Z) : Billing.UsageRecord.t :=
  {| Billing.UsageRecord.id := 1; Billing.UsageRecord.updated_at := day 1;
     Billing.UsageRecord.subscription_id := 1; Billing.UsageRecord.vendor_id := 7;
     Billing.UsageRecord.feature_name := "api_calls";
     Billing.UsageRecord.usage_count := count;
     Billing.UsageRecord.usage_limit := limit;
     Billing.UsageRecord.period_start := day 0;
     Billing.UsageRecord.period_end := day 30;
     Billing.UsageRecord.usage_metadata := ∅ |}.

Definition db_with_usage (count : Z) (limit : option Z) : Billing.DB :=
  {| Billing.plans := [basic_plan];
     Billing.subscriptions := [subscription_row];
     Billing.payments := []; Billing.usage_records := [usage_row count limit] |}.

(** A failed payment of the subscription that has been retried [n] times. *)
Definition failed_payment (n : Z) : Billing.Payment.t :=
  {| Billing.Payment.id := 1; Billing.Payment.subscription_id := 1;
     Billing.Payment.vendor_id := 7; Billing.Payment.amount := 49900;
     Billing.Payment.currency := "INR";
     Billing.Payment.status := Billing.PaymentStatus.FAILED;
     Billing.Payment.payment_method := Billing.PaymentMethod.UPI;
     Billing.Payment.transaction_id := None; Billing.Payment.payment_date := None;
     Billing.Payment.due_date := Some (day 30);
     Billing.Payment.billing_period_start := day 0;
     Billing.Payment.billing_period_end := day 30;
     Billing.Payment.failure_reason := Some "card declined";
     Billing.Payment.retry_count := n |}.

Definition db_with_failed_payment (n : Z) : Billing.DB :=
  {| Billing.plans := [basic_plan];
     Billing.subscriptions := [subscription_row];
     Billing.payments := [failed_payment n]; Billing.usage_records := [] |}.

(** Billing addresses: one default address of vendor 7, then a second address
    of that vendor, then an address of vendor 8. *)
Definition vendor8 : Billing.Vendor := {| Billing.vendor_id := Billing.Int_key 8 |}.

(** A vendor whose key is a UUID, as class [Vendor] makes them. *)
Definition vendor_uuid : Billing.Vendor :=
  {| Billing.vendor_id := Billing.Uuid_key 1311768467294899695 |}.

Definition office : Billing.AddressData :=
  {| Billing.company_name := "Shop"; Billing.contact_person := "Asha";
     Billing.email := "asha@shop.example"; Billing.phone := "100";
     Billing.address_line_1 := "1 Main Road"; Billing.address_line_2 := None;
     Billing.city := "Chennai"; Billing.state := "TN";
     Billing.postal_code := "600001"; Billing.country := "India";
     Billing.gstin := None; Billing.pan := None |}.

Definition addresses_one : list Billing.BillingAddress.t :=
  (Billing.create_billing_address office true vendor7 [] (day 0)).1.

Definition addresses_two : list Billing.BillingAddress.t :=
  (Billing.create_billing_address office false vendor7 addresses_one (day 1)).1.

Definition addresses_both : list Billing.BillingAddress.t :=
  (Billing.create_billing_address office true vendor8 addresses_two (day 2)).1.

End Scenarios.

(** * Properties of the order handlers *)

Module OrderProperties.
Import Orders.

Section Status.
Context {number : Type}.
Implicit Types (session : Session number) (order : Order number).

(** The dictionary of the handler and the table of the specification list the
    same pairs. *)
Lemma valid_transitions_table (current requested : OrderStatus.t) :
  bool_decide (requested ∈ dict_get valid_transitions current [])
  = spec_allowed current requested.
Proof. destruct current, requested; vm_compute; reflexivity. Qed.

(** The assignment of a timestamp raises for each status that has one. *)
Lemma stamp_status_stamped new_status now order :
  new_status ∈ stamped ->
  ∃ field, stamp_status new_status now order = Raise (ValueError field).
Proof.
  intros Hin. unfold stamp_status. repeat case_decide; eauto.
  exfalso. unfold stamped in Hin.
  repeat (apply elem_of_cons in Hin as [->|Hin]; [done|]). inversion Hin.
Qed.

Lemma stamp_status_other new_status now order :
  new_status ∉ stamped -> stamp_status new_status now order = Return order.
Proof.
  intros Hout. unfold stamp_status.
  repeat case_decide; try reflexivity; exfalso; apply Hout; subst new_status;
    unfold stamped; repeat constructor.
Qed.

(** C1, as the handler has it.  For an order that exists and a caller who is
    its vendor, [update_order_status] returns exactly when the pair (current
    status, requested status) is in the table of section 4.1 of the
    specification and the requested status is none of CONFIRMED, SHIPPED and
    DELIVERED; it then stores and returns the order in the requested status.
    For a pair of the table whose requested status is one of these three, the
    assignment of the timestamp raises [ValueError] and nothing is stored.
    Every pair outside the table, and so every request on an order in status
    DRAFT, OUT_FOR_DELIVERY, CANCELLED, RETURNED or REFUNDED, leaves the
    database as it was and raises the 400 error whose detail names the
    current and the requested status. *)
Theorem update_order_status_outcome session order_id new_status current_user
    now_updated now_stamp order vendor :
  orders session !! order_id = Some order ->
  vendor_of_order session current_user order = Some vendor ->
  let r := update_order_status order_id new_status session current_user
             now_updated now_stamp in
  (returned r.2 = true
   <-> spec_allowed (status order) new_status = true ∧ new_status ∉ stamped)
  ∧ (spec_allowed (status order) new_status = true -> new_status ∉ stamped ->
       ∃ order', r.2 = Return order' ∧ status order' = new_status
                 ∧ orders r.1 !! order_id = Some order')
  ∧ (spec_allowed (status order) new_status = true -> new_status ∈ stamped ->
       ∃ field, r = (session, Raise (ValueError field)))
  ∧ (spec_allowed (status order) new_status = false ->
       r = (session,
            Raise (HTTPException 400
                     [Lit "Cannot transition from "; FmtStatus (status order);
                      Lit " to "; FmtStatus new_status])))
  ∧ (status order ∈ [OrderStatus.DRAFT; OrderStatus.OUT_FOR_DELIVERY;
                      OrderStatus.CANCELLED; OrderStatus.RETURNED;
                      OrderStatus.REFUNDED] ->
       spec_allowed (status order) new_status = false).
Proof.
  intros Horder Hvendor r. subst r. unfold update_order_status.
  rewrite Horder, Hvendor, valid_transitions_table.
  assert (Hterminal : status order ∈ [OrderStatus.DRAFT; OrderStatus.OUT_FOR_DELIVERY;
                                       OrderStatus.CANCELLED; OrderStatus.RETURNED;
                                       OrderStatus.REFUNDED] ->
                      spec_allowed (status order) new_status = false).
  { intros Hin.
    repeat (apply elem_of_cons in Hin as [->|Hin]; [by destruct new_status|]).
    inversion Hin. }
  destruct (spec_allowed (status order) new_status) eqn:Hallowed; simpl.
  - destruct (decide (new_status ∈ stamped)) as [Hin|Hout].
    + destruct (stamp_status_stamped new_status now_stamp
                  (set_updated_at now_updated (set_status new_status order)) Hin)
        as [field ->].
      simpl. split_and!.
      * split; [discriminate|]. by intros [_ Hout].
      * by intros _ Hout.
      * intros _ _. by exists field.
      * discriminate.
      * exact Hterminal.
    + rewrite stamp_status_other by exact Hout. simpl. split_and!.
      * by split.
      * intros _ _. eexists. split_and!; [reflexivity..|apply lookup_insert_eq].
      * by intros _ Hin.
      * discriminate.
      * exact Hterminal.
  - split_and!; [|discriminate..|reflexivity|reflexivity].
    split; [discriminate|]. by intros [[=] _].
Qed.

(** C2, as the handler has it.  For an order that exists and a caller who is
    its customer or its vendor, [cancel_order] raises the 400 error naming the
    order's status exactly when that status is DELIVERED, CANCELLED or
    RETURNED, and then changes nothing.  From every other status, without a
    reason or with the empty one, it returns and stores the order with status
    CANCELLED and [updated_at] set to the clock reading, and leaves
    [cancelled_at] and [cancellation_reason] as they were; with a reason that
    is not empty the assignment of [notes] raises [ValueError] and nothing is
    stored. *)
Theorem cancel_order_outcome session order_id reason current_user now order :
  orders session !! order_id = Some order ->
  no_access order current_user (vendor_of_user session current_user) = false ->
  let r := cancel_order order_id reason session current_user now in
  (r = (session,
        Raise (HTTPException 400
                 [Lit "Cannot cancel order with status "; FmtStatus (status order)]))
   <-> status order ∈ [OrderStatus.DELIVERED; OrderStatus.CANCELLED;
                        OrderStatus.RETURNED])
  ∧ (status order ∉ [OrderStatus.DELIVERED; OrderStatus.CANCELLED;
                      OrderStatus.RETURNED] ->
     truthy_str reason = false ->
       ∃ order', r.2 = Return order' ∧ orders r.1 !! order_id = Some order'
                 ∧ status order' = OrderStatus.CANCELLED
                 ∧ updated_at order' = Some now
                 ∧ cancelled_at order' = cancelled_at order
                 ∧ cancellation_reason order' = cancellation_reason order)
  ∧ (status order ∉ [OrderStatus.DELIVERED; OrderStatus.CANCELLED;
                      OrderStatus.RETURNED] ->
     truthy_str reason = true ->
       r = (session, Raise (ValueError "notes"))).
Proof.
  intros Horder Haccess r. subst r. unfold cancel_order.
  rewrite Horder, Haccess.
  case_bool_decide as Hblocked.
  - split_and!; [tauto|by intros Hfree..].
  - destruct (truthy_str reason); (split_and!; [|intros _..]).
    + split; [inversion 1|contradiction].
    + discriminate.
    + reflexivity.
    + split; [inversion 1|contradiction].
    + intros _. eexists. split_and!; [reflexivity|apply lookup_insert_eq|done..].
    + discriminate.
Qed.

End Status.

Section Totals.
Context {number : Type}.
Variable num_of_int : Z -> number.
Variable to_float : number -> number.
Variable num_add : number -> number -> number.
Variable num_mul_int : number -> Z -> number.
Implicit Types (session : Session number) (order : Order number).

(** The loop of [create_order] adds the line totals to its running total,
    from left to right. *)
Lemma add_order_items_total session vendor order_id items_data total loaded added
    total' added' :
  add_order_items to_float num_add num_mul_int session vendor order_id items_data
    total loaded added = Return (total', added') ->
  total' = foldl (fun acc item_data =>
                    match line_total to_float num_mul_int session item_data with
                    | Some x => num_add acc x
                    | None => acc
                    end) total items_data.
Proof.
  revert total loaded added.
  induction items_data as [|item_data rest IH]; intros total loaded added; simpl.
  - congruence.
  - destruct (negb _ && negb _); [discriminate|].
    unfold line_total at 2.
    destruct (products session !! item_data_product_id item_data) as [product|];
      simpl; [|discriminate].
    case_bool_decide; [discriminate|]. apply IH.
Qed.

(** The loop adds one row for each item, and none of them can be inserted. *)
Lemma add_order_items_added session vendor order_id items_data total loaded added
    total' added' :
  add_order_items to_float num_add num_mul_int session vendor order_id items_data
    total loaded added = Return (total', added') ->
  ∃ rows, added' = added ++ rows ∧ length rows = length items_data
          ∧ Forall (fun item => item_insertable item = false) rows.
Proof.
  revert total loaded added.
  induction items_data as [|item_data rest IH]; intros total loaded added; simpl.
  - intros [= <- <-]. exists []. by rewrite app_nil_r.
  - destruct (negb _ && negb _); [discriminate|].
    destruct (products session !! item_data_product_id item_data) as [product|];
      [|discriminate].
    case_bool_decide; [discriminate|].
    intros Hrest. apply IH in Hrest as (rows & -> & Hlen & Hrows).
    exists (new_order_item order_id product item_data :: rows).
    split_and!; [by rewrite <- app_assoc|simpl; by rewrite Hlen|].
    constructor; [reflexivity|exact Hrows].
Qed.

(** For a request with an item, what the loop has added when it is through
    cannot be committed. *)
Lemma add_order_items_blocked session vendor order_id item_data rest total total'
    added' :
  add_order_items to_float num_add num_mul_int session vendor order_id
    (item_data :: rest) total [] [] = Return (total', added') ->
  forallb item_insertable added' = false.
Proof.
  intros Hloop. apply add_order_items_added in Hloop as (rows & -> & Hlen & Hrows).
  destruct rows as [|row rows]; [discriminate Hlen|].
  apply Forall_cons in Hrows as [Hrow _]. simpl. by rewrite Hrow.
Qed.

(** Every run of [create_order] ends in an exception; the item table is as
    before, and the table of orders is as before or has the new order. *)
Lemma create_order_raises order_data session current_user new_id now :
  let r := create_order num_of_int to_float num_add num_mul_int order_data session
             current_user new_id now in
  returned r.2 = false
  ∧ order_items r.1 = order_items session
  ∧ (r.1 = session
     ∨ r.1 = commit_order new_id (new_order order_data current_user new_id now)
               session).
Proof.
  simpl. unfold create_order.
  destruct (data_items order_data) as [|item_data rest] eqn:Hitems;
    [split_and!; auto|].
  destruct (get_vendor session (data_vendor_id order_data)) as [vendor|];
    [|split_and!; auto].
  destruct (truthy_id (data_billing_address_id order_data) && _);
    [split_and!; auto|].
  destruct (truthy_id (data_shipping_address_id order_data) && _);
    [split_and!; auto|].
  destruct (negb (order_insertable _ _)); [split_and!; auto|].
  destruct (add_order_items _ _ _ _ _ _ _ _ _ _) as [[total added]|e] eqn:Hloop;
    [|split_and!; auto].
  rewrite (add_order_items_blocked _ _ _ _ _ _ _ _ Hloop). split_and!; auto.
Qed.

(** C3, as the handlers have it.  [create_order] never returns.  It never
    adds an item row, and the only change it can make is the insert of the
    order as the request states it, whose [total_amount] is the one of the
    request: the total the loop computes, which is the sum of
    [float(product.price) * quantity] over the items and takes in neither
    tax nor discount nor shipping, is never stored.  [update_order_status],
    [update_payment_status] and [cancel_order] change none of the five
    amounts. *)
Theorem create_order_never_returns :
  (∀ order_data session current_user new_id now,
     let r := create_order num_of_int to_float num_add num_mul_int order_data session
                current_user new_id now in
     let order := new_order order_data current_user new_id now in
     returned r.2 = false
     ∧ order_items r.1 = order_items session
     ∧ (r.1 = session ∨ r.1 = commit_order new_id order session)
     ∧ total_amount order = data_total_amount order_data)
  ∧ (∀ session vendor order_id items_data total added,
       add_order_items to_float num_add num_mul_int session vendor order_id items_data
         (num_of_int 0) [] [] = Return (total, added) ->
       total = sum_line_totals num_of_int to_float num_add num_mul_int session
                 items_data)
  ∧ (∀ session order_id new_status current_user now_updated now_stamp order session'
       order',
       orders session !! order_id = Some order ->
       update_order_status order_id new_status session current_user now_updated
         now_stamp = (session', Return order') ->
       amounts order' = amounts order)
  ∧ (∀ session order_id new_status transaction_id current_user order session' order',
       orders session !! order_id = Some order ->
       update_payment_status order_id new_status transaction_id session current_user
       = (session', Return order') ->
       amounts order' = amounts order)
  ∧ (∀ session order_id reason current_user now order session' order',
       orders session !! order_id = Some order ->
       cancel_order order_id reason session current_user now = (session', Return order') ->
       amounts order' = amounts order).
Proof.
  split_and!.
  - intros order_data session current_user new_id now. simpl.
    destruct (create_order_raises order_data session current_user new_id now)
      as (Hraises & Hitems & Hstate).
    split_and!; [exact Hraises|exact Hitems|exact Hstate|reflexivity].
  - intros session vendor order_id items_data total added Hloop.
    by apply add_order_items_total in Hloop.
  - intros session order_id new_status current_user now_updated now_stamp order
      session' order' Horder.
    unfold update_order_status. rewrite Horder.
    destruct (vendor_of_order session current_user order); [|discriminate].
    destruct (negb _); [discriminate|].
    unfold stamp_status. repeat case_decide; try discriminate. by intros [= <- <-].
  - intros session order_id new_status transaction_id current_user order session'
      order' Horder.
    unfold update_payment_status. rewrite Horder.
    destruct (no_access _ _ _); [discriminate|].
    destruct (truthy_str transaction_id); [discriminate|]. by intros [= <- <-].
  - intros session order_id reason current_user now order session' order' Horder.
    unfold cancel_order. rewrite Horder.
    destruct (no_access _ _ _); [discriminate|].
    case_bool_decide; [discriminate|].
    destruct (truthy_str reason); [discriminate|]. by intros [= <- <-].
Qed.

End Totals.

(** ** The theorems at work on the scenarios *)

(** The vendor confirms the pending order: the pair is in the table, and
    the request raises and stores nothing; the vendor cancels it: the request
    returns. *)
Lemma update_order_status_outcome_witness :
  update_order_status 1 OrderStatus.CONFIRMED Scenarios.session_with_order
    Scenarios.shop_owner 2000 2001
  = (Scenarios.session_with_order, Raise (ValueError "confirmed_at"))
  ∧ ∃ order',
      (update_order_status 1 OrderStatus.CANCELLED Scenarios.session_with_order
         Scenarios.shop_owner 2000 2001).2 = Return order'
      ∧ status order' = OrderStatus.CANCELLED.
Proof.
  split; [vm_compute; reflexivity|].
  edestruct (update_order_status_outcome Scenarios.session_with_order 1
               OrderStatus.CANCELLED Scenarios.shop_owner 2000 2001
               Scenarios.placed_order Scenarios.shop) as (_ & Hallowed & _).
  - vm_compute. reflexivity.
  - vm_compute. reflexivity.
  - destruct Hallowed as (order' & Hreturn & Hstatus & _); [reflexivity| |].
    + unfold stamped. intros Hin.
      repeat (apply elem_of_cons in Hin as [[=]|Hin]). inversion Hin.
    + exists order'. split; [exact Hreturn|exact Hstatus].
Defined.

(** The customer cancels the pending order without a reason: the order is
    returned as CANCELLED and its [cancelled_at] is still unset.  With a
    reason the request raises and the order stays PENDING. *)
Lemma cancel_order_outcome_witness :
  (∃ order',
     (cancel_order 1 None Scenarios.session_with_order Scenarios.customer 2000).2
     = Return order'
     ∧ status order' = OrderStatus.CANCELLED
     ∧ cancelled_at order' = None)
  ∧ cancel_order 1 (Some "changed my mind") Scenarios.session_with_order
      Scenarios.customer 2000
    = (Scenarios.session_with_order, Raise (ValueError "notes")).
Proof.
  assert (Hfree : status Scenarios.placed_order
                  ∉ [OrderStatus.DELIVERED; OrderStatus.CANCELLED;
                     OrderStatus.RETURNED]).
  { intros Hblocked. repeat (apply elem_of_cons in Hblocked as [[=]|Hblocked]).
    inversion Hblocked. }
  split.
  - edestruct (cancel_order_outcome Scenarios.session_with_order 1 None
                 Scenarios.customer 2000 Scenarios.placed_order)
      as (_ & Hcancel & _).
    + vm_compute. reflexivity.
    + vm_compute. reflexivity.
    + destruct (Hcancel Hfree eq_refl)
        as (order' & Hreturn & _ & Hstatus & _ & Hstamp & _).
      exists order'. split_and!; [exact Hreturn|exact Hstatus|exact Hstamp].
  - edestruct (cancel_order_outcome Scenarios.session_with_order 1
                 (Some "changed my mind") Scenarios.customer 2000
                 Scenarios.placed_order) as (_ & _ & Hraise).
    + vm_compute. reflexivity.
    + vm_compute. reflexivity.
    + exact (Hraise Hfree eq_refl).
Defined.

(** Scenario 1 of the specification: the request raises [IntegrityError] and
    no order is made.  With an order number and a delivery address the
    order is inserted with the total the request states, 1.00 against a
    subtotal of 130.00, tax 10.00 and shipping 5.00, and the request raises
    all the same. *)
Lemma create_order_never_returns_witness :
  create_order_exact Scenarios.two_item_request Scenarios.shop_session
    Scenarios.customer 1 1000
  = (Scenarios.shop_session, Raise IntegrityError)
  ∧ returned (create_order_exact (Scenarios.numbered_request Scenarios.two_items)
                Scenarios.shop_session Scenarios.customer 1 1000).2 = false
  ∧ ∃ order,
      orders (create_order_exact (Scenarios.numbered_request Scenarios.two_items)
                Scenarios.shop_session Scenarios.customer 1 1000).1 !! 1
      = Some order
      ∧ total_amount order = Some 100
      ∧ ¬ totals_invariant order.
Proof.
  split; [vm_compute; reflexivity|].
  destruct (proj1 (create_order_never_returns
                     (fun n => n * 100) (fun x => x) Z.add Z.mul)
              (Scenarios.numbered_request Scenarios.two_items)
              Scenarios.shop_session Scenarios.customer 1 1000)
    as (Hraises & _ & _ & Htotal).
  split; [exact Hraises|].
  eexists. split; [vm_compute; reflexivity|].
  split; [reflexivity|]. unfold totals_invariant. simpl. lia.
Defined.

End OrderProperties.

(** * Properties of the subscription, billing and usage handlers *)

Module BillingProperties.
Import Billing.

(** A row found by [first()] is in the table. *)
Lemma list_find_lt {A} (P : A -> Prop) `{!∀ x, Decision (P x)} (l : list A) i x :
  list_find P l = Some (i, x) -> (i < length l)%nat.
Proof. intros (Hl & _)%list_find_Some. eapply lookup_lt_Some, Hl. Qed.





(** ** One active subscription for a vendor *)

Lemma active_count_none db vendor :
  active_subscription db vendor = None -> active_count db vendor = 0%nat.
Proof.
  unfold active_subscription, active_count. intros Hnone%list_find_None.
  induction Hnone as [|s l Hs _ IH]; [reflexivity|].
  rewrite filter_cons_False by exact Hs. exact IH.
Qed.

(** [create_subscription] guards the invariant: with a subscription of the
    vendor in status ACTIVE or TRIAL it does not return and changes nothing
    (the exception is the [UnboundLocalError] of the [raise] statement, as it
    is for a plan that does not exist), and in every case a database with at
    most one such subscription for each vendor stays so. *)
Lemma create_subscription_keeps_one_active plan_id billing_cycle start_trial vendor db now :
  let r := create_subscription plan_id billing_cycle start_trial vendor db now in
  (is_Some (active_subscription db vendor) -> r = (db, Raise UnboundLocalError))
  ∧ ((∀ v, (active_count db v <= 1)%nat) -> ∀ v, (active_count r.1 v <= 1)%nat).
Proof.
  intros r. subst r. unfold create_subscription.
  destruct (List.find _ (plans db)) as [plan|]; simpl.
  2: { split; done. }
  destruct (active_subscription db vendor) as [found|] eqn:Hactive; simpl.
  { split; done. }
  split; [intros [? [=]]|]. intros Hone v.
  match goal with |- context [match ?period with Some _ => _ | None => _ end] =>
    destruct period as [[[status trial_end_date] current_period_end]|] end;
    simpl; [|apply Hone].
  destruct (column_value (vendor_id vendor)) as [vendor_column|] eqn:Hcolumn;
    simpl; [|apply Hone].
  assert (Hkey : vendor_id vendor = Int_key vendor_column)
    by (destruct (vendor_id vendor); simplify_eq/=; reflexivity).
  unfold active_count; simpl. rewrite filter_app, length_app.
  destruct (decide (vendor_id v = vendor_id vendor)) as [Hsame|Hother].
  - assert (Hzero : active_count db v = 0%nat).
    { apply active_count_none. unfold active_subscription in *.
      rewrite Hsame. exact Hactive. }
    unfold active_count in Hzero. rewrite Hzero.
    match goal with |- context [filter ?P [?s]] =>
      pose proof (length_filter P [s]) as Hle end.
    simpl in Hle. simpl. lia.
  - rewrite filter_cons_False; [|simpl; intros [Heq _]; congruence].
    simpl. specialize (Hone v). unfold active_count in Hone. lia.
Qed.

(** C8, the handlers run on the failing sequence: subscribe, cancel at period
    end, subscribe again, reactivate.  Every call returns; before the
    reactivation the vendor has one subscription in status ACTIVE or TRIAL,
    after it two. *)
Theorem reactivation_makes_second_active_subscription :
  returned (create_subscription 1 None false Scenarios.vendor7 Scenarios.empty_db
              (Scenarios.day 0)).2 = true
  ∧ returned (cancel_subscription (Some "too expensive") false Scenarios.vendor7
                Scenarios.db_subscribed (Scenarios.day 10) (Scenarios.day 10)).2 = true
  ∧ returned (create_subscription 1 None false Scenarios.vendor7
                Scenarios.db_cancelled (Scenarios.day 11)).2 = true
  ∧ returned (reactivate_subscription Scenarios.vendor7 Scenarios.db_resubscribed
                (Scenarios.day 12)).2 = true
  ∧ active_count Scenarios.db_resubscribed Scenarios.vendor7 = 1%nat
  ∧ active_count Scenarios.db_reactivated Scenarios.vendor7 = 2%nat.
Proof. vm_compute. repeat split. Qed.

(** ** Payment retries *)

Lemma retry_bound_insert db j payment :
  retry_bound db -> Payment.retry_count payment <= 3 ->
  retry_bound (with_payments (<[j := payment]> (payments db)) db).
Proof. unfold retry_bound; simpl. intros. by apply Forall_insert. Qed.

Lemma retry_bound_create_payment subscription_id payment_method vendor db now_paid now_txn :
  retry_bound db ->
  retry_bound (create_payment subscription_id payment_method vendor db now_paid now_txn).1.
Proof.
  intros Hbound. unfold create_payment.
  destruct (find_subscription db subscription_id vendor) as [[i subscription]|];
    [|exact Hbound].
  destruct (column_value (vendor_id vendor)) as [vendor_column|]; [|exact Hbound].
  assert (Hnew : ∀ payment, Payment.retry_count payment = 0 ->
                 retry_bound (with_payments (payments db ++ [payment]) db)).
  { intros payment Hzero. unfold retry_bound; simpl.
    apply Forall_app. split; [exact Hbound|]. apply Forall_singleton. lia. }
  destruct (roll_period subscription); simpl.
  - unfold retry_bound; simpl. apply Forall_insert; [|simpl; lia].
    by apply Hnew.
  - by apply Hnew.
Qed.

Lemma retry_bound_retry payment_id vendor db now_paid now_txn :
  retry_bound db ->
  retry_bound (retry_failed_payment payment_id vendor db now_paid now_txn).1.
Proof.
  intros Hbound. unfold retry_failed_payment.
  destruct (find_failed_payment db payment_id vendor) as [[j payment]|];
    [|exact Hbound].
  case_bool_decide as Hmax; [exact Hbound|].
  apply retry_bound_insert; [exact Hbound|].
  case_bool_decide; simpl; lia.
Qed.

Lemma retry_bound_step db db' :
  payment_step db db' -> retry_bound db -> retry_bound db'.
Proof.
  intros [| |db0 j payment status failure_reason Hj] Hbound.
  - by apply retry_bound_create_payment.
  - by apply retry_bound_retry.
  - apply retry_bound_insert; [exact Hbound|]. simpl.
    unfold retry_bound in Hbound. rewrite Forall_lookup in Hbound.
    apply (Hbound _ _ Hj).
Qed.

(** C9.  A retry of a failed payment whose [retry_count] is 3 or more is
    rejected with the 400 error and changes nothing; an accepted retry stores
    the payment with [retry_count] one higher.  So from a database in which
    every payment has [retry_count <= 3], as in the empty one, no sequence of
    payment creations, retries and gateway reports leads to a database in
    which a payment has a higher count. *)
Theorem retry_count_never_exceeds_three :
  (∀ payment_id vendor db now_paid now_txn j payment,
     find_failed_payment db payment_id vendor = Some (j, payment) ->
     let r := retry_failed_payment payment_id vendor db now_paid now_txn in
     (Payment.retry_count payment >= 3 ->
        r = (db, Raise (HTTPException 400 "Maximum retry attempts exceeded")))
     ∧ (Payment.retry_count payment < 3 ->
        ∃ payment', r.2 = Return payment' ∧ payments r.1 !! j = Some payment'
                    ∧ Payment.retry_count payment'
                      = Payment.retry_count payment + 1))
  ∧ (∀ db db', retry_bound db -> rtc payment_step db db' -> retry_bound db').
Proof.
  split.
  - intros payment_id vendor db now_paid now_txn j payment Hfound r. subst r.
    unfold retry_failed_payment. rewrite Hfound.
    pose proof (list_find_lt _ _ _ _ Hfound) as Hlt.
    case_bool_decide as Hmax.
    + split; [reflexivity|lia].
    + split; [lia|]. intros _. eexists. split; [reflexivity|].
      split; [apply list_lookup_insert_eq, Hlt|].
      case_bool_decide; reflexivity.
  - intros db db' Hbound Hsteps. induction Hsteps as [|db1 db2 db3 Hstep _ IH].
    + exact Hbound.
    + apply IH. eapply retry_bound_step; eassumption.
Qed.

(** ** Billing-cycle rollover *)

Lemma datetime_add_Some dt delta dt' :
  datetime_add dt delta = Some dt' <-> dt' = dt + delta ∧ 0 <= dt + delta <= datetime_max.
Proof.
  unfold datetime_add. case_bool_decide; split.
  - intros [= <-]. auto.
  - intros [-> _]. reflexivity.
  - discriminate.
  - intros [_ ?]. contradiction.
Qed.

Lemma add_days_literal dt days :
  -999999999 <= days <= 999999999 ->
  add_days dt days = datetime_add dt (timedelta_days days).
Proof.
  intros Hdays. unfold add_days, timedelta.
  rewrite bool_decide_eq_true_2 by exact Hdays. reflexivity.
Qed.

(** A subscription that the vendor's query finds carries the vendor's key,
    which is then an integer. *)
Lemma find_subscription_column db subscription_id vendor i subscription :
  find_subscription db subscription_id vendor = Some (i, subscription) ->
  column_value (vendor_id vendor) = Some (Subscription.vendor_id subscription).
Proof.
  unfold find_subscription. intros (_ & [_ Hown] & _)%list_find_Some.
  rewrite <- Hown. reflexivity.
Qed.

(** The update of the billing cycle stops at its first line. *)
Lemma roll_period_raises subscription : roll_period subscription = Raise AttributeError.
Proof. reflexivity. Qed.

(** What [create_payment] does for a subscription it finds. *)
Lemma create_payment_found subscription_id payment_method vendor db now_paid now_txn
    i subscription :
  find_subscription db subscription_id vendor = Some (i, subscription) ->
  create_payment subscription_id payment_method vendor db now_paid now_txn
  = (with_payments
       (payments db
        ++ [{| Payment.id := next_id (Payment.id <$> payments db);
               Payment.subscription_id := Subscription.id subscription;
               Payment.vendor_id := Subscription.vendor_id subscription;
               Payment.amount := Subscription.amount subscription;
               Payment.currency := Subscription.currency subscription;
               Payment.status := PaymentStatus.PENDING;
               Payment.payment_method := payment_method;
               Payment.transaction_id := None;
               Payment.payment_date := None;
               Payment.due_date := Subscription.next_billing_date subscription;
               Payment.billing_period_start :=
                 Subscription.current_period_start subscription;
               Payment.billing_period_end :=
                 Subscription.current_period_end subscription;
               Payment.failure_reason := None;
               Payment.retry_count := 0 |}]) db,
     Raise AttributeError).
Proof.
  intros Hfound. unfold create_payment.
  rewrite Hfound, (find_subscription_column _ _ _ _ _ Hfound). reflexivity.
Qed.

Lemma create_payment_not_found subscription_id payment_method vendor db now_paid now_txn :
  find_subscription db subscription_id vendor = None ->
  create_payment subscription_id payment_method vendor db now_paid now_txn
  = (db, Raise (HTTPException 404 "Subscription not found")).
Proof. intros Hnone. unfold create_payment. rewrite Hnone. reflexivity. Qed.

Lemma payment_step_subscriptions db db' :
  payment_step db db' -> subscriptions db' = subscriptions db.
Proof.
  intros [subscription_id payment_method vendor db0 now_paid now_txn
         |payment_id vendor db0 now_paid now_txn
         |db0 j payment status failure_reason Hj].
  - destruct (find_subscription db0 subscription_id vendor) as [[i subscription]|]
      eqn:Hfound.
    + rewrite (create_payment_found _ _ _ _ _ _ _ _ Hfound). reflexivity.
    + rewrite (create_payment_not_found _ _ _ _ _ _ Hfound). reflexivity.
  - unfold retry_failed_payment.
    destruct (find_failed_payment db0 payment_id vendor) as [[j payment]|];
      [|reflexivity].
    case_bool_decide; reflexivity.
  - reflexivity.
Qed.

(** C4, what the handler does.  [create_payment] never returns and never
    rolls a period.  For a subscription it finds, it commits one payment in
    status PENDING and then stops with [AttributeError] at the read of
    [subscription.billing_cycle], an attribute class [Subscription] does not
    declare: the completion of the payment and the update of
    [current_period_start], [current_period_end] and [next_billing_date] that
    follow in the handler are never reached.  For a subscription it does not
    find, it raises the 404 error and changes nothing.  So no sequence of
    payment creations, retries and gateway reports changes a subscription. *)
Theorem create_payment_never_rolls :
  (∀ subscription_id payment_method vendor db now_paid now_txn,
     let r := create_payment subscription_id payment_method vendor db now_paid now_txn in
     returned r.2 = false
     ∧ subscriptions r.1 = subscriptions db
     ∧ (∀ i subscription,
          find_subscription db subscription_id vendor = Some (i, subscription) ->
          r.2 = Raise AttributeError
          ∧ subscriptions r.1 !! i = Some subscription
          ∧ ∃ payment, payments r.1 = payments db ++ [payment]
                       ∧ Payment.status payment = PaymentStatus.PENDING
                       ∧ Payment.payment_date payment = None)
     ∧ (find_subscription db subscription_id vendor = None ->
        r = (db, Raise (HTTPException 404 "Subscription not found"))))
  ∧ (∀ db db', rtc payment_step db db' -> subscriptions db' = subscriptions db).
Proof.
  split.
  - intros subscription_id payment_method vendor db now_paid now_txn r. subst r.
    destruct (find_subscription db subscription_id vendor) as [[i subscription]|]
      eqn:Hfound.
    + rewrite (create_payment_found _ _ _ _ _ _ _ _ Hfound). simpl.
      split_and!; [reflexivity|reflexivity| |discriminate].
      intros i' subscription' [= <- <-].
      split_and!; [reflexivity| |].
      * apply list_find_Some in Hfound as (Hi & _). exact Hi.
      * eexists. split_and!; reflexivity.
    + rewrite (create_payment_not_found _ _ _ _ _ _ Hfound). simpl.
      split_and!; [reflexivity|reflexivity|discriminate|reflexivity].
  - intros db db' Hsteps. induction Hsteps as [|db1 db2 db3 Hstep _ IH].
    + reflexivity.
    + rewrite IH. exact (payment_step_subscriptions _ _ Hstep).
Qed.

(** C4, the handler run on the failing input: the vendor subscribes to the
    monthly plan on day 0 and pays on day 30.  The request ends in
    [AttributeError], the payment is left committed in status PENDING, and
    the period of the subscription still ends on day 30, not on day 60. *)
Example payment_on_created_subscription :
  let r := create_payment 1 PaymentMethod.UPI Scenarios.vendor7 Scenarios.db_subscribed
             (Scenarios.day 30) (Scenarios.day 30) in
  r.2 = Raise AttributeError
  ∧ Payment.status <$> payments r.1 = [PaymentStatus.PENDING]
  ∧ subscriptions r.1 = subscriptions Scenarios.db_subscribed
  ∧ Subscription.current_period_end <$> subscriptions r.1 = [Scenarios.day 30].
Proof. vm_compute. repeat split. Qed.

(** ** Usage tracking *)

Lemma update_metadata_fields usage_metadata usage_record :
  UsageRecord.usage_count (update_metadata usage_metadata usage_record)
  = UsageRecord.usage_count usage_record
  ∧ UsageRecord.usage_limit (update_metadata usage_metadata usage_record)
    = UsageRecord.usage_limit usage_record.
Proof.
  unfold update_metadata.
  destruct usage_metadata as [m|]; [repeat case_bool_decide|]; done.
Qed.

Lemma update_metadata_updated_at usage_metadata usage_record :
  UsageRecord.updated_at (update_metadata usage_metadata usage_record)
  = UsageRecord.updated_at usage_record.
Proof.
  unfold update_metadata.
  destruct usage_metadata as [m|]; [repeat case_bool_decide|]; done.
Qed.

(** A record that was found binds its new count only. *)
Lemma usage_bindable_found k usage_record :
  usage_bindable (Some k) usage_record
  = sqlite_integer (UsageRecord.usage_count usage_record).
Proof.
  unfold usage_bindable.
  destruct (UsageRecord.usage_limit usage_record); apply andb_true_r.
Qed.

Section Tracking.
Variables (feature_name : string) (usage_increment : Z).
Variable usage_metadata : option (gmap string string).
Variables (vendor : Vendor) (db : DB) (now_created now : Z).
Variables (i : nat) (subscription : Subscription.t).
Variables (k : nat) (usage_record : UsageRecord.t).
Hypothesis subscribed : active_subscription db vendor = Some (i, subscription).
Hypothesis recorded :
  current_usage_record db vendor subscription feature_name = Some (k, usage_record).

Let r := track_feature_usage feature_name usage_increment usage_metadata vendor db
           now_created now.
Let new_count := UsageRecord.usage_count usage_record + usage_increment.

Lemma track_found :
  r = track_on_record db (Some k) usage_record usage_increment usage_metadata now.
Proof.
  subst r. unfold track_feature_usage. rewrite subscribed, recorded. reflexivity.
Qed.

(** The record that is written when the limit check lets the increment
    through. *)
Let written :=
  update_metadata usage_metadata
    (UsageRecord.set_updated_at now
       (UsageRecord.set_usage_count new_count usage_record)).

Lemma track_checked :
  (truthy_int (UsageRecord.usage_limit usage_record)
   && bool_decide (new_count > default 0 (UsageRecord.usage_limit usage_record)))
  = false ->
  sqlite_integer new_count = true ->
  r = (with_usage_records (<[k := written]> (usage_records db)) db,
       match UsageRecord.usage_percentage written with
       | Raise e => Raise e
       | Return percentage =>
         Return (Usage_tracked (UsageRecord.feature_name written)
                   (UsageRecord.usage_count written)
                   (UsageRecord.usage_limit written)
                   percentage usage_increment)
       end).
Proof.
  intros Hcheck Hrange.
  assert (Hbind : usage_bindable (Some k) written = true).
  { rewrite usage_bindable_found. subst written.
    rewrite (proj1 (update_metadata_fields _ _)). exact Hrange. }
  rewrite track_found. unfold track_on_record.
  fold new_count. rewrite Hcheck. fold written. rewrite Hbind. simpl.
  destruct (UsageRecord.usage_percentage written); reflexivity.
Qed.

Lemma track_accepts :
  (truthy_int (UsageRecord.usage_limit usage_record)
   && bool_decide (new_count > default 0 (UsageRecord.usage_limit usage_record)))
  = false ->
  sqlite_integer new_count = true ->
  r.1 = with_usage_records (<[k := written]> (usage_records db)) db
  ∧ usage_records r.1 !! k = Some written
  ∧ UsageRecord.usage_count written = new_count
  ∧ UsageRecord.usage_limit written = UsageRecord.usage_limit usage_record
  ∧ UsageRecord.updated_at written = now
  ∧ (∀ a b c d, r.2 ≠ Return (Usage_limit_exceeded a b c d)).
Proof.
  intros Hcheck Hrange. rewrite (track_checked Hcheck Hrange).
  pose proof (list_find_lt _ _ _ _ recorded) as Hlt.
  destruct (update_metadata_fields usage_metadata
              (UsageRecord.set_updated_at now
                 (UsageRecord.set_usage_count new_count usage_record)))
    as [Hcount Hlimit].
  pose proof (update_metadata_updated_at usage_metadata
                (UsageRecord.set_updated_at now
                   (UsageRecord.set_usage_count new_count usage_record))) as Hstamp.
  fold written in Hcount, Hlimit, Hstamp. simpl in Hcount, Hlimit, Hstamp.
  destruct (UsageRecord.usage_percentage written) eqn:Hpct; simpl;
    (split; [reflexivity|]); (split; [apply list_lookup_insert_eq, Hlt|]);
    split_and!; try done.
Qed.


(** With a limit other than zero the handler does what the specification
    says: an increment that would pass the limit is rejected and nothing is
    written, any other increment is written, if the new count fits the
    column, and confirmed. *)
Lemma track_nonzero_limit limit :
  UsageRecord.usage_limit usage_record = Some limit -> limit ≠ 0 ->
  (new_count > limit ->
     r = (db, Return (Usage_limit_exceeded (UsageRecord.usage_count usage_record)
                        limit usage_increment new_count)))
  ∧ (new_count <= limit -> sqlite_integer new_count = true ->
     ∃ u' response, r.2 = Return response ∧ success response = true
       ∧ usage_records r.1 !! k = Some u'
       ∧ UsageRecord.usage_count u' = new_count).
Proof.
  intros Hlimit Hnonzero. split.
  - intros Hover. rewrite track_found. unfold track_on_record. fold new_count.
    rewrite Hlimit. simpl. rewrite !bool_decide_eq_false_2, bool_decide_eq_true_2 by done.
    reflexivity.
  - intros Hfits Hrange.
    assert (Hcheck : (truthy_int (UsageRecord.usage_limit usage_record)
                      && bool_decide (new_count
                           > default 0 (UsageRecord.usage_limit usage_record)))
                     = false).
    { rewrite Hlimit. simpl. rewrite (bool_decide_eq_false_2 (new_count > limit)) by lia.
      apply andb_false_r. }
    destruct (track_accepts Hcheck Hrange) as (_ & Hk & Hcount & Hsame & _).
    exists written. revert Hk. rewrite (track_checked Hcheck Hrange).
    unfold UsageRecord.usage_percentage. rewrite Hsame, Hlimit.
    rewrite bool_decide_eq_false_2 by done. simpl. intros Hk.
    eexists. split_and!; [reflexivity|reflexivity|exact Hk|exact Hcount].
Qed.



End Tracking.

(** Scenario 4 of the specification: with limit 100 and count 95 an increment
    of 10 is rejected and the count stays 95; an increment of 5 is then
    accepted and the count is 100. *)
Example usage_scenario :
  let db := Scenarios.db_with_usage 95 (Some 100) in
  let r1 := track_feature_usage "api_calls" 10 None Scenarios.vendor7 db
              (Scenarios.day 2) (Scenarios.day 2) in
  let r2 := track_feature_usage "api_calls" 5 None Scenarios.vendor7 r1.1
              (Scenarios.day 3) (Scenarios.day 3) in
  r1 = (db, Return (Usage_limit_exceeded 95 100 10 105))
  ∧ r2.2 = Return (Usage_tracked "api_calls" 100 (Some 100) (Some (Percent 100 100)) 5)
  ∧ UsageRecord.usage_count <$> usage_records r2.1 = [100].
Proof. vm_compute. repeat split. Qed.


(** C5, the handler run on the failing input: a record with limit 0 and
    count 3, and an increment of 2.  The new count 5 is above the limit, yet
    the count 5 is committed, and the request ends in the division by the
    zero limit. *)
Theorem zero_limit_increment_is_committed :
  let r := track_feature_usage "api_calls" 2 None Scenarios.vendor7
             (Scenarios.db_with_usage 3 (Some 0)) (Scenarios.day 2) (Scenarios.day 2) in
  3 + 2 > 0
  ∧ UsageRecord.usage_count <$> usage_records r.1 = [5]
  ∧ r.2 = Raise ZeroDivisionError.
Proof. vm_compute. repeat split. Qed.

(** ** The theorems at work on the scenarios *)



Lemma retry_count_never_exceeds_three_witness :
  (∃ payment',
     (retry_failed_payment 1 Scenarios.vendor7 (Scenarios.db_with_failed_payment 2)
        (Scenarios.day 31) (Scenarios.day 31)).2 = Return payment'
     ∧ Payment.retry_count payment' = 3)
  ∧ retry_failed_payment 1 Scenarios.vendor7 (Scenarios.db_with_failed_payment 3)
      (Scenarios.day 31) (Scenarios.day 31)
    = (Scenarios.db_with_failed_payment 3,
       Raise (HTTPException 400 "Maximum retry attempts exceeded"))
  ∧ retry_bound (retry_failed_payment 1 Scenarios.vendor7
                   (Scenarios.db_with_failed_payment 2)
                   (Scenarios.day 31) (Scenarios.day 31)).1.
Proof.
  destruct retry_count_never_exceeds_three as [Hretry Hbound].
  split_and!.
  - edestruct (Hretry 1 Scenarios.vendor7 (Scenarios.db_with_failed_payment 2)
                 (Scenarios.day 31) (Scenarios.day 31)) as [_ Haccept].
    + vm_compute. reflexivity.
    + destruct Haccept as (payment' & Hreturn & _ & Hcount); [simpl; lia|].
      exists payment'. split; [exact Hreturn|exact Hcount].
  - edestruct (Hretry 1 Scenarios.vendor7 (Scenarios.db_with_failed_payment 3)
                 (Scenarios.day 31) (Scenarios.day 31)) as [Hreject _].
    + vm_compute. reflexivity.
    + apply Hreject. simpl. lia.
  - apply (Hbound (Scenarios.db_with_failed_payment 2)).
    + repeat constructor. simpl. lia.
    + apply rtc_once. constructor.
Defined.


End BillingProperties.

(** * Further properties of the order handlers *)

Module OrderLifecycle.
Import Orders.

Section Steps.
Context {number : Type}.
Variable num_of_int : Z -> number.
Variable to_float : number -> number.
Variable num_add : number -> number -> number.
Variable num_mul_int : number -> Z -> number.
Implicit Types (session : Session number) (order : Order number).

Abbreviation create_order := (create_order num_of_int to_float num_add num_mul_int).
Abbreviation add_order_items := (add_order_items to_float num_add num_mul_int).
Abbreviation order_step := (order_step num_of_int to_float num_add num_mul_int).

(** ** What [create_order] leaves behind *)

(** The database after [create_order]: the order is inserted when the checks
    before the insert pass and the row can be inserted, and nothing else
    ever changes. *)
Lemma create_order_state order_data session current_user new_id now :
  (create_order order_data session current_user new_id now).1
  = if request_checked session current_user order_data
       && order_insertable session (new_order order_data current_user new_id now)
    then commit_order new_id (new_order order_data current_user new_id now) session
    else session.
Proof.
  unfold Orders.create_order, request_checked.
  destruct (data_items order_data) as [|item_data rest] eqn:Hitems; [reflexivity|].
  rewrite bool_decide_eq_false_2 by discriminate.
  destruct (get_vendor session (data_vendor_id order_data)) as [vendor|];
    [|reflexivity].
  destruct (truthy_id (data_billing_address_id order_data) && _); [reflexivity|].
  destruct (truthy_id (data_shipping_address_id order_data) && _); [reflexivity|].
  cbn [negb andb has_value]. destruct (order_insertable _ _); [|reflexivity].
  cbn [negb andb].
  destruct (Orders.add_order_items _ _ _ _ _ _ _ _ _ _) as [[total added]|e] eqn:Hloop;
    [|reflexivity].
  by rewrite (OrderProperties.add_order_items_blocked _ _ _ _ _ _ _ _ _ _ _ Hloop).
Qed.

Lemma commit_order_changes session order :
  order_insertable session order = true ->
  commit_order (id order) order session ≠ session.
Proof.
  unfold order_insertable. intros Hins Hsame.
  repeat (apply andb_prop in Hins as [Hins ?]).
  assert (Hfree : orders session !! id order = None) by (by eapply bool_decide_eq_true_1).
  rewrite <- Hsame in Hfree. simpl in Hfree. by rewrite lookup_insert_eq in Hfree.
Qed.

(** X1.  [create_order] changes the database exactly when the request has an
    item, its vendor exists, a billing and a shipping address that are given
    belong to the caller, the request has an order number, a delivery
    address, a subtotal and a total, and the primary key and the order number
    are new.  The change is the insert of the order as the request states
    it, PENDING and with the caller as customer; no item row is added, though
    the handler then raises. *)
Theorem create_order_stores_iff order_data session current_user new_id now :
  let r := create_order order_data session current_user new_id now in
  let order := new_order order_data current_user new_id now in
  (r.1 ≠ session
   <-> request_checked session current_user order_data
       && order_insertable session order = true)
  ∧ (r.1 ≠ session ->
     r.1 = commit_order new_id order session
     ∧ orders r.1 !! new_id = Some order
     ∧ order_items r.1 = order_items session
     ∧ status order = OrderStatus.PENDING
     ∧ customer_id order = user_id current_user
     ∧ returned r.2 = false).
Proof.
  simpl. rewrite create_order_state.
  destruct (request_checked session current_user order_data) eqn:Hchecked; simpl;
    [|split; [split; [done|discriminate]|done]].
  destruct (order_insertable session _) eqn:Hins;
    [|split; [split; [done|discriminate]|done]].
  split.
  - split; [done|]. intros _.
    exact (commit_order_changes session
             (new_order order_data current_user new_id now) Hins).
  - intros _. split_and!; [reflexivity|apply lookup_insert_eq|reflexivity..|].
    apply (OrderProperties.create_order_raises num_of_int to_float num_add
             num_mul_int order_data session current_user new_id now).
Qed.

(** Once an item that cannot be inserted has been added, the rest of the
    loop either raises at a flush or comes to its end. *)
Lemma add_order_items_flush session vendor order_id items_data total loaded added :
  forallb item_insertable added = false ->
  (∀ k, k ∈ loaded ->
        ∃ product, products session !! k = Some product
                   ∧ product_vendor_id product = vendor_id vendor) ->
  add_order_items session vendor order_id items_data total loaded added
  = Raise IntegrityError
  ∨ ∃ total' added',
      add_order_items session vendor order_id items_data total loaded added
      = Return (total', added')
      ∧ forallb item_insertable added' = false.
Proof.
  revert total loaded added.
  induction items_data as [|item_data rest IH]; intros total loaded added Hadded Hloaded;
    simpl; [right; eauto|].
  rewrite Hadded. case_bool_decide as Hin; [|simpl; by left]. simpl.
  destruct (Hloaded _ Hin) as (product & -> & Hvendor).
  rewrite bool_decide_eq_false_2 by (intros Hne; by apply Hne).
  apply IH.
  - by rewrite forallb_app, Hadded.
  - intros k Hk. apply elem_of_cons in Hk as [->|Hk]; by apply Hloaded.
Qed.

(** X2.  When the order has been inserted, the request ends in the 400
    error if the first item names a product that does not exist or is not the
    vendor's, and in [IntegrityError] otherwise, also when a later item names
    such a product: the lookup of a further product, or the last commit,
    flushes an item row that has neither a total price nor a product name.
    In both cases the order stays in the table as the request states it,
    without any item. *)
Theorem create_order_rejected_item_leaves_order order_data session current_user
    new_id now vendor first rest :
  request_checked session current_user order_data = true ->
  order_insertable session (new_order order_data current_user new_id now) = true ->
  get_vendor session (data_vendor_id order_data) = Some vendor ->
  data_items order_data = first :: rest ->
  let r := create_order order_data session current_user new_id now in
  (item_accepted session vendor first = false ->
   ∃ detail, r.2 = Raise (HTTPException 400 detail))
  ∧ (item_accepted session vendor first = true -> r.2 = Raise IntegrityError)
  ∧ orders r.1 !! new_id = Some (new_order order_data current_user new_id now)
  ∧ order_items r.1 = order_items session.
Proof.
  intros Hchecked Hins Hvendor Hitems r.
  assert (Hstate : r.1 = commit_order new_id
                           (new_order order_data current_user new_id now) session).
  { subst r. by rewrite create_order_state, Hchecked, Hins. }
  split_and!; [| |rewrite Hstate; apply lookup_insert_eq|by rewrite Hstate].
  - subst r. clear Hstate. revert Hchecked. unfold Orders.create_order, request_checked.
    rewrite Hvendor, Hitems, Hins. cbn [negb has_value andb].
    rewrite bool_decide_eq_false_2 by discriminate. cbn [negb andb].
    destruct (truthy_id (data_billing_address_id order_data) && _); [discriminate|].
    destruct (truthy_id (data_shipping_address_id order_data) && _); [discriminate|].
    intros _. unfold item_accepted. simpl.
    destruct (products session !! item_data_product_id first) as [product|];
      [|intros _; eauto].
    intros Hother. apply bool_decide_eq_false_1 in Hother.
    rewrite bool_decide_eq_true_2 by exact Hother. eauto.
  - subst r. clear Hstate. revert Hchecked. unfold Orders.create_order, request_checked.
    rewrite Hvendor, Hitems, Hins. cbn [negb has_value andb].
    rewrite bool_decide_eq_false_2 by discriminate. cbn [negb andb].
    destruct (truthy_id (data_billing_address_id order_data) && _); [discriminate|].
    destruct (truthy_id (data_shipping_address_id order_data) && _); [discriminate|].
    intros _. unfold item_accepted. simpl.
    destruct (products session !! item_data_product_id first) as [product|] eqn:Hproduct;
      [|discriminate].
    intros Hmine. apply bool_decide_eq_true_1 in Hmine.
    rewrite bool_decide_eq_false_2 by (intros Hne; by apply Hne).
    match goal with
    | |- context [Orders.add_order_items ?f ?a ?m ?s ?v ?k ?items ?t ?l ?p] =>
      destruct (add_order_items_flush s v k items t l p) as [->|(t' & p' & -> & ->)]
    end; [reflexivity| |reflexivity|reflexivity].
    intros k Hk. apply elem_of_cons in Hk as [->|Hk]; [|inversion Hk].
    exists product. by split.
Qed.

(** ** The life of an order *)

Lemma allowed_rank current requested :
  spec_allowed current requested = true ->
  (status_rank current < status_rank requested)%nat.
Proof.
  destruct current, requested; simpl; intros Hallowed;
    first [discriminate Hallowed | lia].
Qed.

Lemma update_order_status_returns order_id new_status session current_user
    now_updated now_stamp order session' order' :
  orders session !! order_id = Some order ->
  update_order_status order_id new_status session current_user now_updated now_stamp
  = (session', Return order') ->
  session' = commit_order order_id order' session
  ∧ status order' = new_status
  ∧ spec_allowed (status order) new_status = true
  ∧ same_order order order'.
Proof.
  intros Horder. unfold update_order_status. rewrite Horder.
  destruct (vendor_of_order session current_user order); [|discriminate].
  rewrite OrderProperties.valid_transitions_table.
  destruct (spec_allowed (status order) new_status); simpl; [|discriminate].
  unfold stamp_status. repeat case_decide; try discriminate.
  intros [= <- <-]. unfold same_order. split_and!; reflexivity.
Qed.

Lemma cancel_order_returns order_id reason session current_user now order session'
    order' :
  orders session !! order_id = Some order ->
  cancel_order order_id reason session current_user now = (session', Return order') ->
  session' = commit_order order_id order' session
  ∧ status order' = OrderStatus.CANCELLED
  ∧ (status order ∉ [OrderStatus.DELIVERED; OrderStatus.CANCELLED;
                      OrderStatus.RETURNED])
  ∧ same_order order order'.
Proof.
  intros Horder. unfold cancel_order. rewrite Horder.
  destruct (no_access _ _ _); [discriminate|].
  case_bool_decide as Hblocked; [discriminate|].
  destruct (truthy_str reason); [discriminate|].
  intros [= <- <-]. unfold same_order. split_and!; done.
Qed.

Lemma update_payment_status_returns order_id new_status transaction_id session
    current_user order session' order' :
  orders session !! order_id = Some order ->
  update_payment_status order_id new_status transaction_id session current_user
  = (session', Return order') ->
  session' = commit_order order_id order' session
  ∧ status order' = status order
  ∧ payment_status order' = new_status
  ∧ same_order order order'.
Proof.
  intros Horder. unfold update_payment_status. rewrite Horder.
  destruct (no_access _ _ _); [discriminate|].
  destruct (truthy_str transaction_id); [discriminate|].
  intros [= <- <-]. unfold same_order. split_and!; done.
Qed.

Lemma free_rank s :
  s ∉ [OrderStatus.DELIVERED; OrderStatus.CANCELLED; OrderStatus.RETURNED] ->
  (status_rank s < status_rank OrderStatus.CANCELLED)%nat.
Proof.
  intros Hfree. destruct s; simpl; try lia; exfalso; apply Hfree;
    repeat constructor.
Qed.

(** X4.  Every status change moves an order forward: when
    [update_order_status] or [cancel_order] returns, the new status is
    strictly further along the order's life than the old one (DRAFT,
    OUT_FOR_DELIVERY and REFUNDED first, then PENDING, CONFIRMED, PROCESSING,
    SHIPPED, DELIVERED, and last CANCELLED and RETURNED).  So no order comes
    back to a status it has left, and an order in status CANCELLED or RETURNED
    keeps it. *)
Theorem status_changes_move_forward session order_id order :
  orders session !! order_id = Some order ->
  (∀ new_status current_user now_updated now_stamp session' order',
     update_order_status order_id new_status session current_user now_updated
       now_stamp = (session', Return order') ->
     (status_rank (status order) < status_rank (status order'))%nat)
  ∧ (∀ reason current_user now session' order',
       cancel_order order_id reason session current_user now
       = (session', Return order') ->
       (status_rank (status order) < status_rank (status order'))%nat).
Proof.
  intros Horder. split.
  - intros new_status current_user now_updated now_stamp session' order' Hrun.
    destruct (update_order_status_returns _ _ _ _ _ _ _ _ _ Horder Hrun)
      as (_ & -> & Hallowed & _).
    by apply allowed_rank.
  - intros reason current_user now session' order' Hrun.
    destruct (cancel_order_returns _ _ _ _ _ _ _ _ Horder Hrun)
      as (_ & -> & Hfree & _).
    by apply free_rank.
Qed.

(** A request that raises leaves the table of orders as it was. *)
Lemma update_order_status_raises order_id new_status session current_user
    now_updated now_stamp :
  let r := update_order_status order_id new_status session current_user
             now_updated now_stamp in
  returned r.2 = false -> r.1 = session.
Proof.
  intros r. subst r. unfold update_order_status.
  destruct (orders session !! order_id) as [order|]; [|reflexivity].
  destruct (vendor_of_order session current_user order); [|reflexivity].
  destruct (negb _); [reflexivity|].
  destruct (stamp_status _ _ _); [discriminate|reflexivity].
Qed.

Lemma update_payment_status_raises order_id new_status transaction_id session
    current_user :
  let r := update_payment_status order_id new_status transaction_id session
             current_user in
  returned r.2 = false -> r.1 = session.
Proof.
  intros r. subst r. unfold update_payment_status.
  destruct (orders session !! order_id) as [order|]; [|reflexivity].
  destruct (no_access _ _ _); [reflexivity|].
  destruct (truthy_str transaction_id); [reflexivity|discriminate].
Qed.

Lemma cancel_order_raises order_id reason session current_user now :
  let r := cancel_order order_id reason session current_user now in
  returned r.2 = false -> r.1 = session.
Proof.
  intros r. subst r. unfold cancel_order.
  destruct (orders session !! order_id) as [order|]; [|reflexivity].
  destruct (no_access _ _ _); [reflexivity|].
  case_bool_decide; [reflexivity|].
  destruct (truthy_str reason); [reflexivity|discriminate].
Qed.

Lemma kept_refl session order_id order :
  orders session !! order_id = Some order -> kept session order_id order.
Proof. intros Hk. exists order. unfold same_order. split_and!; done. Qed.

Lemma kept_commit session key old new order_id order :
  orders session !! key = Some old ->
  same_order old new ->
  (status_rank (status old) <= status_rank (status new))%nat ->
  orders session !! order_id = Some order ->
  kept (commit_order key new session) order_id order.
Proof.
  intros Hold Hsame Hrank Hk. unfold kept. simpl.
  destruct (decide (key = order_id)) as [->|Hother].
  - rewrite lookup_insert_eq. exists new. rewrite Hk in Hold. injection Hold as <-.
    split_and!; done.
  - rewrite lookup_insert_ne by exact Hother. by apply kept_refl.
Qed.

(** What a request keeps of the database: the vendors, the item rows, and
    every order that is in the table. *)
Lemma order_step_keeps session session' :
  order_step session session' ->
  vendors session' = vendors session
  ∧ order_items session' = order_items session
  ∧ ∀ order_id order, orders session !! order_id = Some order ->
                      kept session' order_id order.
Proof.
  intros Hstep. destruct Hstep as
    [order_data session current_user new_id now
    |key new_status session current_user now_updated now_stamp
    |key new_status transaction_id session current_user
    |key reason session current_user now].
  - rewrite create_order_state.
    destruct (request_checked _ _ _ && order_insertable _ _) eqn:Hstored;
      [|split_and!; [done..|]; intros; by apply kept_refl].
    split_and!; [done..|]. intros order_id order Hk. apply kept_refl. simpl.
    apply andb_prop in Hstored as [_ Hins]. unfold order_insertable in Hins.
    repeat (apply andb_prop in Hins as [Hins ?]).
    assert (Hfree : orders session !! new_id = None)
      by (by eapply bool_decide_eq_true_1).
    rewrite lookup_insert_ne; [exact Hk|]. congruence.
  - destruct (update_order_status key new_status session current_user now_updated
                now_stamp) as [session' [order'|e]] eqn:Hrun; simpl.
    + destruct (orders session !! key) as [old|] eqn:Hold.
      * destruct (update_order_status_returns _ _ _ _ _ _ _ _ _ Hold Hrun)
          as (-> & Hnew & Hallowed & Hsame).
        split_and!; [done..|]. intros order_id order Hk.
        eapply kept_commit; [exact Hold|exact Hsame| |exact Hk].
        rewrite Hnew. apply allowed_rank in Hallowed. lia.
      * unfold update_order_status in Hrun. rewrite Hold in Hrun. discriminate.
    + pose proof (update_order_status_raises key new_status session current_user
                    now_updated now_stamp) as Hsame.
      rewrite Hrun in Hsame. simpl in Hsame. rewrite Hsame by reflexivity.
      split_and!; [done..|]. intros; by apply kept_refl.
  - destruct (update_payment_status key new_status transaction_id session
                current_user) as [session' [order'|e]] eqn:Hrun; simpl.
    + destruct (orders session !! key) as [old|] eqn:Hold.
      * destruct (update_payment_status_returns _ _ _ _ _ _ _ _ Hold Hrun)
          as (-> & Hnew & _ & Hsame).
        split_and!; [done..|]. intros order_id order Hk.
        eapply kept_commit; [exact Hold|exact Hsame| |exact Hk].
        rewrite Hnew. lia.
      * unfold update_payment_status in Hrun. rewrite Hold in Hrun. discriminate.
    + pose proof (update_payment_status_raises key new_status transaction_id session
                    current_user) as Hsame.
      rewrite Hrun in Hsame. simpl in Hsame. rewrite Hsame by reflexivity.
      split_and!; [done..|]. intros; by apply kept_refl.
  - destruct (cancel_order key reason session current_user now)
      as [session' [order'|e]] eqn:Hrun; simpl.
    + destruct (orders session !! key) as [old|] eqn:Hold.
      * destruct (cancel_order_returns _ _ _ _ _ _ _ _ Hold Hrun)
          as (-> & Hnew & Hfree & Hsame).
        split_and!; [done..|]. intros order_id order Hk.
        eapply kept_commit; [exact Hold|exact Hsame| |exact Hk].
        rewrite Hnew. apply free_rank in Hfree. lia.
      * unfold cancel_order in Hrun. rewrite Hold in Hrun. discriminate.
    + pose proof (cancel_order_raises key reason session current_user now) as Hsame.
      rewrite Hrun in Hsame. simpl in Hsame. rewrite Hsame by reflexivity.
      split_and!; [done..|]. intros; by apply kept_refl.
Qed.

Lemma order_steps_keep session session' :
  rtc order_step session session' ->
  vendors session' = vendors session
  ∧ order_items session' = order_items session
  ∧ ∀ order_id order, orders session !! order_id = Some order ->
                      kept session' order_id order.
Proof.
  induction 1 as [session|session1 session2 session3 Hstep _ IH].
  - split_and!; [done..|]. intros; by apply kept_refl.
  - destruct (order_step_keeps _ _ Hstep) as (Hv & Hi & Hk).
    destruct IH as (Hv' & Hi' & Hk').
    split_and!; [congruence..|]. intros order_id order Horder.
    destruct (Hk _ _ Horder) as (order2 & Horder2 & Hsame2 & Hrank2).
    destruct (Hk' _ _ Horder2) as (order3 & Horder3 & Hsame3 & Hrank3).
    exists order3. split_and!; [done| |lia].
    destruct Hsame2 as (? & ? & ? & ?), Hsame3 as (? & ? & ? & ?).
    unfold same_order. split_and!; congruence.
Qed.

(** X3.  No handler writes an item row.  Along every sequence of
    [create_order], [update_order_status], [update_payment_status] and
    [cancel_order] requests the item table stays as it is, and what
    [get_order_items] answers a caller about an order that is in the table,
    the rows or the 403 error, stays the same. *)
Theorem item_rows_never_change session session' order_id order :
  rtc order_step session session' ->
  orders session !! order_id = Some order ->
  order_items session' = order_items session
  ∧ ∀ current_user,
      get_order_items order_id session' current_user
      = get_order_items order_id session current_user.
Proof.
  intros Hsteps Horder.
  destruct (order_steps_keep _ _ Hsteps) as (Hvendors & Hitems & Hkept).
  split; [exact Hitems|]. intros current_user.
  destruct (Hkept _ _ Horder) as (order' & Horder' & (_ & Hc & Hv & _) & _).
  unfold get_order_items, no_access, vendor_of_user.
  by rewrite Horder, Horder', Hvendors, Hitems, Hc, Hv.
Qed.

(** X5.  Along every sequence of [create_order], [update_order_status],
    [update_payment_status] and [cancel_order] requests, an order that is in
    the table stays in it under its key, keeps its customer, its vendor and
    its five amounts, and never moves back in its life. *)
Theorem orders_are_kept session session' order_id order :
  rtc order_step session session' ->
  orders session !! order_id = Some order ->
  ∃ order', orders session' !! order_id = Some order'
            ∧ id order' = id order
            ∧ customer_id order' = customer_id order
            ∧ order_vendor_id order' = order_vendor_id order
            ∧ amounts order' = amounts order
            ∧ (status_rank (status order) <= status_rank (status order'))%nat.
Proof.
  intros Hsteps Horder.
  destruct (order_steps_keep _ _ Hsteps) as (_ & _ & Hkept).
  destruct (Hkept _ _ Horder) as (order' & Horder' & (? & ? & ? & ?) & Hrank).
  exists order'. split_and!; done.
Qed.

(** X6.  [cancel_order] cancels more than the transition table allows: for
    the vendor of an order in status DRAFT, SHIPPED, OUT_FOR_DELIVERY or
    REFUNDED, [update_order_status] to CANCELLED raises the 400 error and
    changes nothing, while [cancel_order] without a reason, or with the empty
    one, returns and stores the order as CANCELLED. *)
Theorem cancel_order_is_wider_than_table session order_id current_user vendor order
    reason now now_updated now_stamp :
  orders session !! order_id = Some order ->
  vendor_of_order session current_user order = Some vendor ->
  no_access order current_user (vendor_of_user session current_user) = false ->
  status order ∈ [OrderStatus.DRAFT; OrderStatus.SHIPPED; OrderStatus.OUT_FOR_DELIVERY;
                  OrderStatus.REFUNDED] ->
  truthy_str reason = false ->
  update_order_status order_id OrderStatus.CANCELLED session current_user now_updated
    now_stamp
  = (session,
     Raise (HTTPException 400
              [Lit "Cannot transition from "; FmtStatus (status order);
               Lit " to "; FmtStatus OrderStatus.CANCELLED]))
  ∧ ∃ order',
      (cancel_order order_id reason session current_user now).2 = Return order'
      ∧ orders (cancel_order order_id reason session current_user now).1 !! order_id
        = Some order'
      ∧ status order' = OrderStatus.CANCELLED.
Proof.
  intros Horder Hvendor Haccess Hstatus Hreason.
  assert (Hrejected : spec_allowed (status order) OrderStatus.CANCELLED = false
                      ∧ status order ∉ [OrderStatus.DELIVERED; OrderStatus.CANCELLED;
                                         OrderStatus.RETURNED]).
  { repeat (apply elem_of_cons in Hstatus as [->|Hstatus];
            [split; [reflexivity|];
             intros Hin; repeat (apply elem_of_cons in Hin as [[=]|Hin]);
             inversion Hin|]).
    inversion Hstatus. }
  destruct Hrejected as [Htable Hfree]. split.
  - unfold update_order_status.
    rewrite Horder, Hvendor, OrderProperties.valid_transitions_table, Htable.
    reflexivity.
  - unfold cancel_order. rewrite Horder, Haccess.
    rewrite bool_decide_eq_false_2 by exact Hfree. rewrite Hreason.
    eexists. split; [reflexivity|]. split; [apply lookup_insert_eq|reflexivity].
Qed.

(** X7.  [update_payment_status] checks no order among payment states: for
    the customer or the vendor of an order and a request without a
    transaction id, or with the empty one, it returns for every requested
    payment status, whatever the current one, and stores the order with that
    payment status, the same order status and the same amounts.  With a
    transaction id that is not empty the request raises [ValueError] and
    stores nothing, the payment status included. *)
Theorem update_payment_status_accepts_any session order_id new_status transaction_id
    current_user order :
  orders session !! order_id = Some order ->
  no_access order current_user (vendor_of_user session current_user) = false ->
  let r := update_payment_status order_id new_status transaction_id session
             current_user in
  (truthy_str transaction_id = false ->
   ∃ order', r.2 = Return order' ∧ orders r.1 !! order_id = Some order'
             ∧ payment_status order' = new_status
             ∧ status order' = status order
             ∧ amounts order' = amounts order)
  ∧ (truthy_str transaction_id = true ->
     r = (session, Raise (ValueError "payment_transaction_id"))).
Proof.
  intros Horder Haccess r. subst r. unfold update_payment_status.
  rewrite Horder, Haccess.
  destruct (truthy_str transaction_id); (split; [|done]); [discriminate|].
  intros _. eexists. split_and!; [reflexivity|apply lookup_insert_eq|reflexivity..].
Qed.

(** X8.  A request to [update_order_status], [update_payment_status] or
    [cancel_order] that raises, be it for a missing order, a refused caller
    or a refused status, leaves the database as it was. *)
Theorem rejected_order_requests_change_nothing session order_id current_user :
  (∀ new_status now_updated now_stamp,
     let r := update_order_status order_id new_status session current_user
                now_updated now_stamp in
     returned r.2 = false -> r.1 = session)
  ∧ (∀ new_status transaction_id,
       let r := update_payment_status order_id new_status transaction_id session
                  current_user in
       returned r.2 = false -> r.1 = session)
  ∧ (∀ reason now,
       let r := cancel_order order_id reason session current_user now in
       returned r.2 = false -> r.1 = session).
Proof.
  split_and!; intros.
  - by apply update_order_status_raises.
  - by apply update_payment_status_raises.
  - by apply cancel_order_raises.
Qed.

End Steps.

(** ** The theorems at work on the scenarios *)

Lemma create_order_rejected_item_leaves_order_witness :
  (∃ detail,
     (create_order_exact (Scenarios.numbered_request Scenarios.unknown_first)
        Scenarios.shop_session Scenarios.customer 1 1000).2
     = Raise (HTTPException 400 detail))
  ∧ (create_order_exact (Scenarios.numbered_request Scenarios.unknown_second)
       Scenarios.shop_session Scenarios.customer 1 1000).2 = Raise IntegrityError
  ∧ orders (create_order_exact (Scenarios.numbered_request Scenarios.unknown_second)
              Scenarios.shop_session Scenarios.customer 1 1000).1 !! 1
    = Some (new_order (Scenarios.numbered_request Scenarios.unknown_second)
              Scenarios.customer 1 1000).
Proof.
  split.
  - edestruct (create_order_rejected_item_leaves_order
                 (fun n => n * 100) (fun x => x) Z.add Z.mul
                 (Scenarios.numbered_request Scenarios.unknown_first)
                 Scenarios.shop_session Scenarios.customer 1 1000 Scenarios.shop)
      as (Hrejected & _).
    + vm_compute. reflexivity.
    + vm_compute. reflexivity.
    + vm_compute. reflexivity.
    + reflexivity.
    + apply Hrejected. vm_compute. reflexivity.
  - edestruct (create_order_rejected_item_leaves_order
                 (fun n => n * 100) (fun x => x) Z.add Z.mul
                 (Scenarios.numbered_request Scenarios.unknown_second)
                 Scenarios.shop_session Scenarios.customer 1 1000 Scenarios.shop)
      as (_ & Hflushed & Horder & _).
    + vm_compute. reflexivity.
    + vm_compute. reflexivity.
    + vm_compute. reflexivity.
    + reflexivity.
    + split; [|exact Horder]. apply Hflushed. vm_compute. reflexivity.
Defined.

Lemma item_rows_never_change_witness :
  get_order_items 1
    (cancel_order 1 None Scenarios.session_with_order Scenarios.customer 2000).1
    Scenarios.customer
  = Return [].
Proof.
  destruct (item_rows_never_change (fun n => n * 100) (fun x => x) Z.add Z.mul
              Scenarios.session_with_order
              (cancel_order 1 None Scenarios.session_with_order Scenarios.customer
                 2000).1 1 Scenarios.placed_order) as [_ Hsame].
  - apply rtc_once, step_cancel_order.
  - vm_compute. reflexivity.
  - rewrite Hsame. vm_compute. reflexivity.
Defined.

Lemma status_changes_move_forward_witness :
  ∃ order',
    (update_order_status 1 OrderStatus.CANCELLED Scenarios.session_with_order
       Scenarios.shop_owner 2000 2001).2 = Return order'
    ∧ (status_rank (status Scenarios.placed_order) < status_rank (status order'))%nat.
Proof.
  destruct (status_changes_move_forward Scenarios.session_with_order 1
              Scenarios.placed_order) as [Hupdate _].
  - vm_compute. reflexivity.
  - eexists. split; [vm_compute; reflexivity|].
    eapply (Hupdate OrderStatus.CANCELLED Scenarios.shop_owner 2000 2001).
    vm_compute. reflexivity.
Defined.

Lemma orders_are_kept_witness :
  ∃ order',
    orders (cancel_order 1 None
              (update_payment_status 1 PaymentStatus.PAID None
                 Scenarios.session_with_order Scenarios.customer).1
              Scenarios.customer 3000).1 !! 1 = Some order'
    ∧ amounts order' = amounts Scenarios.placed_order.
Proof.
  destruct (orders_are_kept (fun n => n * 100) (fun x => x) Z.add Z.mul
              Scenarios.session_with_order
              (cancel_order 1 None
                 (update_payment_status 1 PaymentStatus.PAID None
                    Scenarios.session_with_order Scenarios.customer).1
                 Scenarios.customer 3000).1 1 Scenarios.placed_order)
    as (order' & Horder & _ & _ & _ & Hamounts & _).
  - eapply rtc_l; [apply step_update_payment_status|].
    apply rtc_once, step_cancel_order.
  - vm_compute. reflexivity.
  - exists order'. split; [exact Horder|exact Hamounts].
Defined.

Lemma cancel_order_is_wider_than_table_witness :
  (∃ detail,
     (update_order_status 1 OrderStatus.CANCELLED Scenarios.session_shipped
        Scenarios.shop_owner 5000 5001).2 = Raise (HTTPException 400 detail))
  ∧ ∃ order',
      (cancel_order 1 None Scenarios.session_shipped Scenarios.shop_owner 5000).2
      = Return order'
      ∧ status order' = OrderStatus.CANCELLED.
Proof.
  edestruct (@cancel_order_is_wider_than_table Z)
    with (session := Scenarios.session_shipped) (order_id := 1)
         (current_user := Scenarios.shop_owner) (vendor := Scenarios.shop)
         (reason := @None string) (now := 5000) (now_updated := 5000)
         (now_stamp := 5001)
    as (Hupdate & order' & Hcancel & _ & Hstatus).
  - vm_compute. reflexivity.
  - vm_compute. reflexivity.
  - vm_compute. reflexivity.
  - vm_compute. set_solver.
  - reflexivity.
  - split.
    + eexists. rewrite Hupdate. reflexivity.
    + exists order'. split; [exact Hcancel|exact Hstatus].
Defined.

Lemma update_payment_status_accepts_any_witness :
  (∃ order',
     (update_payment_status 1 PaymentStatus.PAID None Scenarios.session_with_order
        Scenarios.customer).2 = Return order'
     ∧ payment_status order' = PaymentStatus.PAID
     ∧ status order' = OrderStatus.PENDING)
  ∧ update_payment_status 1 PaymentStatus.PAID (Some "TXN-1")
      Scenarios.session_with_order Scenarios.customer
    = (Scenarios.session_with_order, Raise (ValueError "payment_transaction_id")).
Proof.
  split.
  - destruct (update_payment_status_accepts_any Scenarios.session_with_order 1
                PaymentStatus.PAID None Scenarios.customer Scenarios.placed_order)
      as [Hreturns _].
    + vm_compute. reflexivity.
    + vm_compute. reflexivity.
    + destruct (Hreturns eq_refl) as (order' & Hreturn & _ & Hpayment & Hstatus & _).
      exists order'. split_and!; [exact Hreturn|exact Hpayment|exact Hstatus].
  - destruct (update_payment_status_accepts_any Scenarios.session_with_order 1
                PaymentStatus.PAID (Some "TXN-1") Scenarios.customer
                Scenarios.placed_order) as [_ Hraises].
    + vm_compute. reflexivity.
    + vm_compute. reflexivity.
    + exact (Hraises eq_refl).
Defined.

End OrderLifecycle.
(** * Further properties of the subscription and billing handlers *)

Module SubscriptionLifecycle.
Import Billing.

(** ** Subscribing *)

Lemma add_days_Some dt days :
  -999999999 <= days <= 999999999 ->
  0 <= dt + days * us_per_day <= datetime_max ->
  add_days dt days = Some (dt + days * us_per_day).
Proof.
  intros Hdays Hrange. rewrite BillingProperties.add_days_literal by exact Hdays.
  unfold datetime_add, timedelta_days.
  rewrite bool_decide_eq_true_2 by exact Hrange. reflexivity.
Qed.

Lemma cycle_days_small cycle : -999999999 <= cycle_days cycle <= 999999999.
Proof. destruct cycle; simpl; lia. Qed.

Section Subscribe.
Variables (plan_id : Z) (billing_cycle : option BillingCycle.t) (start_trial : bool).
Variables (vendor : Vendor) (db : DB) (now : Z) (plan : SubscriptionPlan.t).
Hypothesis plan_found :
  List.find (fun p => bool_decide (SubscriptionPlan.id p = plan_id)
                      && SubscriptionPlan.is_active p) (plans db) = Some plan.
Hypothesis no_active : active_subscription db vendor = None.

Let r := create_subscription plan_id billing_cycle start_trial vendor db now.

(** X9.  For a plan that exists and is active and a vendor without a
    subscription in status ACTIVE or TRIAL.  If the key of the vendor is an
    integer, [create_subscription] appends one subscription of that vendor,
    charged at the plan's base price whatever the billing cycle: with
    [start_trial] and a plan whose [trial_days] is set and not zero it is in
    status TRIAL and its period, its trial and its next billing date end
    [trial_days] days from now; otherwise it is ACTIVE without trial and its
    period ends 30, 90, 365 or 36500 days from now, by the requested cycle
    or, if none is requested, the plan's.  If the key of the vendor is a
    UUID, the request stores nothing and does not return: the insert raises
    [ProgrammingError], unless the dates have raised [OverflowError]
    before. *)
Theorem create_subscription_period :
  (∀ vendor_column, vendor_id vendor = Int_key vendor_column ->
   (start_trial = true ->
    ∀ n, SubscriptionPlan.trial_days plan = Some n -> n ≠ 0 ->
         -999999999 <= n <= 999999999 ->
         0 <= now + n * us_per_day <= datetime_max ->
         ∃ s, r = (with_subscriptions (subscriptions db ++ [s]) db, Return s)
              ∧ Subscription.vendor_id s = vendor_column
              ∧ Subscription.status s = SubscriptionStatus.TRIAL
              ∧ Subscription.trial_end_date s = Some (now + n * us_per_day)
              ∧ Subscription.current_period_start s = now
              ∧ Subscription.current_period_end s = now + n * us_per_day
              ∧ Subscription.next_billing_date s = Some (now + n * us_per_day)
              ∧ Subscription.end_date s = None
              ∧ Subscription.amount s = SubscriptionPlan.base_price plan)
   ∧ (start_trial && truthy_int (SubscriptionPlan.trial_days plan) = false ->
      let cycle := default (SubscriptionPlan.billing_cycle plan) billing_cycle in
      0 <= now + cycle_days cycle * us_per_day <= datetime_max ->
      ∃ s, r = (with_subscriptions (subscriptions db ++ [s]) db, Return s)
           ∧ Subscription.vendor_id s = vendor_column
           ∧ Subscription.status s = SubscriptionStatus.ACTIVE
           ∧ Subscription.trial_end_date s = None
           ∧ Subscription.current_period_start s = now
           ∧ Subscription.current_period_end s = now + cycle_days cycle * us_per_day
           ∧ Subscription.next_billing_date s
             = Some (now + cycle_days cycle * us_per_day)
           ∧ Subscription.end_date s = None
           ∧ Subscription.amount s = SubscriptionPlan.base_price plan))
  ∧ (∀ u, vendor_id vendor = Uuid_key u ->
     r = (db, Raise ProgrammingError) ∨ r = (db, Raise OverflowError)).
Proof.
  subst r. unfold create_subscription. rewrite plan_found, no_active. split.
  - intros vendor_column ->. split.
    + intros -> n Htrial Hnonzero Hsmall Hrange. rewrite Htrial. simpl.
      rewrite bool_decide_eq_false_2 by exact Hnonzero. simpl.
      rewrite add_days_Some by assumption. simpl.
      eexists. split; [reflexivity|]. split_and!; reflexivity.
    + intros -> Hrange.
      rewrite add_days_Some by (apply cycle_days_small || exact Hrange). simpl.
      eexists. split; [reflexivity|]. split_and!; reflexivity.
  - intros u ->.
    match goal with |- context [match ?period with Some _ => _ | None => _ end] =>
      destruct period as [[[status trial_end_date] current_period_end]|] end;
      simpl; auto.
Qed.

(** X10.  A trial does not end by itself: the subscription that
    [create_subscription] returns in status TRIAL is a trial, by [is_trial],
    exactly before its trial end date, but [is_active] holds of it at every
    time, also after that date, and [days_remaining] is never set. *)
Theorem trial_stays_active s :
  r.2 = Return s ->
  Subscription.status s = SubscriptionStatus.TRIAL ->
  ∃ trial_end,
    Subscription.trial_end_date s = Some trial_end
    ∧ ∀ t, (Subscription.is_trial s t = true <-> t < trial_end)
           ∧ Subscription.is_active s t = true
           ∧ Subscription.days_remaining s t = None.
Proof.
  subst r. unfold create_subscription. rewrite plan_found, no_active.
  destruct (start_trial && truthy_int (SubscriptionPlan.trial_days plan)).
  - destruct (add_days now _) as [trial_end|]; simpl; [|discriminate].
    destruct (column_value (vendor_id vendor)) as [vendor_column|]; [|discriminate].
    intros [= <-] _. exists trial_end. split; [reflexivity|]. intros t.
    unfold Subscription.is_trial, Subscription.is_active,
      Subscription.days_remaining. simpl.
    split_and!; [|reflexivity..].
    case_bool_decide; split; (done || lia).
  - destruct (add_days now _) as [period_end|]; simpl; [|discriminate].
    destruct (column_value (vendor_id vendor)) as [vendor_column|]; [|discriminate].
    intros [= <-]. discriminate.
Qed.

End Subscribe.

(** X11.  [days_remaining] is unset exactly for a subscription without end
    date; otherwise it is the number of whole days from now to the end date,
    and 0, never a negative number, once less than a day is left or the end
    date has passed. *)
Theorem days_remaining_bounds (s : Subscription.t) (now : Z) :
  (Subscription.days_remaining s now = None <-> Subscription.end_date s = None)
  ∧ ∀ e d, Subscription.end_date s = Some e ->
           Subscription.days_remaining s now = Some d ->
           0 <= d
           ∧ (e < now + us_per_day -> d = 0)
           ∧ (now <= e -> d * us_per_day <= e - now < (d + 1) * us_per_day).
Proof.
  unfold Subscription.days_remaining. split.
  - destruct (Subscription.end_date s); split; (done || discriminate).
  - intros e d -> [= <-].
    assert (Hday : 0 < us_per_day) by (unfold us_per_day; lia).
    pose proof (Z.div_mod (e - now) us_per_day ltac:(lia)) as Hdiv.
    pose proof (Z.mod_pos_bound (e - now) us_per_day Hday) as Hmod.
    split_and!; [lia| |].
    + intros Hsoon. assert ((e - now) `div` us_per_day <= 0); [|lia].
      apply Z.lt_succ_r. apply Z.div_lt_upper_bound; lia.
    + intros Hleft. assert (0 <= (e - now) `div` us_per_day)
        by (apply Z.div_pos; lia).
      rewrite Z.max_r by lia. lia.
Qed.

(** ** Cancelling and reactivating *)

(** Among rows of which at most one has a property, two rows that have it
    are the same row. *)
Lemma filter_one {A} (P : A -> Prop) `{!∀ x, Decision (P x)} (l : list A) j1 j2 x1 x2 :
  (length (filter P l) <= 1)%nat ->
  l !! j1 = Some x1 -> P x1 -> l !! j2 = Some x2 -> P x2 -> j1 = j2.
Proof.
  revert j1 j2. induction l as [|y l IH]; intros j1 j2 Hone H1 P1 H2 P2; [done|].
  destruct (decide (P y)) as [Py|Py].
  - rewrite filter_cons_True in Hone by exact Py. simpl in Hone.
    assert (Hnil : filter P l = []) by (apply length_zero_iff_nil; lia).
    destruct j1 as [|j1], j2 as [|j2]; [reflexivity| | |]; exfalso.
    + eapply (filter_nil_not_elem_of P l x2 Hnil P2), list_elem_of_lookup_2, H2.
    + eapply (filter_nil_not_elem_of P l x1 Hnil P1), list_elem_of_lookup_2, H1.
    + eapply (filter_nil_not_elem_of P l x1 Hnil P1), list_elem_of_lookup_2, H1.
  - rewrite filter_cons_False in Hone by exact Py.
    destruct j1 as [|j1], j2 as [|j2]; simplify_eq/=; [done..|].
    f_equal. by eapply IH.
Qed.

Section CancelReactivate.
Variables (vendor : Vendor) (db : DB) (i : nat) (s : Subscription.t).
Variables (reason : option string) (immediate : bool) (now_cancelled now_end : Z).
Hypothesis subscribed : active_subscription db vendor = Some (i, s).

Let cancelled := (cancel_subscription reason immediate vendor db now_cancelled now_end).1.
Let ends := if immediate then now_end else Subscription.current_period_end s.

(** The row that the cancellation writes. *)
Let cancelled_row :=
  Subscription.set_end_date (Some ends)
    (Subscription.set_status SubscriptionStatus.CANCELLED
       (Subscription.set_auto_renew false
          (Subscription.set_cancellation_reason reason
             (Subscription.set_cancelled_at (Some now_cancelled) s)))).

Lemma cancelled_table :
  cancelled = with_subscriptions (<[i := cancelled_row]> (subscriptions db)) db.
Proof.
  subst cancelled cancelled_row ends. unfold cancel_subscription.
  rewrite subscribed. destruct immediate; reflexivity.
Qed.

Lemma found_after_cancel :
  cancelled_subscription db vendor = None ->
  cancelled_subscription cancelled vendor = Some (i, cancelled_row).
Proof.
  intros Hnone. rewrite cancelled_table. unfold cancelled_subscription in *. simpl.
  pose proof (BillingProperties.list_find_lt _ _ _ _ subscribed) as Hlt.
  apply list_find_Some in subscribed as (Hi & [Hvendor _] & _).
  apply list_find_None in Hnone. rewrite Forall_lookup in Hnone.
  apply list_find_insert_Some. right; left.
  split_and!; [done|done|done|exact Hvendor|reflexivity|].
  intros j z Hj _. exact (Hnone j z Hj).
Qed.

(** X12.  Cancel, then reactivate.  For a vendor without an older cancelled
    subscription, the subscription that [cancel_subscription] has just
    cancelled can be reactivated exactly until its end date, which is the
    time of an immediate cancellation and the end of the current period
    otherwise; later the 400 error is raised and nothing changes.  The
    reactivated subscription is the one from before the cancellation, except
    that it is ACTIVE even if it was a TRIAL; for a subscription that was
    ACTIVE, renewing and without end date or cancellation data, the database
    is again what it was before the cancellation. *)
Theorem cancel_then_reactivate t :
  cancelled_subscription db vendor = None ->
  let r := reactivate_subscription vendor cancelled t in
  (returned r.2 = true <-> t <= ends)
  ∧ (ends < t ->
     r = (cancelled,
          Raise (HTTPException 400
                   "Subscription has expired and cannot be reactivated")))
  ∧ (t <= ends ->
     ∃ s', r = (with_subscriptions (<[i := s']> (subscriptions db)) db, Return s')
           ∧ s' = Subscription.set_end_date None
                    (Subscription.set_auto_renew true
                       (Subscription.set_cancellation_reason None
                          (Subscription.set_cancelled_at None
                             (Subscription.set_status SubscriptionStatus.ACTIVE s))))
           ∧ (Subscription.status s = SubscriptionStatus.ACTIVE ->
              Subscription.auto_renew s = true ->
              Subscription.end_date s = None ->
              Subscription.cancelled_at s = None ->
              Subscription.cancellation_reason s = None ->
              r.1 = db)).
Proof.
  intros Hnone r. subst r. unfold reactivate_subscription.
  rewrite (found_after_cancel Hnone).
  unfold expired. simpl. case_bool_decide as Hlate; simpl.
  - split_and!; [split; [discriminate|lia]|reflexivity|lia].
  - split_and!; [split; [lia|reflexivity]|lia|]. intros _.
    eexists. split; [|split; [reflexivity|]].
    + rewrite cancelled_table. simpl. rewrite list_insert_insert_eq.
      destruct s; reflexivity.
    + intros Hstatus Hrenew Hend Hat Hreason.
      rewrite cancelled_table. simpl. rewrite list_insert_insert_eq.
      apply list_find_Some in subscribed as (Hi & _).
      destruct db as [plans0 subs pays usages]. simpl in *. unfold with_subscriptions.
      simpl. f_equal. apply list_insert_id. rewrite Hi. f_equal.
      destruct s; simpl in *; subst; reflexivity.
Qed.

(** X13.  For a vendor with at most one subscription in status ACTIVE or
    TRIAL, a cancellation, at period end as well as immediate, leaves the
    vendor without one: from then on [track_feature_usage] and a second
    [cancel_subscription] raise the 404 error and change nothing. *)
Theorem cancelled_vendor_has_no_subscription :
  (active_count db vendor <= 1)%nat ->
  active_subscription cancelled vendor = None
  ∧ (∀ feature_name usage_increment usage_metadata now_created now,
       track_feature_usage feature_name usage_increment usage_metadata vendor
         cancelled now_created now
       = (cancelled, Raise (HTTPException 404 "No active subscription found")))
  ∧ (∀ reason' immediate' now1 now2,
       cancel_subscription reason' immediate' vendor cancelled now1 now2
       = (cancelled, Raise (HTTPException 404 "No active subscription found"))).
Proof.
  intros Hone.
  assert (Hnone : active_subscription cancelled vendor = None).
  { rewrite cancelled_table. unfold active_subscription, active_count in *. simpl.
    apply list_find_None, Forall_lookup. intros j z Hj [Hvendor Hstatus].
    apply list_find_Some in subscribed as (Hi & Hs & _).
    apply list_lookup_insert_Some in Hj as [(-> & <- & _)|(Hother & Hj)].
    - subst cancelled_row. simpl in Hstatus.
      repeat (apply elem_of_cons in Hstatus as [[=]|Hstatus]). inversion Hstatus.
    - apply Hother. eapply (filter_one _ _ _ _ _ _ Hone Hi Hs Hj). by split. }
  split_and!; [exact Hnone| |].
  - intros. unfold track_feature_usage. rewrite Hnone. reflexivity.
  - intros. unfold cancel_subscription. rewrite Hnone. reflexivity.
Qed.

End CancelReactivate.

(** ** Payments *)

(** A new primary key is above every key of the table. *)
Lemma next_id_above ids : Forall (fun x => x < next_id ids) ids.
Proof.
  unfold next_id. induction ids as [|x ids IH]; constructor; simpl.
  - lia.
  - eapply Forall_impl; [exact IH|]. simpl. intros y Hy. lia.
Qed.

Lemma find_appended {A} (f : A -> bool) (l : list A) x :
  Forall (fun y => f y = false) l -> f x = true -> List.find f (l ++ [x]) = Some x.
Proof.
  induction 1 as [|y l Hy _ IH]; intros Hx; simpl.
  - by rewrite Hx.
  - rewrite Hy. by apply IH.
Qed.

(** X14.  For a subscription of the vendor that [create_payment] finds,
    whatever its status, the request adds exactly one payment to the table
    and then ends in [AttributeError]: the payment stays PENDING, without
    payment date and transaction id, for the amount and the currency of the
    subscription, with the billing period and the due date of the
    subscription, which are left as they were.  The vendor reads this
    payment back with [get_payment_details]. *)
Theorem create_payment_leaves_pending_payment subscription_id payment_method vendor db
    now_paid now_txn i s :
  find_subscription db subscription_id vendor = Some (i, s) ->
  let r := create_payment subscription_id payment_method vendor db now_paid now_txn in
  ∃ payment,
    r = (with_payments (payments db ++ [payment]) db, Raise AttributeError)
    ∧ Payment.status payment = PaymentStatus.PENDING
    ∧ Payment.payment_date payment = None
    ∧ Payment.transaction_id payment = None
    ∧ Payment.subscription_id payment = Subscription.id s
    ∧ Payment.amount payment = Subscription.amount s
    ∧ Payment.currency payment = Subscription.currency s
    ∧ Payment.billing_period_start payment = Subscription.current_period_start s
    ∧ Payment.billing_period_end payment = Subscription.current_period_end s
    ∧ Payment.due_date payment = Subscription.next_billing_date s
    ∧ Payment.retry_count payment = 0
    ∧ get_payment_details (Payment.id payment) vendor r.1 = Return payment.
Proof.
  intros Hfound r. subst r.
  rewrite (BillingProperties.create_payment_found _ _ _ _ _ _ _ _ Hfound).
  eexists. split; [reflexivity|]. split_and!; [reflexivity..|].
  unfold get_payment_details. simpl. rewrite find_appended; [reflexivity| |].
  - pose proof (next_id_above (Payment.id <$> payments db)) as Habove.
    rewrite Forall_fmap in Habove. eapply Forall_impl; [exact Habove|].
    simpl. intros q Hq. rewrite bool_decide_eq_false_2 by lia. reflexivity.
  - simpl. apply list_find_Some in Hfound as (_ & [_ Hown] & _).
    rewrite !bool_decide_eq_true_2 by done. reflexivity.
Qed.

(** X15.  A retry is not repeatable.  In a table whose keys are distinct, an
    accepted retry of a failed payment returns the payment as PENDING when it
    was the first retry and as COMPLETED otherwise, so no longer as FAILED,
    and a further retry of it raises the 404 error and changes nothing. *)
Theorem retry_is_not_repeatable payment_id vendor db now_paid now_txn j payment :
  find_failed_payment db payment_id vendor = Some (j, payment) ->
  Payment.retry_count payment < 3 ->
  NoDup (Payment.id <$> payments db) ->
  let r := retry_failed_payment payment_id vendor db now_paid now_txn in
  ∃ payment',
    r.2 = Return payment'
    ∧ Payment.status payment'
      = (if bool_decide (Payment.retry_count payment >= 1)
         then PaymentStatus.COMPLETED else PaymentStatus.PENDING)
    ∧ ∀ later_paid later_txn,
        retry_failed_payment payment_id vendor r.1 later_paid later_txn
        = (r.1, Raise (HTTPException 404 "Failed payment not found")).
Proof.
  intros Hfound Hcount Hkeys r.
  assert (Hr : ∃ payment',
             r = (with_payments (<[j := payment']> (payments db)) db, Return payment')
             ∧ Payment.status payment'
               = (if bool_decide (Payment.retry_count payment >= 1)
                  then PaymentStatus.COMPLETED else PaymentStatus.PENDING)).
  { subst r. unfold retry_failed_payment. rewrite Hfound.
    rewrite bool_decide_eq_false_2 by lia. eexists. split; [reflexivity|]. simpl.
    destruct (decide (Payment.retry_count payment >= 1)).
    - rewrite !bool_decide_eq_true_2 by lia. reflexivity.
    - rewrite !bool_decide_eq_false_2 by lia. reflexivity. }
  destruct Hr as (payment' & -> & Hstatus).
  exists payment'. split_and!; [reflexivity|exact Hstatus|].
  intros later_paid later_txn. unfold retry_failed_payment, find_failed_payment.
  simpl.
  assert (Hnone : list_find (fun p => Payment.id p = payment_id
                                      ∧ Int_key (Payment.vendor_id p) = vendor_id vendor
                                      ∧ Payment.status p = PaymentStatus.FAILED)
                    (<[j := payment']> (payments db)) = None).
  { apply list_find_None, Forall_lookup. intros k z Hk (Hid & _ & Hfailed).
    apply list_find_Some in Hfound as (Hj & (Hid' & _) & _).
    apply list_lookup_insert_Some in Hk as [(-> & <- & _)|(Hother & Hk)].
    - rewrite Hstatus in Hfailed. case_bool_decide; discriminate.
    - apply Hother.
      eapply (NoDup_lookup _ j k payment_id Hkeys);
        rewrite list_lookup_fmap; [rewrite Hj|rewrite Hk]; simpl; congruence. }
  rewrite Hnone. reflexivity.
Qed.

(** ** Usage *)

Lemma track_on_record_quota db slot usage_record usage_increment usage_metadata now :
  quota_respected db ->
  quota_respected
    (track_on_record db slot usage_record usage_increment usage_metadata now).1.
Proof.
  intros Hquota. unfold track_on_record.
  destruct (truthy_int (UsageRecord.usage_limit usage_record) && _) eqn:Hcheck;
    [exact Hquota|].
  set (written := update_metadata usage_metadata _).
  assert (Hwritten : ∀ l, UsageRecord.usage_limit written = Some l -> l ≠ 0 ->
                          UsageRecord.usage_count written <= l).
  { subst written. intros l.
    destruct (BillingProperties.update_metadata_fields usage_metadata
                (UsageRecord.set_updated_at now
                   (UsageRecord.set_usage_count
                      (UsageRecord.usage_count usage_record + usage_increment)
                      usage_record))) as [-> ->].
    simpl. intros Hlimit Hnonzero. rewrite Hlimit in Hcheck. simpl in Hcheck.
    rewrite (bool_decide_eq_false_2 (l = 0)) in Hcheck by exact Hnonzero.
    simpl in Hcheck. apply bool_decide_eq_false_1 in Hcheck. lia. }
  destruct (usage_bindable slot written); simpl; [|exact Hquota].
  assert (Hdb : quota_respected
                  match slot with
                  | Some k => with_usage_records (<[k := written]> (usage_records db)) db
                  | None => with_usage_records (usage_records db ++ [written]) db
                  end).
  { unfold quota_respected in *. destruct slot as [k|]; simpl.
    - apply Forall_insert; assumption.
    - apply Forall_app. split; [assumption|]. by apply Forall_singleton. }
  destruct (UsageRecord.usage_percentage written); exact Hdb.
Qed.

(** X16.  The quota holds: if no usage record with a limit other than zero
    is above its limit, then no request to [track_feature_usage], whatever
    the feature, the increment and the caller, leads to a database in which
    one is. *)
Theorem quota_is_kept feature_name usage_increment usage_metadata vendor db
    now_created now :
  quota_respected db ->
  quota_respected
    (track_feature_usage feature_name usage_increment usage_metadata vendor db
       now_created now).1.
Proof.
  intros Hquota. unfold track_feature_usage.
  destruct (active_subscription db vendor) as [[i subscription]|]; [|exact Hquota].
  destruct (current_usage_record db vendor subscription feature_name)
    as [[k usage_record]|].
  - by apply track_on_record_quota.
  - destruct (List.find _ (plans db)) as [plan|]; [|exact Hquota].
    destruct (column_value (vendor_id vendor)) as [vendor_column|]; [|exact Hquota].
    by apply track_on_record_quota.
Qed.

Section FirstUse.
Variables (feature_name : string) (usage_increment : Z).
Variable usage_metadata : option (gmap string string).
Variables (vendor : Vendor) (db : DB) (now_created now : Z).
Variables (i : nat) (subscription : Subscription.t) (plan : SubscriptionPlan.t).
Hypothesis subscribed : active_subscription db vendor = Some (i, subscription).
Hypothesis plan_found :
  List.find (fun p => bool_decide (SubscriptionPlan.id p
                                    = Subscription.plan_id subscription))
            (plans db) = Some plan.
Hypothesis unused :
  current_usage_record db vendor subscription feature_name = None.

Let r := track_feature_usage feature_name usage_increment usage_metadata vendor db
           now_created now.

(** The subscription that was found carries the key of the vendor. *)
Lemma subscribed_column :
  column_value (vendor_id vendor) = Some (Subscription.vendor_id subscription).
Proof.
  unfold active_subscription in subscribed.
  apply list_find_Some in subscribed as (_ & [Hown _] & _).
  rewrite <- Hown. reflexivity.
Qed.

(** X17.  The first use of a feature in a period.  The limit comes from the
    plan's entry for the feature, and a feature the plan does not list has
    none.  An increment above a limit that is not zero is rejected and no
    record is made.  Any other increment, under a limit that is not zero or
    without limit, appends one record for the subscription's current period,
    with that limit and the increment as its count, and is confirmed, if
    increment and limit are in the range of an INTEGER column; an increment
    out of that range ends in [OverflowError] and no record is made. *)
Theorem first_use_of_feature :
  (SubscriptionPlan.features plan !! feature_name = None ->
   plan_limit plan feature_name = None)
  ∧ (∀ l, plan_limit plan feature_name = Some l -> l ≠ 0 -> usage_increment > l ->
          r = (db, Return (Usage_limit_exceeded 0 l usage_increment usage_increment)))
  ∧ ((plan_limit plan feature_name = None
      ∨ ∃ l, plan_limit plan feature_name = Some l ∧ l ≠ 0 ∧ usage_increment <= l) ->
     (- 2 ^ 63 <= usage_increment < 2 ^ 63 ->
      (∀ l, plan_limit plan feature_name = Some l -> - 2 ^ 63 <= l < 2 ^ 63) ->
      ∃ u response,
        r = (with_usage_records (usage_records db ++ [u]) db, Return response)
        ∧ success response = true
        ∧ UsageRecord.usage_count u = usage_increment
        ∧ UsageRecord.usage_limit u = plan_limit plan feature_name
        ∧ UsageRecord.feature_name u = feature_name
        ∧ UsageRecord.subscription_id u = Subscription.id subscription
        ∧ Int_key (UsageRecord.vendor_id u) = vendor_id vendor
        ∧ UsageRecord.period_start u = Subscription.current_period_start subscription
        ∧ UsageRecord.period_end u = Subscription.current_period_end subscription)
     ∧ (¬ (- 2 ^ 63 <= usage_increment < 2 ^ 63) -> r = (db, Raise OverflowError))).
Proof.
  assert (Hr : r = track_on_record db None
                     (new_usage_record db (Subscription.vendor_id subscription)
                        subscription plan feature_name usage_metadata now_created)
                     usage_increment usage_metadata now).
  { subst r. unfold track_feature_usage.
    rewrite subscribed, unused, plan_found, subscribed_column. reflexivity. }
  split_and!.
  - intros Hmissing. unfold plan_limit. rewrite Hmissing. reflexivity.
  - intros l Hlimit Hnonzero Hover. rewrite Hr. unfold track_on_record. simpl.
    rewrite Hlimit. simpl.
    rewrite bool_decide_eq_false_2 by exact Hnonzero.
    rewrite bool_decide_eq_true_2 by lia. reflexivity.
  - intros Hfits. rewrite Hr. unfold track_on_record. simpl.
    set (written := update_metadata usage_metadata _).
    destruct (BillingProperties.update_metadata_fields usage_metadata
                (UsageRecord.set_updated_at now
                   (UsageRecord.set_usage_count (0 + usage_increment)
                      (new_usage_record db (Subscription.vendor_id subscription)
                         subscription plan feature_name
                         usage_metadata now_created)))) as [Hcount Hlimit].
    fold written in Hcount, Hlimit. simpl in Hcount, Hlimit.
    assert (Hrest : UsageRecord.feature_name written = feature_name
                    ∧ UsageRecord.subscription_id written
                      = Subscription.id subscription
                    ∧ Int_key (UsageRecord.vendor_id written) = vendor_id vendor
                    ∧ UsageRecord.period_start written
                      = Subscription.current_period_start subscription
                    ∧ UsageRecord.period_end written
                      = Subscription.current_period_end subscription).
    { pose proof subscribed_column as Hcolumn.
      assert (Hkey : Int_key (Subscription.vendor_id subscription) = vendor_id vendor)
        by (destruct (vendor_id vendor); simplify_eq/=; reflexivity).
      subst written. unfold update_metadata.
      destruct usage_metadata as [m|]; [repeat case_bool_decide|];
        split_and!; (reflexivity || exact Hkey). }
    assert (Hcheck : (truthy_int (plan_limit plan feature_name)
                      && bool_decide (0 + usage_increment
                                      > default 0 (plan_limit plan feature_name)))
                     = false).
    { destruct Hfits as [Hnone|(l & Hsome & Hnonzero & Hle)].
      - rewrite Hnone. reflexivity.
      - rewrite Hsome. simpl.
        rewrite (bool_decide_eq_false_2 (0 + usage_increment > l)) by lia.
        apply andb_false_r. }
    rewrite Hcheck. unfold usage_bindable, sqlite_integer. rewrite Hcount, Hlimit.
    split.
    + intros Hrange Hlimits.
      rewrite (bool_decide_eq_true_2 (- 2 ^ 63 <= 0 + usage_increment < 2 ^ 63))
        by lia.
      assert (Hpct : ∃ p, UsageRecord.usage_percentage written = Return p).
      { unfold UsageRecord.usage_percentage. rewrite Hlimit.
        destruct Hfits as [Hnone|(l & Hsome & Hnonzero & Hle)].
        - rewrite Hnone. eauto.
        - rewrite Hsome. rewrite bool_decide_eq_false_2 by exact Hnonzero. eauto. }
      destruct Hpct as [p Hpct].
      destruct (plan_limit plan feature_name) as [l|] eqn:Hplan; simpl.
      * rewrite bool_decide_eq_true_2 by (apply Hlimits; reflexivity). simpl.
        rewrite Hpct. exists written. eexists.
        destruct Hrest as (? & ? & ? & ? & ?).
        split_and!; [reflexivity|reflexivity|lia|congruence|done..].
      * rewrite Hpct. exists written. eexists.
        destruct Hrest as (? & ? & ? & ? & ?).
        split_and!; [reflexivity|reflexivity|lia|congruence|done..].
    + intros Hrange.
      rewrite (bool_decide_eq_false_2 (- 2 ^ 63 <= 0 + usage_increment < 2 ^ 63))
        by lia.
      reflexivity.
Qed.

End FirstUse.

(** ** The theorems at work on the scenarios *)

Lemma create_subscription_period_witness :
  (∃ s, Scenarios.db_subscribed
        = with_subscriptions (subscriptions Scenarios.empty_db ++ [s])
            Scenarios.empty_db
        ∧ Subscription.vendor_id s = 7
        ∧ Subscription.status s = SubscriptionStatus.ACTIVE
        ∧ Subscription.current_period_end s = Scenarios.day 30)
  ∧ create_subscription 1 None false Scenarios.vendor_uuid Scenarios.empty_db
      (Scenarios.day 0)
    = (Scenarios.empty_db, Raise ProgrammingError).
Proof.
  split.
  - destruct (create_subscription_period 1 None false Scenarios.vendor7
                Scenarios.empty_db (Scenarios.day 0) Scenarios.basic_plan)
      as [Hint _].
    + vm_compute. reflexivity.
    + vm_compute. reflexivity.
    + destruct (Hint 7 eq_refl) as [_ Hactive].
      destruct Hactive as (s & Hr & Hvendor & Hstatus & _ & _ & Hend & _).
      * reflexivity.
      * vm_compute. split; discriminate.
      * exists s. split_and!; [|exact Hvendor|exact Hstatus|].
        -- unfold Scenarios.db_subscribed. by rewrite Hr.
        -- rewrite Hend. vm_compute. reflexivity.
  - vm_compute. reflexivity.
Defined.

Lemma trial_stays_active_witness :
  ∃ s, (create_subscription 1 None true Scenarios.vendor7 Scenarios.empty_db
          (Scenarios.day 0)).2 = Return s
       ∧ Subscription.is_active s (Scenarios.day 400) = true
       ∧ Subscription.is_trial s (Scenarios.day 400) = false.
Proof.
  eexists. split; [vm_compute; reflexivity|].
  edestruct (trial_stays_active 1 None true Scenarios.vendor7 Scenarios.empty_db
               (Scenarios.day 0) Scenarios.basic_plan)
    as (trial_end & Hend & Hall).
  - vm_compute. reflexivity.
  - vm_compute. reflexivity.
  - vm_compute. reflexivity.
  - vm_compute. reflexivity.
  - destruct (Hall (Scenarios.day 400)) as (Htrial & Hactive & _).
    split; [exact Hactive|].
    apply not_true_is_false. intros Hyes. apply Htrial in Hyes.
    injection Hend as <-. vm_compute in Hyes. discriminate.
Defined.

Lemma cancel_then_reactivate_witness :
  returned (reactivate_subscription Scenarios.vendor7 Scenarios.db_cancelled
              (Scenarios.day 12)).2 = true
  ∧ (reactivate_subscription Scenarios.vendor7 Scenarios.db_cancelled
       (Scenarios.day 31)).2
    = Raise (HTTPException 400 "Subscription has expired and cannot be reactivated").
Proof.
  split.
  - edestruct cancel_then_reactivate
      with (vendor := Scenarios.vendor7) (db := Scenarios.db_subscribed) (i := 0%nat)
           (reason := Some "too expensive") (immediate := false)
           (now_cancelled := Scenarios.day 10) (now_end := Scenarios.day 10)
           (t := Scenarios.day 12) as (Hiff & _ & _).
    + vm_compute. reflexivity.
    + vm_compute. reflexivity.
    + apply Hiff. vm_compute. discriminate.
  - edestruct cancel_then_reactivate
      with (vendor := Scenarios.vendor7) (db := Scenarios.db_subscribed) (i := 0%nat)
           (reason := Some "too expensive") (immediate := false)
           (now_cancelled := Scenarios.day 10) (now_end := Scenarios.day 10)
           (t := Scenarios.day 31) as (_ & Hlate & _).
    + vm_compute. reflexivity.
    + vm_compute. reflexivity.
    + unfold Scenarios.db_cancelled. rewrite Hlate; [reflexivity|].
      vm_compute. reflexivity.
Defined.

Lemma cancelled_vendor_has_no_subscription_witness :
  active_subscription Scenarios.db_cancelled Scenarios.vendor7 = None
  ∧ track_feature_usage "api_calls" 1 None Scenarios.vendor7 Scenarios.db_cancelled
      (Scenarios.day 11) (Scenarios.day 11)
    = (Scenarios.db_cancelled,
       Raise (HTTPException 404 "No active subscription found")).
Proof.
  edestruct cancelled_vendor_has_no_subscription
    with (vendor := Scenarios.vendor7) (db := Scenarios.db_subscribed) (i := 0%nat)
         (reason := Some "too expensive") (immediate := false)
         (now_cancelled := Scenarios.day 10) (now_end := Scenarios.day 10)
    as (Hnone & Htrack & _).
  - vm_compute. reflexivity.
  - vm_compute. lia.
  - split; [exact Hnone|]. apply Htrack.
Defined.

Lemma create_payment_leaves_pending_payment_witness :
  ∃ payment,
    create_payment 1 PaymentMethod.UPI Scenarios.vendor7 Scenarios.db_subscribed
      (Scenarios.day 31) (Scenarios.day 31)
    = (with_payments [payment] Scenarios.db_subscribed, Raise AttributeError)
    ∧ Payment.status payment = PaymentStatus.PENDING
    ∧ Payment.amount payment = 49900
    ∧ Payment.billing_period_end payment = Scenarios.day 30.
Proof.
  edestruct (create_payment_leaves_pending_payment 1 PaymentMethod.UPI
               Scenarios.vendor7 Scenarios.db_subscribed (Scenarios.day 31)
               (Scenarios.day 31) 0%nat Scenarios.subscription_row)
    as (payment & Hr & Hstatus & _ & _ & _ & Hamount & _ & _ & Hend & _).
  - vm_compute. reflexivity.
  - exists payment. split_and!; [exact Hr|exact Hstatus|exact Hamount|exact Hend].
Defined.

Lemma retry_is_not_repeatable_witness :
  retry_failed_payment 1 Scenarios.vendor7
    (retry_failed_payment 1 Scenarios.vendor7 (Scenarios.db_with_failed_payment 2)
       (Scenarios.day 31) (Scenarios.day 31)).1 (Scenarios.day 32) (Scenarios.day 32)
  = ((retry_failed_payment 1 Scenarios.vendor7 (Scenarios.db_with_failed_payment 2)
        (Scenarios.day 31) (Scenarios.day 31)).1,
     Raise (HTTPException 404 "Failed payment not found")).
Proof.
  destruct (retry_is_not_repeatable 1 Scenarios.vendor7
              (Scenarios.db_with_failed_payment 2) (Scenarios.day 31)
              (Scenarios.day 31) 0%nat (Scenarios.failed_payment 2))
    as (payment' & _ & _ & Hlater).
  - vm_compute. reflexivity.
  - simpl. lia.
  - simpl. apply NoDup_singleton.
  - apply Hlater.
Defined.

Lemma quota_is_kept_witness :
  quota_respected
    (track_feature_usage "api_calls" 5 None Scenarios.vendor7
       (Scenarios.db_with_usage 95 (Some 100)) (Scenarios.day 2) (Scenarios.day 2)).1.
Proof.
  apply quota_is_kept. unfold quota_respected. simpl.
  apply Forall_singleton. simpl. intros l [= <-] _. lia.
Defined.

Lemma first_use_of_feature_witness :
  ∃ u, usage_records
         (track_feature_usage "api_calls" 5 None Scenarios.vendor7
            Scenarios.db_subscribed (Scenarios.day 2)
            (Scenarios.day 2)).1 = [u]
       ∧ UsageRecord.usage_count u = 5
       ∧ UsageRecord.usage_limit u = Some 100.
Proof.
  destruct (first_use_of_feature "api_calls" 5 None Scenarios.vendor7
              Scenarios.db_subscribed (Scenarios.day 2)
              (Scenarios.day 2) 0%nat
              Scenarios.subscription_row Scenarios.basic_plan)
    as (_ & _ & Hfirst).
  - vm_compute. reflexivity.
  - vm_compute. reflexivity.
  - vm_compute. reflexivity.
  - destruct Hfirst as [Hfirst _].
    + right. exists 100. split_and!; [vm_compute; reflexivity|lia|lia].
    + destruct Hfirst as (u & response & Hr & _ & Hcount & Hlimit & _).
      * lia.
      * intros l Hl. vm_compute in Hl. injection Hl as <-. lia.
      * exists u. rewrite Hr. split_and!; [reflexivity|exact Hcount|].
        rewrite Hlimit. vm_compute. reflexivity.
Defined.

End SubscriptionLifecycle.

(** * Properties of the billing address handlers *)

Module BillingAddresses.
Import Billing.

(** At most one row has a property exactly when two rows that have it are
    the same row. *)
Lemma filter_at_most_one {A} (P : A -> Prop) `{!∀ x, Decision (P x)} (l : list A) :
  (∀ j1 j2 x1 x2, l !! j1 = Some x1 -> P x1 -> l !! j2 = Some x2 -> P x2 -> j1 = j2) ->
  (length (filter P l) <= 1)%nat.
Proof.
  induction l as [|y l IH]; intros Hone; [simpl; lia|].
  destruct (decide (P y)) as [Py|Py].
  - rewrite filter_cons_True by exact Py. simpl.
    destruct (filter P l) as [|z rest] eqn:Hfilter; [simpl; lia|exfalso].
    assert (Hz : z ∈ filter P l) by (rewrite Hfilter; left).
    apply list_elem_of_filter in Hz as [Pz Hz].
    apply list_elem_of_lookup_1 in Hz as [j Hj].
    specialize (Hone 0%nat (S j) y z eq_refl Py Hj Pz). discriminate.
  - rewrite filter_cons_False by exact Py. apply IH.
    intros j1 j2 x1 x2 H1 P1 H2 P2.
    specialize (Hone (S j1) (S j2) x1 x2 H1 P1 H2 P2). lia.
Qed.

Lemma unset_defaults_lookup vendor except table j a :
  unset_defaults vendor except table !! j = Some a ->
  ∃ old, table !! j = Some old
         ∧ BillingAddress.id a = BillingAddress.id old
         ∧ BillingAddress.vendor_id a = BillingAddress.vendor_id old
         ∧ (BillingAddress.is_default a = true ->
            a = old ∧ BillingAddress.is_default old = true
            ∧ (Int_key (BillingAddress.vendor_id old) ≠ vendor_id vendor
               ∨ Some (BillingAddress.id old) = except))
         ∧ (Int_key (BillingAddress.vendor_id old) ≠ vendor_id vendor -> a = old).
Proof.
  unfold unset_defaults. rewrite list_lookup_fmap.
  destruct (table !! j) as [old|]; simpl; [|discriminate].
  intros [= <-]. exists old. split; [reflexivity|].
  destruct (bool_decide (Int_key (BillingAddress.vendor_id old) = vendor_id vendor)) eqn:Hv;
    simpl.
  - apply bool_decide_eq_true_1 in Hv.
    destruct (BillingAddress.is_default old) eqn:Hd; simpl.
    + case_bool_decide as He; simpl.
      * rewrite Hd. split_and!; [done..|auto|done].
      * split_and!; [done|done|discriminate|done].
    + rewrite Hd. split_and!; [done|done|discriminate|done].
  - apply bool_decide_eq_false_1 in Hv. split_and!; [done..|auto|done].
Qed.

Lemma unset_defaults_ids vendor except table :
  BillingAddress.id <$> unset_defaults vendor except table
  = BillingAddress.id <$> table.
Proof.
  unfold unset_defaults. rewrite <- list_fmap_compose.
  apply list_fmap_ext. intros j a _. simpl.
  destruct (_ && _); reflexivity.
Qed.

Lemma sound_lookups table :
  addresses_sound table ->
  ∀ v j1 j2 a1 a2,
    table !! j1 = Some a1 -> table !! j2 = Some a2 ->
    Int_key (BillingAddress.vendor_id a1) = v -> BillingAddress.is_default a1 = true ->
    Int_key (BillingAddress.vendor_id a2) = v -> BillingAddress.is_default a2 = true ->
    j1 = j2.
Proof.
  intros [_ Hone] v j1 j2 a1 a2 H1 H2 Hv1 Hd1 Hv2 Hd2.
  eapply SubscriptionLifecycle.filter_one;
    [exact (Hone v)|exact H1|by split|exact H2|by split].
Qed.

Lemma create_billing_address_sound data set_as_default vendor table now :
  addresses_sound table ->
  addresses_sound (create_billing_address data set_as_default vendor table now).1.
Proof.
  intros Hsound. unfold create_billing_address.
  destruct (column_value (vendor_id vendor)) as [vendor_column|] eqn:Hcolumn;
    [|exact Hsound].
  assert (Hkey : vendor_id vendor = Int_key vendor_column)
    by (destruct (vendor_id vendor); simplify_eq/=; reflexivity).
  simpl.
  set (table1 := if set_as_default then unset_defaults vendor None table else table).
  assert (Hids : BillingAddress.id <$> table1 = BillingAddress.id <$> table).
  { subst table1. destruct set_as_default; [apply unset_defaults_ids|reflexivity]. }
  assert (Hrow : ∀ j a, table1 !! j = Some a -> BillingAddress.is_default a = true ->
                        table !! j = Some a
                        ∧ (set_as_default = true ->
                           Int_key (BillingAddress.vendor_id a) ≠ vendor_id vendor)).
  { subst table1. intros j a Hj Hd. destruct set_as_default; [|by split].
    apply unset_defaults_lookup in Hj as (old & Hold & _ & _ & Hkeep & _).
    destruct (Hkeep Hd) as (-> & _ & [Hother|[=]]). by split. }
  split.
  - rewrite fmap_app. apply NoDup_app. rewrite Hids.
    split_and!; [apply Hsound| |apply NoDup_singleton].
    intros x Hx Hnew. apply list_elem_of_singleton in Hnew. simpl in Hnew.
    pose proof (SubscriptionLifecycle.next_id_above (BillingAddress.id <$> table)) as Habove.
    rewrite Forall_forall in Habove. specialize (Habove x Hx). lia.
  - intros v. apply filter_at_most_one.
    intros j1 j2 a1 a2 H1 [Hv1 Hd1] H2 [Hv2 Hd2].
    apply lookup_app_Some in H1 as [H1|[Hlen1 H1]];
      apply lookup_app_Some in H2 as [H2|[Hlen2 H2]].
    + destruct (Hrow _ _ H1 Hd1) as [H1' _]. destruct (Hrow _ _ H2 Hd2) as [H2' _].
      eapply (sound_lookups _ Hsound v); eassumption.
    + exfalso. destruct (Hrow _ _ H1 Hd1) as [_ Hother].
      destruct (j2 - length table1)%nat; simplify_eq/=. by apply Hother.
    + exfalso. destruct (Hrow _ _ H2 Hd2) as [_ Hother].
      destruct (j1 - length table1)%nat; simplify_eq/=. by apply Hother.
    + destruct (j1 - length table1)%nat eqn:E1; [|destruct n; discriminate].
      destruct (j2 - length table1)%nat eqn:E2; [|destruct n; discriminate]. lia.
Qed.

Lemma update_billing_address_sound address_id patch set_as_default vendor table now :
  addresses_sound table ->
  addresses_sound
    (update_billing_address address_id patch set_as_default vendor table now).1.
Proof.
  intros Hsound. unfold update_billing_address.
  destruct (find_billing_address table address_id vendor) as [[i a]|] eqn:Hfound;
    [|exact Hsound].
  pose proof (BillingProperties.list_find_lt _ _ _ _ Hfound) as Hlt.
  apply list_find_Some in Hfound as (Hi & [Hid Hvendor] & _).
  destruct Hsound as [Hkeys Hone].
  assert (Hsound : addresses_sound table) by (by split).
  destruct set_as_default as [[|]|]; simpl.
  - split.
    + rewrite list_fmap_insert, unset_defaults_ids. simpl.
      rewrite list_insert_id; [exact Hkeys|]. rewrite list_lookup_fmap, Hi.
      reflexivity.
    + intros v. apply filter_at_most_one.
      assert (Hrow : ∀ j b,
                 <[i := BillingAddress.set_updated_at now
                          (BillingAddress.set_is_default true
                             (BillingAddress.set_data
                                (apply_patch patch (BillingAddress.data a)) a))]>
                   (unset_defaults vendor (Some address_id) table) !! j = Some b ->
                 BillingAddress.is_default b = true ->
                 (j = i ∧ Int_key (BillingAddress.vendor_id b) = vendor_id vendor)
                 ∨ (j ≠ i ∧ table !! j = Some b
                    ∧ Int_key (BillingAddress.vendor_id b) ≠ vendor_id vendor)).
      { intros j b Hj Hd.
        apply list_lookup_insert_Some in Hj as [(<- & <- & _)|(Hother & Hj)];
          [left; by split|right].
        apply unset_defaults_lookup in Hj as (old & Hold & _ & _ & Hkeep & _).
        destruct (Hkeep Hd) as (-> & _ & [Hv|[= Hsame]]); [by split_and!|].
        exfalso. apply Hother.
        eapply (NoDup_lookup _ i j address_id Hkeys);
          rewrite list_lookup_fmap; [rewrite Hi|rewrite Hold]; simpl; congruence. }
      intros j1 j2 a1 a2 H1 [Hv1 Hd1] H2 [Hv2 Hd2].
      destruct (Hrow _ _ H1 Hd1) as [[-> Hw1]|(Hn1 & H1' & Hw1)];
        destruct (Hrow _ _ H2 Hd2) as [[-> Hw2]|(Hn2 & H2' & Hw2)];
        [reflexivity|congruence|congruence|].
      eapply (sound_lookups _ Hsound v); eassumption.
  - split.
    + rewrite list_fmap_insert. simpl.
      rewrite list_insert_id; [exact Hkeys|]. rewrite list_lookup_fmap, Hi.
      reflexivity.
    + intros v. apply filter_at_most_one.
      intros j1 j2 a1 a2 H1 [Hv1 Hd1] H2 [Hv2 Hd2].
      apply list_lookup_insert_Some in H1 as [(_ & <- & _)|(_ & H1)];
        [discriminate Hd1|].
      apply list_lookup_insert_Some in H2 as [(_ & <- & _)|(_ & H2)];
        [discriminate Hd2|].
      eapply (sound_lookups _ Hsound v); eassumption.
  - split.
    + rewrite list_fmap_insert. simpl.
      rewrite list_insert_id; [exact Hkeys|]. rewrite list_lookup_fmap, Hi.
      reflexivity.
    + intros v. apply filter_at_most_one.
      assert (Hrow : ∀ j b,
                 <[i := BillingAddress.set_updated_at now
                          (BillingAddress.set_data
                             (apply_patch patch (BillingAddress.data a)) a)]> table
                 !! j = Some b ->
                 Int_key (BillingAddress.vendor_id b) = v ->
                 BillingAddress.is_default b = true ->
                 ∃ b', table !! j = Some b' ∧ Int_key (BillingAddress.vendor_id b') = v
                       ∧ BillingAddress.is_default b' = true).
      { intros j b Hj Hv Hd.
        apply list_lookup_insert_Some in Hj as [(<- & <- & _)|(_ & Hj)]; eauto. }
      intros j1 j2 a1 a2 H1 [Hv1 Hd1] H2 [Hv2 Hd2].
      destruct (Hrow _ _ H1 Hv1 Hd1) as (b1 & ? & ? & ?).
      destruct (Hrow _ _ H2 Hv2 Hd2) as (b2 & ? & ? & ?).
      eapply (sound_lookups _ Hsound v); eassumption.
Qed.

Lemma delete_billing_address_sound address_id vendor table :
  addresses_sound table ->
  addresses_sound (delete_billing_address address_id vendor table).1.
Proof.
  intros Hsound. unfold delete_billing_address.
  destruct (find_billing_address table address_id vendor) as [[i a]|]; [|exact Hsound].
  case_bool_decide; [exact Hsound|]. simpl. split.
  - rewrite list_fmap_delete. eapply sublist_NoDup; [apply Hsound|apply sublist_delete].
  - intros v. apply filter_at_most_one.
    intros j1 j2 a1 a2 H1 [Hv1 Hd1] H2 [Hv2 Hd2].
    rewrite list_lookup_delete in H1, H2.
    pose proof (sound_lookups _ Hsound v _ _ _ _ H1 H2 Hv1 Hd1 Hv2 Hd2) as Hsame.
    repeat case_decide; lia.
Qed.

(** X18.  The handlers keep the billing addresses in order: starting from a
    table with distinct keys in which no vendor has two default addresses,
    as the empty one, every sequence of [create_billing_address],
    [update_billing_address] and [delete_billing_address] requests leads to
    such a table. *)
Theorem one_default_address_is_kept table table' :
  addresses_sound table ->
  rtc address_step table table' ->
  addresses_sound table'.
Proof.
  intros Hsound Hsteps. induction Hsteps as [|table1 table2 table3 Hstep _ IH];
    [exact Hsound|].
  apply IH. destruct Hstep.
  - by apply create_billing_address_sound.
  - by apply update_billing_address_sound.
  - by apply delete_billing_address_sound.
Qed.

Lemma unset_defaults_vendors vendor except table :
  BillingAddress.vendor_id <$> unset_defaults vendor except table
  = BillingAddress.vendor_id <$> table.
Proof.
  unfold unset_defaults. rewrite <- list_fmap_compose.
  apply list_fmap_ext. intros j a _. simpl.
  destruct (_ && _); reflexivity.
Qed.

(** The vendor has a billing address exactly when its key is an integer
    that is among the vendor keys of the rows. *)
Lemma get_billing_addresses_nonempty vendor table :
  get_billing_addresses vendor table ≠ []
  <-> ∃ n, vendor_id vendor = Int_key n ∧ n ∈ BillingAddress.vendor_id <$> table.
Proof.
  unfold get_billing_addresses. split.
  - destruct (filter _ table) as [|a rest] eqn:Hfilter; [done|]. intros _.
    assert (Ha : a ∈ filter (fun a => Int_key (BillingAddress.vendor_id a)
                                      = vendor_id vendor)
                   table) by (rewrite Hfilter; left).
    apply list_elem_of_filter in Ha as [Hv Ha].
    exists (BillingAddress.vendor_id a). split; [done|].
    by apply list_elem_of_fmap_2.
  - intros (n & Hkey & Hin) Hnil. apply list_elem_of_fmap in Hin as (a & -> & Ha).
    by apply (filter_nil_not_elem_of _ _ a Hnil).
Qed.

(** A row with the property that is not the only one has a companion. *)
Lemma filter_other {A} (P : A -> Prop) `{!∀ x, Decision (P x)} (l : list A) i x :
  l !! i = Some x -> P x -> length (filter P l) ≠ 1%nat ->
  ∃ j y, j ≠ i ∧ l !! j = Some y ∧ P y.
Proof.
  revert i. induction l as [|y l IH]; intros i Hi Px Hcount; [discriminate|].
  destruct i as [|i]; simpl in Hi.
  - injection Hi as ->. rewrite filter_cons_True in Hcount by exact Px.
    destruct (filter P l) as [|z rest] eqn:Hfilter; [done|].
    assert (Hz : z ∈ filter P l) by (rewrite Hfilter; left).
    apply list_elem_of_filter in Hz as [Pz Hz].
    apply list_elem_of_lookup_1 in Hz as [j Hj].
    exists (S j), z. by split_and!.
  - destruct (decide (P y)) as [Py|Py].
    + exists 0%nat, y. by split_and!.
    + rewrite filter_cons_False in Hcount by exact Py.
      destruct (IH i Hi Px Hcount) as (j & z & Hne & Hj & Pz).
      exists (S j), z. split_and!; [lia|done..].
Qed.

Lemma address_step_keeps_vendors v table table' :
  address_step table table' ->
  v ∈ BillingAddress.vendor_id <$> table ->
  v ∈ BillingAddress.vendor_id <$> table'.
Proof.
  intros Hstep Hin. destruct Hstep.
  - unfold create_billing_address.
    destruct (column_value (vendor_id vendor)) as [vendor_column|]; [|done].
    simpl. rewrite fmap_app. apply elem_of_app. left.
    destruct set_as_default; [by rewrite unset_defaults_vendors|done].
  - unfold update_billing_address.
    destruct (find_billing_address table address_id vendor) as [[i a]|] eqn:Hfound;
      [|done].
    apply list_find_Some in Hfound as (Hi & _ & _).
    destruct set_as_default as [[|]|]; simpl; rewrite list_fmap_insert; simpl;
      rewrite ?unset_defaults_vendors;
      (rewrite list_insert_id; [done|by rewrite list_lookup_fmap, Hi]).
  - unfold delete_billing_address.
    destruct (find_billing_address table address_id vendor) as [[i a]|] eqn:Hfound;
      [|done].
    case_bool_decide as Hcount; [done|]. simpl.
    apply list_find_Some in Hfound as (Hi & [_ Hvendor] & _).
    apply list_elem_of_fmap in Hin as (b & -> & Hb).
    apply list_elem_of_lookup_1 in Hb as [j Hj].
    assert (Hother : ∃ j' b', j' ≠ i ∧ table !! j' = Some b'
                              ∧ BillingAddress.vendor_id b'
                                = BillingAddress.vendor_id b).
    { destruct (decide (j = i)) as [->|Hne]; [|by exists j, b].
      assert (b = a) as -> by congruence.
      destruct (filter_other _ _ _ _ Hi Hvendor Hcount) as (j' & b' & ? & ? & ?).
      exists j', b'. split_and!; [done|done|congruence]. }
    destruct Hother as (j' & b' & Hne & Hj' & <-).
    apply list_elem_of_fmap. exists b'. split; [done|].
    destruct (decide (j' < i)%nat) as [Hlt|Hge].
    + apply (list_elem_of_lookup_2 _ j'). by rewrite list_lookup_delete_lt.
    + apply (list_elem_of_lookup_2 _ (j' - 1)%nat).
      rewrite list_lookup_delete_ge by lia.
      by replace (S (j' - 1)) with j' by lia.
Qed.

(** X19.  A vendor who has a billing address keeps one: no sequence of
    requests to [create_billing_address], [update_billing_address] and
    [delete_billing_address], by whichever vendors, empties the answer of
    [get_billing_addresses] for that vendor. *)
Theorem last_billing_address_is_kept vendor table table' :
  get_billing_addresses vendor table ≠ [] ->
  rtc address_step table table' ->
  get_billing_addresses vendor table' ≠ [].
Proof.
  rewrite !get_billing_addresses_nonempty. intros (n & Hkey & Hin) Hsteps.
  exists n. split; [exact Hkey|].
  induction Hsteps as [|table1 table2 table3 Hstep _ IH]; [exact Hin|].
  apply IH. by eapply address_step_keeps_vendors.
Qed.

Lemma filter_unset_defaults other vendor except table :
  vendor_id other ≠ vendor_id vendor ->
  get_billing_addresses other (unset_defaults vendor except table)
  = get_billing_addresses other table.
Proof.
  intros Hne. unfold get_billing_addresses, unset_defaults.
  induction table as [|a table IH]; [reflexivity|]. rewrite fmap_cons.
  destruct (decide (Int_key (BillingAddress.vendor_id a) = vendor_id other)) as [Ha|Ha].
  - rewrite bool_decide_eq_false_2 by congruence. simpl.
    rewrite !filter_cons_True by exact Ha. by rewrite IH.
  - rewrite (filter_cons_False _ a) by exact Ha. rewrite filter_cons_False; [exact IH|].
    by destruct (_ && _).
Qed.

Lemma filter_insert_other {A} (P : A -> Prop) `{!∀ x, Decision (P x)}
    (l : list A) i x y :
  l !! i = Some x -> ¬ P x -> ¬ P y -> filter P (<[i := y]> l) = filter P l.
Proof.
  revert i. induction l as [|z l IH]; intros i Hi Px Py; [reflexivity|].
  destruct i as [|i]; simpl in *.
  - injection Hi as ->. by rewrite !filter_cons_False.
  - destruct (decide (P z)) as [Pz|Pz].
    + rewrite !filter_cons_True by exact Pz. by rewrite (IH i).
    + rewrite !filter_cons_False by exact Pz. by apply IH.
Qed.

Lemma filter_delete_other {A} (P : A -> Prop) `{!∀ x, Decision (P x)}
    (l : list A) i x :
  l !! i = Some x -> ¬ P x -> filter P (delete i l) = filter P l.
Proof.
  revert i. induction l as [|z l IH]; intros i Hi Px; [reflexivity|].
  destruct i as [|i]; simpl in *.
  - injection Hi as ->. by rewrite filter_cons_False.
  - destruct (decide (P z)) as [Pz|Pz].
    + rewrite !filter_cons_True by exact Pz. by rewrite (IH i).
    + rewrite !filter_cons_False by exact Pz. by apply IH.
Qed.

(** X20.  The billing address handlers act on the addresses of the calling
    vendor only: whatever one vendor creates, updates or deletes, the answer
    of [get_billing_addresses] for every other vendor stays as it was, rows,
    order and default marks included. *)
Theorem other_vendors_addresses_are_untouched other vendor table
    data as_default address_id patch set_as_default now :
  vendor_id other ≠ vendor_id vendor ->
  get_billing_addresses other
    (create_billing_address data as_default vendor table now).1
  = get_billing_addresses other table
  ∧ get_billing_addresses other
      (update_billing_address address_id patch set_as_default vendor table now).1
    = get_billing_addresses other table
  ∧ get_billing_addresses other (delete_billing_address address_id vendor table).1
    = get_billing_addresses other table.
Proof.
  intros Hne. split_and!.
  - unfold create_billing_address.
    destruct (column_value (vendor_id vendor)) as [vendor_column|] eqn:Hcolumn;
      [|reflexivity].
    assert (Hkey : vendor_id vendor = Int_key vendor_column)
      by (destruct (vendor_id vendor); simplify_eq/=; reflexivity).
    simpl. unfold get_billing_addresses at 1. rewrite filter_app.
    rewrite (filter_cons_False _ _ []) by (simpl; congruence).
    rewrite filter_nil, app_nil_r.
    destruct as_default; [by apply filter_unset_defaults|reflexivity].
  - unfold update_billing_address.
    destruct (find_billing_address table address_id vendor) as [[i a]|] eqn:Hfound;
      [|reflexivity].
    apply list_find_Some in Hfound as (Hi & [_ Hvendor] & _).
    destruct set_as_default as [[|]|]; simpl.
    + rewrite <- (filter_unset_defaults other vendor (Some address_id) table Hne).
      unfold get_billing_addresses.
      assert (Hi' : ∃ a', unset_defaults vendor (Some address_id) table !! i = Some a'
                          ∧ Int_key (BillingAddress.vendor_id a') = vendor_id vendor).
      { unfold unset_defaults. rewrite list_lookup_fmap, Hi. simpl.
        eexists. split; [reflexivity|]. by destruct (_ && _). }
      destruct Hi' as (a' & Hi' & Hvendor').
      apply (filter_insert_other _ _ _ _ _ Hi'); simpl; congruence.
    + apply (filter_insert_other _ _ _ _ _ Hi); simpl; congruence.
    + apply (filter_insert_other _ _ _ _ _ Hi); simpl; congruence.
  - unfold delete_billing_address.
    destruct (find_billing_address table address_id vendor) as [[i a]|] eqn:Hfound;
      [|reflexivity].
    apply list_find_Some in Hfound as (Hi & [_ Hvendor] & _).
    case_bool_decide; [reflexivity|]. simpl.
    apply (filter_delete_other _ _ _ _ Hi). congruence.
Qed.

Lemma find_billing_address_foreign table j a vendor :
  NoDup (BillingAddress.id <$> table) ->
  table !! j = Some a ->
  Int_key (BillingAddress.vendor_id a) ≠ vendor_id vendor ->
  find_billing_address table (BillingAddress.id a) vendor = None.
Proof.
  intros Hkeys Hj Hforeign. apply list_find_None, Forall_lookup.
  intros j' b Hj' [Hid Hvendor]. apply Hforeign.
  assert (j' = j) as ->; [|congruence].
  eapply (NoDup_lookup _ j' j (BillingAddress.id a) Hkeys);
    rewrite list_lookup_fmap; [rewrite Hj'|rewrite Hj]; simpl; congruence.
Qed.

(** X21.  A vendor can neither update nor delete the billing address of
    another vendor: with distinct keys, a request that names such an address
    is answered with 404 and leaves the table as it was. *)
Theorem foreign_billing_address_is_not_found table j a vendor
    patch set_as_default now :
  NoDup (BillingAddress.id <$> table) ->
  table !! j = Some a ->
  Int_key (BillingAddress.vendor_id a) ≠ vendor_id vendor ->
  update_billing_address (BillingAddress.id a) patch set_as_default vendor table now
  = (table, Raise (HTTPException 404 "Billing address not found"))
  ∧ delete_billing_address (BillingAddress.id a) vendor table
    = (table, Raise (HTTPException 404 "Billing address not found")).
Proof.
  intros Hkeys Hj Hforeign.
  unfold update_billing_address, delete_billing_address.
  by rewrite (find_billing_address_foreign _ _ _ _ Hkeys Hj Hforeign).
Qed.

Lemma filter_none {A} (P : A -> Prop) `{!∀ x, Decision (P x)} (l : list A) :
  (∀ j x, l !! j = Some x -> ¬ P x) -> filter P l = [].
Proof.
  intros Hnone. apply elem_of_nil_inv. intros x Hx.
  apply list_elem_of_filter in Hx as [Px Hx].
  apply list_elem_of_lookup_1 in Hx as [j Hj]. by apply (Hnone j x).
Qed.

Lemma filter_insert_only {A} (P : A -> Prop) `{!∀ x, Decision (P x)}
    (l : list A) i y :
  (i < length l)%nat -> P y ->
  (∀ j x, j ≠ i -> l !! j = Some x -> ¬ P x) ->
  filter P (<[i := y]> l) = [y].
Proof.
  revert i. induction l as [|z l IH]; intros i Hi Py Hnone; [simpl in Hi; lia|].
  destruct i as [|i]; simpl in *.
  - rewrite filter_cons_True by exact Py. f_equal. apply filter_none.
    intros j x Hj. by apply (Hnone (S j) x).
  - rewrite filter_cons_False by (by apply (Hnone 0%nat z)).
    apply IH; [lia|exact Py|]. intros j x Hne Hj. apply (Hnone (S j) x); [lia|done].
Qed.

(** X22.  Deleting the default address promotes no other one: when a vendor
    with several addresses deletes the one marked default, the request is
    answered, the vendor still has addresses, and none of them is the
    default. *)
Theorem deleting_the_default_leaves_none address_id vendor table i a :
  addresses_sound table ->
  find_billing_address table address_id vendor = Some (i, a) ->
  BillingAddress.is_default a = true ->
  length (get_billing_addresses vendor table) ≠ 1%nat ->
  (delete_billing_address address_id vendor table).2 = Return tt
  ∧ get_billing_addresses vendor (delete_billing_address address_id vendor table).1
    ≠ []
  ∧ default_addresses (vendor_id vendor)
      (delete_billing_address address_id vendor table).1 = [].
Proof.
  intros Hsound Hfound Hdefault Hcount.
  assert (Hhas : get_billing_addresses vendor
                   (delete_billing_address address_id vendor table).1 ≠ []).
  { apply get_billing_addresses_nonempty.
    apply list_find_Some in Hfound as (Hi & [_ Hown] & _).
    exists (BillingAddress.vendor_id a). split; [done|].
    apply (address_step_keeps_vendors _ table); [constructor|].
    apply list_elem_of_fmap. exists a. split; [done|].
    by apply (list_elem_of_lookup_2 _ i). }
  revert Hhas. unfold delete_billing_address. rewrite Hfound.
  unfold get_billing_addresses in Hcount.
  rewrite bool_decide_eq_false_2 by exact Hcount. simpl. intros Hhas.
  split_and!; [reflexivity|exact Hhas|].
  apply list_find_Some in Hfound as (Hi & [_ Hvendor] & _).
  apply filter_none. intros j b Hj [Hv Hd].
  rewrite list_lookup_delete in Hj.
  pose proof (sound_lookups _ Hsound (vendor_id vendor) _ _ _ _
                Hj Hi Hv Hd Hvendor Hdefault) as Hsame.
  case_decide; lia.
Qed.

(** X23.  [set_as_default] makes the address of the request the vendor's
    only default one: for a vendor whose key is an integer, after
    [create_billing_address] with the flag, and, with distinct keys, after
    an answered [update_billing_address] with it, the vendor's default
    addresses are the returned row and nothing else.  For a vendor whose key
    is a UUID, [create_billing_address] raises [ProgrammingError] and the
    table is left as it was. *)
Theorem set_as_default_leaves_one_default data vendor table now
    address_id patch :
  NoDup (BillingAddress.id <$> table) ->
  (∀ vendor_column, vendor_id vendor = Int_key vendor_column ->
     ∃ a, (create_billing_address data true vendor table now).2 = Return a
          ∧ BillingAddress.vendor_id a = vendor_column
          ∧ default_addresses (vendor_id vendor)
              (create_billing_address data true vendor table now).1 = [a])
  ∧ (∀ u, vendor_id vendor = Uuid_key u ->
       ∀ set_as_default,
         create_billing_address data set_as_default vendor table now
         = (table, Raise ProgrammingError))
  ∧ (∀ a, (update_billing_address address_id patch (Some true) vendor table now).2
          = Return a ->
          default_addresses (vendor_id vendor)
            (update_billing_address address_id patch (Some true) vendor table now).1
          = [a]).
Proof.
  intros Hkeys. split_and!.
  - intros vendor_column Hkey. unfold create_billing_address. rewrite Hkey. simpl.
    eexists. split_and!; [reflexivity|reflexivity|].
    unfold default_addresses. simpl.
    rewrite filter_app, filter_cons_True by done.
    rewrite filter_nil, filter_none; [reflexivity|].
    intros j b Hj [Hv Hd].
    apply unset_defaults_lookup in Hj as (old & _ & _ & _ & Hkeep & _).
    destruct (Hkeep Hd) as (-> & _ & [Hother|[=]]). apply Hother.
    simpl. rewrite Hkey. exact Hv.
  - intros u Hkey set_as_default. unfold create_billing_address. rewrite Hkey.
    reflexivity.
  - unfold update_billing_address.
    destruct (find_billing_address table address_id vendor) as [[i a0]|] eqn:Hfound;
      [|discriminate].
    simpl. intros a [= <-].
    pose proof (BillingProperties.list_find_lt _ _ _ _ Hfound) as Hlt.
    apply list_find_Some in Hfound as (Hi & [Hid Hvendor] & _).
    apply filter_insert_only.
    + unfold unset_defaults. by rewrite length_fmap.
    + by split.
    + intros j b Hne Hj [Hv Hd].
      apply unset_defaults_lookup in Hj as (old & Hold & _ & _ & Hkeep & _).
      destruct (Hkeep Hd) as (-> & _ & [Hother|[= Hsame]]); [by apply Hother|].
      apply Hne.
      eapply (NoDup_lookup _ j i address_id Hkeys);
        rewrite list_lookup_fmap; [rewrite Hold|rewrite Hi]; simpl; congruence.
Qed.

(** ** The theorems at work on the scenarios *)

Lemma addresses_sound_nil : addresses_sound [].
Proof. split; [apply NoDup_nil_2|intros v; simpl; lia]. Qed.

Lemma one_default_address_is_kept_witness :
  addresses_sound Scenarios.addresses_both
  ∧ default_addresses (Int_key 7) Scenarios.addresses_both
    = default_addresses (Int_key 7) Scenarios.addresses_one.
Proof.
  split; [|vm_compute; reflexivity].
  apply (one_default_address_is_kept []); [apply addresses_sound_nil|].
  unfold Scenarios.addresses_both, Scenarios.addresses_two, Scenarios.addresses_one.
  eapply rtc_l; [apply step_create_billing_address|].
  eapply rtc_l; [apply step_create_billing_address|].
  apply rtc_once, step_create_billing_address.
Defined.

Lemma last_billing_address_is_kept_witness :
  get_billing_addresses Scenarios.vendor7
    (delete_billing_address 1 Scenarios.vendor7 Scenarios.addresses_one).1 ≠ []
  ∧ (delete_billing_address 1 Scenarios.vendor7 Scenarios.addresses_one).2
    = Raise (HTTPException 400 "Cannot delete the only billing address").
Proof.
  split; [|vm_compute; reflexivity].
  apply (last_billing_address_is_kept Scenarios.vendor7 Scenarios.addresses_one).
  - vm_compute. discriminate.
  - apply rtc_once, step_delete_billing_address.
Defined.

Lemma other_vendors_addresses_are_untouched_witness :
  get_billing_addresses Scenarios.vendor8
    (create_billing_address Scenarios.office true Scenarios.vendor7
       Scenarios.addresses_both (Scenarios.day 3)).1
  = get_billing_addresses Scenarios.vendor8 Scenarios.addresses_both
  ∧ get_billing_addresses Scenarios.vendor8
      (delete_billing_address 1 Scenarios.vendor7 Scenarios.addresses_both).1
    = get_billing_addresses Scenarios.vendor8 Scenarios.addresses_both.
Proof.
  destruct (other_vendors_addresses_are_untouched Scenarios.vendor8 Scenarios.vendor7
              Scenarios.addresses_both Scenarios.office true 1
              {| new_company_name := None; new_contact_person := None;
                 new_email := None; new_phone := None; new_address_line_1 := None;
                 new_address_line_2 := None; new_city := None; new_state := None;
                 new_postal_code := None; new_country := None; new_gstin := None;
                 new_pan := None |} None (Scenarios.day 3))
    as (Hcreate & _ & Hdelete).
  - vm_compute. discriminate.
  - split; [exact Hcreate|exact Hdelete].
Defined.

Lemma foreign_billing_address_is_not_found_witness :
  delete_billing_address 1 Scenarios.vendor8 Scenarios.addresses_both
  = (Scenarios.addresses_both, Raise (HTTPException 404 "Billing address not found")).
Proof.
  edestruct (foreign_billing_address_is_not_found Scenarios.addresses_both 0%nat)
    with (vendor := Scenarios.vendor8) (set_as_default := @None bool)
         (now := Scenarios.day 3)
         (patch := {| new_company_name := None; new_contact_person := None;
                      new_email := None; new_phone := None;
                      new_address_line_1 := None; new_address_line_2 := None;
                      new_city := None; new_state := None; new_postal_code := None;
                      new_country := None; new_gstin := None; new_pan := None |})
    as [_ Hdelete].
  - apply (bool_decide_unpack _). vm_compute. exact I.
  - vm_compute. reflexivity.
  - vm_compute. discriminate.
  - exact Hdelete.
Defined.

Lemma deleting_the_default_leaves_none_witness :
  (delete_billing_address 1 Scenarios.vendor7 Scenarios.addresses_two).2 = Return tt
  ∧ default_addresses (Int_key 7)
      (delete_billing_address 1 Scenarios.vendor7 Scenarios.addresses_two).1 = []
  ∧ length (get_billing_addresses Scenarios.vendor7
              (delete_billing_address 1 Scenarios.vendor7 Scenarios.addresses_two).1)
    = 1%nat.
Proof.
  edestruct (deleting_the_default_leaves_none 1 Scenarios.vendor7
               Scenarios.addresses_two 0%nat) as (Hreturn & _ & Hnone).
  - unfold Scenarios.addresses_two, Scenarios.addresses_one.
    apply create_billing_address_sound, create_billing_address_sound,
      addresses_sound_nil.
  - vm_compute. reflexivity.
  - reflexivity.
  - vm_compute. discriminate.
  - split_and!; [exact Hreturn|exact Hnone|vm_compute; reflexivity].
Defined.

Lemma set_as_default_leaves_one_default_witness :
  (∃ a, (create_billing_address Scenarios.office true Scenarios.vendor7
           Scenarios.addresses_two (Scenarios.day 3)).2 = Return a
        ∧ default_addresses (Int_key 7)
            (create_billing_address Scenarios.office true Scenarios.vendor7
               Scenarios.addresses_two (Scenarios.day 3)).1 = [a]
        ∧ BillingAddress.id a = 3)
  ∧ create_billing_address Scenarios.office true Scenarios.vendor_uuid
      Scenarios.addresses_two (Scenarios.day 3)
    = (Scenarios.addresses_two, Raise ProgrammingError).
Proof.
  destruct (set_as_default_leaves_one_default Scenarios.office Scenarios.vendor7
              Scenarios.addresses_two (Scenarios.day 3) 1
              {| new_company_name := None; new_contact_person := None;
                 new_email := None; new_phone := None; new_address_line_1 := None;
                 new_address_line_2 := None; new_city := None; new_state := None;
                 new_postal_code := None; new_country := None; new_gstin := None;
                 new_pan := None |})
    as (Hcreate & _ & _).
  - apply (bool_decide_unpack _). vm_compute. exact I.
  - destruct (Hcreate 7 eq_refl) as (a & Hreturn & _ & Hone).
    split; [|vm_compute; reflexivity].
    exists a. split_and!; [exact Hreturn|exact Hone|].
    injection Hreturn as <-. vm_compute. reflexivity.
Defined.

End BillingAddresses.

(** * Properties of the usage summary *)

Module UsageSummaries.
Import Billing.

Lemma usage_of_records_zero records :
  Exists (fun u => UsageRecord.usage_limit u = Some 0) records ->
  ∀ entries, usage_of_records records entries = Raise ZeroDivisionError.
Proof.
  induction records as [|u records IH]; intros Hzero entries;
    [by apply Exists_nil in Hzero|].
  simpl. unfold UsageRecord.usage_percentage.
  destruct (UsageRecord.usage_limit u) as [l|] eqn:Hl.
  - case_bool_decide; [reflexivity|]. apply IH.
    apply Exists_cons in Hzero as [Hu|Hlater]; [congruence|exact Hlater].
  - apply IH. apply Exists_cons in Hzero as [Hu|Hlater]; [congruence|exact Hlater].
Qed.

Lemma usage_of_records_returns records :
  Forall (fun u => UsageRecord.usage_limit u ≠ Some 0) records ->
  ∀ entries, ∃ entries', usage_of_records records entries = Return entries'.
Proof.
  induction records as [|u records IH]; intros Hok entries; [by eexists|].
  apply Forall_cons in Hok as [Hu Hok]. simpl. unfold UsageRecord.usage_percentage.
  destruct (UsageRecord.usage_limit u) as [l|] eqn:Hl; [|by apply IH].
  rewrite bool_decide_eq_false_2 by congruence. by apply IH.
Qed.

(** X24.  For a vendor with an active subscription whose plan exists,
    [get_usage_summary] returns exactly when no usage record of the current
    period has the limit 0; one such record makes it raise
    [ZeroDivisionError], whatever the other records are. *)
Theorem usage_summary_returns_iff vendor db now k subscription plan :
  active_subscription db vendor = Some (k, subscription) ->
  List.find (fun p => bool_decide (SubscriptionPlan.id p
                                   = Subscription.plan_id subscription)) (plans db)
  = Some plan ->
  ((∃ summary, get_usage_summary vendor db now = Return summary)
   <-> Forall (fun u => UsageRecord.usage_limit u ≠ Some 0)
              (current_usage db subscription))
  ∧ (get_usage_summary vendor db now = Raise ZeroDivisionError
     <-> Exists (fun u => UsageRecord.usage_limit u = Some 0)
                (current_usage db subscription)).
Proof.
  intros Hactive Hplan. unfold get_usage_summary. rewrite Hactive, Hplan.
  destruct (decide (Exists (fun u => UsageRecord.usage_limit u = Some 0)
                           (current_usage db subscription))) as [Hzero|Hok].
  - rewrite (usage_of_records_zero _ Hzero). split; split; try done.
    + by intros [summary [=]].
    + intros Hall. apply Exists_exists in Hzero as (u & Hu & Hl).
      rewrite Forall_forall in Hall. by destruct (Hall u Hu).
  - assert (Hall : Forall (fun u => UsageRecord.usage_limit u ≠ Some 0)
                          (current_usage db subscription)).
    { apply Forall_forall. intros u Hu Hl. apply Hok, Exists_exists. eauto. }
    destruct (usage_of_records_returns _ Hall ∅) as [entries ->].
    split; split; try done. by eexists.
Qed.

Lemma update_metadata_keys usage_metadata usage_record :
  UsageRecord.subscription_id (update_metadata usage_metadata usage_record)
  = UsageRecord.subscription_id usage_record
  ∧ UsageRecord.period_start (update_metadata usage_metadata usage_record)
    = UsageRecord.period_start usage_record
  ∧ UsageRecord.period_end (update_metadata usage_metadata usage_record)
    = UsageRecord.period_end usage_record
  ∧ UsageRecord.usage_limit (update_metadata usage_metadata usage_record)
    = UsageRecord.usage_limit usage_record.
Proof.
  unfold update_metadata.
  destruct usage_metadata as [m|]; [repeat case_bool_decide|]; done.
Qed.

(** A request that ends in the division by zero has committed a record with
    the limit 0. *)
Lemma track_on_record_raises db slot usage_record usage_increment usage_metadata
    now db' :
  track_on_record db slot usage_record usage_increment usage_metadata now
  = (db', Raise ZeroDivisionError) ->
  ∃ u, UsageRecord.usage_limit u = Some 0
       ∧ UsageRecord.subscription_id u = UsageRecord.subscription_id usage_record
       ∧ UsageRecord.period_start u = UsageRecord.period_start usage_record
       ∧ UsageRecord.period_end u = UsageRecord.period_end usage_record
       ∧ db' = match slot with
               | Some k => with_usage_records (<[k := u]> (usage_records db)) db
               | None => with_usage_records (usage_records db ++ [u]) db
               end.
Proof.
  unfold track_on_record. destruct (_ && _); [discriminate|].
  set (u := update_metadata usage_metadata _).
  destruct (update_metadata_keys usage_metadata
              (UsageRecord.set_updated_at now
                 (UsageRecord.set_usage_count
                    (UsageRecord.usage_count usage_record + usage_increment)
                    usage_record))) as (Hs & Hps & Hpe & Hl).
  fold u in Hs, Hps, Hpe, Hl. simpl in Hs, Hps, Hpe, Hl.
  destruct (usage_bindable slot u); simpl; [|discriminate].
  unfold UsageRecord.usage_percentage.
  destruct (UsageRecord.usage_limit u) as [l|] eqn:Hlimit; [|discriminate].
  case_bool_decide as Hzero; [|discriminate]. subst l.
  intros [= <-]. exists u. by split_and!.
Qed.

(** X25.  A [track_feature_usage] request that raises [ZeroDivisionError]
    leaves the vendor without a usage summary: the record it has committed
    makes every later [get_usage_summary] of the vendor raise
    [ZeroDivisionError] as well. *)
Theorem failed_tracking_breaks_usage_summary feature_name usage_increment
    usage_metadata vendor db now_created now db' later :
  track_feature_usage feature_name usage_increment usage_metadata vendor db
    now_created now = (db', Raise ZeroDivisionError) ->
  get_usage_summary vendor db' later = Raise ZeroDivisionError.
Proof.
  unfold track_feature_usage.
  destruct (active_subscription db vendor) as [[k subscription]|] eqn:Hactive;
    [|discriminate].
  assert (Hbroken : ∀ slot usage_record,
             UsageRecord.subscription_id usage_record = Subscription.id subscription ->
             UsageRecord.period_start usage_record
             >= Subscription.current_period_start subscription ->
             UsageRecord.period_end usage_record
             <= Subscription.current_period_end subscription ->
             (∀ j, slot = Some j -> (j < length (usage_records db))%nat) ->
             track_on_record db slot usage_record usage_increment usage_metadata now
             = (db', Raise ZeroDivisionError) ->
             get_usage_summary vendor db' later = Raise ZeroDivisionError).
  { intros slot usage_record Hs Hps Hpe Hslot Htrack.
    apply track_on_record_raises in Htrack as (u & Hl & Hs' & Hps' & Hpe' & ->).
    assert (Hsame : ∀ rows, active_subscription (with_usage_records rows db) vendor
                            = Some (k, subscription)) by (intros rows; exact Hactive).
    assert (Hin : ∀ rows, u ∈ rows ->
                    get_usage_summary vendor (with_usage_records rows db) later
                    = Raise ZeroDivisionError).
    { intros rows Hu. unfold get_usage_summary. rewrite Hsame.
      rewrite usage_of_records_zero; [reflexivity|].
      apply Exists_exists. exists u. split; [|exact Hl].
      unfold current_usage. simpl. apply list_elem_of_filter. split; [|exact Hu].
      rewrite Hs', Hps', Hpe'. by split_and!. }
    destruct slot as [j|]; apply Hin.
    - apply (list_elem_of_lookup_2 _ j). apply list_lookup_insert_eq. by apply Hslot.
    - apply elem_of_app. right. by left. }
  destruct (current_usage_record db vendor subscription feature_name)
    as [[j usage_record]|] eqn:Hfound.
  - pose proof (BillingProperties.list_find_lt _ _ _ _ Hfound) as Hlt.
    apply list_find_Some in Hfound as (_ & (Hs & _ & _ & Hps & Hpe) & _).
    apply Hbroken; [done..|]. by intros ? [= <-].
  - destruct (List.find _ (plans db)) as [plan|]; [|discriminate].
    destruct (column_value (vendor_id vendor)) as [vendor_column|]; [|discriminate].
    apply Hbroken; simpl; [reflexivity|lia|lia|discriminate].
Qed.

(** ** The theorems at work on the scenarios *)

Lemma usage_summary_returns_iff_witness :
  (∃ summary,
     get_usage_summary Scenarios.vendor7 (Scenarios.db_with_usage 95 (Some 100))
       (Scenarios.day 3) = Return summary)
  ∧ get_usage_summary Scenarios.vendor7 (Scenarios.db_with_usage 5 (Some 0))
      (Scenarios.day 3) = Raise ZeroDivisionError.
Proof.
  split.
  - edestruct (usage_summary_returns_iff Scenarios.vendor7
                 (Scenarios.db_with_usage 95 (Some 100)) (Scenarios.day 3) 0%nat
                 Scenarios.subscription_row
                 Scenarios.basic_plan) as [Hreturns _].
    + vm_compute. reflexivity.
    + vm_compute. reflexivity.
    + apply Hreturns. vm_compute. apply Forall_singleton. discriminate.
  - edestruct (usage_summary_returns_iff Scenarios.vendor7
                 (Scenarios.db_with_usage 5 (Some 0)) (Scenarios.day 3) 0%nat
                 Scenarios.subscription_row
                 Scenarios.basic_plan) as [_ Hraises].
    + vm_compute. reflexivity.
    + vm_compute. reflexivity.
    + apply Hraises. vm_compute. apply Exists_cons_hd. reflexivity.
Defined.

Lemma failed_tracking_breaks_usage_summary_witness :
  get_usage_summary Scenarios.vendor7
    (track_feature_usage "exports" 1 None Scenarios.vendor7
       Scenarios.db_subscribed (Scenarios.day 2)
       (Scenarios.day 2)).1 (Scenarios.day 3)
  = Raise ZeroDivisionError.
Proof.
  eapply (failed_tracking_breaks_usage_summary "exports" 1 None Scenarios.vendor7
            Scenarios.db_subscribed (Scenarios.day 2)
            (Scenarios.day 2)).
  vm_compute. reflexivity.
Defined.

End UsageSummaries.

